(** * MultiAgent-Financial-System: retrieval pipeline, plan executor, auditor

    A shallow embedding of
      - [core/rag_pipeline.py]   (AdvancedRAGPipeline),
      - [core/citations.py]      (Citation, CitationTracker),
      - [agents/sec_researcher.py], [agents/analyst.py], [agents/auditor.py],
      - [agents/orchestrator.py] (OrchestratorAgent),
    and the properties of the system description that are stated about them.

    Conventions.
      - Python [str] is [string]; texts are taken to be ASCII.
      - Python [float] scores are exact rationals [Q].  Statements about
        scores are therefore statements about the arithmetic the code
        writes down, not about IEEE rounding.
      - A Python exception is a value [Raise e] of [result]; [try/except]
        is a match on it.
      - External collaborators (language model, JSON parser, vector store,
        BM25 scorer, cross-encoder, market feed, number formatting) are
        [Variable]s of the section that uses them. *)

From Stdlib Require Import Ascii String QArith Qabs Lqa.
From stdpp Require Import base option list strings pretty gmap sorting.

Local Set Warnings "-register-all,-clear-no-such-hyp".

Local Close Scope Q_scope.
Local Open Scope string_scope.
Local Open Scope list_scope.
Local Open Scope nat_scope.

(* ===================================================================== *)
(** ** Python primitives *)
(* ===================================================================== *)

Module Py.

(** The exception classes the modelled code can meet. *)
Inductive exn :=
| JSONDecodeError
| KeyError (key : string)
| TypeError
| AttributeError
| ValueError
| ExternalError (what : string).

Inductive result (A : Type) :=
| Ok (a : A)
| Raise (e : exn).
Arguments Ok {A} a.
Arguments Raise {A} e.

Definition rbind {A B} (r : result A) (k : A -> result B) : result B :=
  match r with
  | Ok a => k a
  | Raise e => Raise e
  end.

(** Stateful, fallible computations: the state after an exception is not
    observed by any caller in the modelled code. *)
Definition M (St A : Type) : Type := St -> result (A * St).

Definition ret {St A} (a : A) : M St A := fun st => Ok (a, st).
Definition bind {St A B} (m : M St A) (k : A -> M St B) : M St B :=
  fun st => match m st with
            | Ok (a, st') => k a st'
            | Raise e => Raise e
            end.
Definition lift {St A} (r : result A) : M St A :=
  fun st => match r with
            | Ok a => Ok (a, st)
            | Raise e => Raise e
            end.
Definition get {St} : M St St := fun st => Ok (st, st).
Definition put {St} (st : St) : M St unit := fun _ => Ok (tt, st).

(** [for x in xs: acc = body(acc, x)] *)
Fixpoint for_each {St A B} (body : B -> A -> M St B) (xs : list A) (acc : B)
  : M St B :=
  match xs with
  | [] => ret acc
  | x :: xs' => bind (body acc x) (for_each body xs')
  end.

(** *** Strings *)

(** [str.isspace] on one ASCII character. *)
Definition is_space (c : ascii) : bool :=
  let n := nat_of_ascii c in
  ((9 <=? n) && (n <=? 13)) || ((28 <=? n) && (n <=? 32)).

Definition is_digit (c : ascii) : bool :=
  let n := nat_of_ascii c in (48 <=? n) && (n <=? 57).

Definition to_lower (c : ascii) : ascii :=
  let n := nat_of_ascii c in
  if (65 <=? n) && (n <=? 90) then ascii_of_nat (n + 32) else c.

Definition chars (s : string) : list ascii := list_ascii_of_string s.
Definition text (l : list ascii) : string := string_of_list_ascii l.

Fixpoint drop_while {A} (p : A -> bool) (l : list A) : list A :=
  match l with
  | [] => []
  | x :: l' => if p x then drop_while p l' else l
  end.

Fixpoint take_while {A} (p : A -> bool) (l : list A) : list A :=
  match l with
  | [] => []
  | x :: l' => if p x then x :: take_while p l' else []
  end.

(** [s.strip()] *)
Definition strip_chars (l : list ascii) : list ascii :=
  rev (drop_while is_space (rev (drop_while is_space l))).
Definition strip (s : string) : string := text (strip_chars (chars s)).

(** [s.split(sep)] for a one-character separator: never empty. *)
Fixpoint split_on_chars (sep : ascii) (l : list ascii) : list (list ascii) :=
  match l with
  | [] => [[]]
  | c :: l' =>
      if Ascii.eqb c sep then [] :: split_on_chars sep l'
      else match split_on_chars sep l' with
           | [] => [[c]]
           | w :: ws => (c :: w) :: ws
           end
  end.
Definition split_on (sep : ascii) (s : string) : list string :=
  map text (split_on_chars sep (chars s)).

(** [s.split()]: maximal runs of non-whitespace. *)
Fixpoint split_ws_chars (cur : list ascii) (l : list ascii) : list (list ascii) :=
  match l with
  | [] => match cur with [] => [] | _ => [rev cur] end
  | c :: l' =>
      if is_space c
      then match cur with
           | [] => split_ws_chars [] l'
           | _ => rev cur :: split_ws_chars [] l'
           end
      else split_ws_chars (c :: cur) l'
  end.
Definition split (s : string) : list string :=
  map text (split_ws_chars [] (chars s)).

(** [sep.join(parts)] *)
Fixpoint join (sep : string) (parts : list string) : string :=
  match parts with
  | [] => ""
  | [p] => p
  | p :: ps => p +:+ sep +:+ join sep ps
  end.

(** [s.startswith(p)] on character lists. *)
Fixpoint starts_with (p l : list ascii) : bool :=
  match p, l with
  | [], _ => true
  | _ :: _, [] => false
  | a :: p', b :: l' => Ascii.eqb a b && starts_with p' l'
  end.
Definition startswith (s p : string) : bool := starts_with (chars p) (chars s).

(** [p in s] *)
Fixpoint contains_chars (p l : list ascii) : bool :=
  starts_with p l ||
  match l with
  | [] => false
  | _ :: l' => contains_chars p l'
  end.

(** [s[:n]] for [0 <= n] *)
Definition prefix_of (n : nat) (s : string) : string := text (take n (chars s)).

(** [l[start:]] for any integer [start] *)
Definition slice_from {A} (start : Z) (l : list A) : list A :=
  if (start <? 0)%Z
  then drop (Z.to_nat (Z.of_nat (length l) + start)) l
  else drop (Z.to_nat start) l.

(** [l[:-1]] *)
Definition drop_last {A} (l : list A) : list A := take (length l - 1) l.

Definition nl : string := String (ascii_of_nat 10) "".
Definition dq : string := String (ascii_of_nat 34) "".

End Py.

Import Py.

Declare Scope py_scope.
Delimit Scope py_scope with py.
Notation "'let*' x := m 'in' k" := (bind m (fun x => k))
  (at level 10, x pattern, m at level 100, k at level 200) : py_scope.
Notation "'let?' x := r 'in' k" := (rbind r (fun x => k))
  (at level 10, x pattern, r at level 100, k at level 200) : py_scope.
Local Open Scope py_scope.

(* ===================================================================== *)
(** ** JSON values, as [json.loads] builds them *)
(* ===================================================================== *)

Inductive json :=
| JNull
| JBool (b : bool)
| JNum (q : Q)
| JStr (s : string)
| JArr (items : list json)
| JObj (fields : list (string * json)).

(* ===================================================================== *)
(** ** core/rag_pipeline.py *)
(* ===================================================================== *)

Module RagPipeline.

Definition Metadata : Type := list (string * string).

(** [RetrievalResult.source]: one of the three strings of the dataclass
    comment. *)
Inductive Source := dense | sparse | hybrid.

Record RetrievalResult := mkResult {
  content : string;
  metadata : Metadata;
  score : Q;
  source : Source
}.

Definition set_score (s : Q) (r : RetrievalResult) : RetrievalResult :=
  mkResult (content r) (metadata r) s (source r).
Definition set_source (t : Source) (r : RetrievalResult) : RetrievalResult :=
  mkResult (content r) (metadata r) (score r) t.

(** What a retrieval backend hands over: an object that may or may not
    carry the attributes the code probes with [hasattr], and its [str()]. *)
Record PyObj := mkObj {
  obj_page_content : option string;
  obj_content : option string;
  obj_metadata : option Metadata;
  obj_str : string
}.

(** *** Insertion-ordered dict keyed by content *)

Definition Dict : Type := list (string * RetrievalResult).

Fixpoint dict_get (d : Dict) (k : string) : option RetrievalResult :=
  match d with
  | [] => None
  | (k', v) :: d' => if String.eqb k' k then Some v else dict_get d' k
  end.

Definition dict_mem (d : Dict) (k : string) : bool :=
  match dict_get d k with Some _ => true | None => false end.

(** [d[k][field] = ...] for a key that is present *)
Fixpoint dict_alter (f : RetrievalResult -> RetrievalResult) (k : string)
  (d : Dict) : Dict :=
  match d with
  | [] => []
  | (k', v) :: d' =>
      if String.eqb k' k then (k', f v) :: d'
      else (k', v) :: dict_alter f k d'
  end.

(** [d[k] = v] for a key that is absent: a new last entry *)
Definition dict_add (k : string) (v : RetrievalResult) (d : Dict) : Dict :=
  d ++ [(k, v)].

Definition dict_values (d : Dict) : list RetrievalResult := map snd d.

(** [enumerate(l, start)] *)
Fixpoint enumerate {A} (start : nat) (l : list A) : list (nat * A) :=
  match l with
  | [] => []
  | x :: l' => (start, x) :: enumerate (S start) l'
  end.

(** [1 / (60 + rank)] *)
Definition rrf (rank : nat) : Q := 1 # Pos.of_nat (60 + rank).

(** [sorted(l, key=lambda x: x.score, reverse=True)]: stable, descending *)
Fixpoint insert_desc (x : RetrievalResult) (l : list RetrievalResult)
  : list RetrievalResult :=
  match l with
  | [] => [x]
  | y :: l' =>
      if Qle_bool (score y) (score x) then x :: y :: l'
      else y :: insert_desc x l'
  end.
Definition sorted_desc (l : list RetrievalResult) : list RetrievalResult :=
  foldr insert_desc [] l.

(** *** _merge_results *)

Definition dense_content (result : PyObj) : string :=
  match obj_page_content result with
  | Some c => c
  | None => obj_str result
  end.

Definition sparse_content (result : PyObj) : string :=
  match obj_content result with
  | Some c => c
  | None => obj_str result
  end.

Definition metadata_of (result : PyObj) : Metadata :=
  match obj_metadata result with
  | Some m => m
  | None => []
  end.

(** Body of the first loop (lines 144-158). *)
Definition dense_step (results_dict : Dict) (item : nat * PyObj) : Dict :=
  let (rank, result) := item in
  let content := dense_content result in
  let metadata := metadata_of result in
  let d1 :=
    if dict_mem results_dict content then results_dict
    else dict_add content (mkResult content metadata 0 dense) results_dict in
  let d2 := dict_alter (fun r => set_score (score r + rrf rank)%Q r) content d1 in
  dict_alter (set_source hybrid) content d2.

(** Body of the second loop (lines 161-175). *)
Definition sparse_step (results_dict : Dict) (item : nat * PyObj) : Dict :=
  let (rank, result) := item in
  let content := sparse_content result in
  let metadata := metadata_of result in
  let d1 :=
    if dict_mem results_dict content then results_dict
    else dict_add content (mkResult content metadata 0 sparse) results_dict in
  let d2 := dict_alter (fun r => set_score (score r + rrf rank)%Q r) content d1 in
  dict_alter
    (fun r => match source r with dense => set_source hybrid r | _ => r end)
    content d2.

Definition merged_dict (dense_results sparse_results : list PyObj) : Dict :=
  let after_dense := fold_left dense_step (enumerate 1 dense_results) [] in
  fold_left sparse_step (enumerate 1 sparse_results) after_dense.

(** The entries are copied field by field into [RetrievalResult]s, then
    sorted. *)
Definition _merge_results (dense_results sparse_results : list PyObj)
  : list RetrievalResult :=
  sorted_desc (dict_values (merged_dict dense_results sparse_results)).

(** *** _deduplicate *)

Fixpoint dedup_loop (seen_contents : gset string) (results : list RetrievalResult)
  : list RetrievalResult :=
  match results with
  | [] => []
  | result :: rest =>
      let content_key := prefix_of 200 (content result) in
      if bool_decide (content_key ∈ seen_contents)
      then dedup_loop seen_contents rest
      else result :: dedup_loop ({[content_key]} ∪ seen_contents) rest
  end.

Definition _deduplicate (results : list RetrievalResult) : list RetrievalResult :=
  match results with
  | [] => []
  | _ => dedup_loop ∅ results
  end.

(** [np.argsort(scores)]: indices in ascending score order (ties in index
    order; only the set of indices matters below). *)
Fixpoint insert_asc (x : nat * Q) (l : list (nat * Q)) : list (nat * Q) :=
  match l with
  | [] => [x]
  | y :: l' =>
      if Qle_bool (snd x) (snd y) then x :: y :: l'
      else y :: insert_asc x l'
  end.
Definition argsort (scores : list Q) : list nat :=
  map fst (foldr insert_asc [] (enumerate 0 scores)).

(** [zip(results, scores)] then [result.score = score] *)
Fixpoint assign_scores (results : list RetrievalResult) (scores : list Q)
  : list RetrievalResult :=
  match results with
  | [] => []
  | r :: rs =>
      match scores with
      | [] => results
      | s :: ss => set_score s r :: assign_scores rs ss
      end
  end.

(** The pipeline object's mutable part: the lazily loaded model, and (as a
    ghost record) every batch handed to [predict]. *)
Record Pipeline := mkPipeline {
  _reranker : option string;
  predict_calls : list (list (json * string))
}.

Definition fresh_pipeline : Pipeline := mkPipeline None [].

Definition model_id : string := "cross-encoder/ms-marco-MiniLM-L-6-v2".

Section Collaborators.

(** [self.vector_store]: [None], or an object with [similarity_search]. *)
Variable vector_store : option (json -> Z -> result (list PyObj)).
(** [self.documents] *)
Variable documents : list PyObj.
(** [self.bm25.get_scores(tokens)[i]] for the corpus index built over
    [documents]. *)
Variable bm25_score : list string -> nat -> Q.
(** [client.chat.completions.create(...)] followed by
    [.choices[0].message.content]: an API failure, a missing content, or
    the text. *)
Variable chat_create : string -> string -> result (option string).
Variable json_loads : string -> result json.
(** [CrossEncoder.predict] *)
Variable predict : list (json * string) -> list Q.

Definition system_prompt : string :=
  "You are a query decomposition expert. Break complex queries into 2-3 focused sub-queries. Return ONLY a valid JSON array of strings.".

Definition user_prompt (query : string) : string :=
  "Break this query into 2-3 focused sub-queries:" +:+ nl +:+ nl +:+
  "Query: " +:+ query +:+ nl +:+ nl +:+
  "Return as JSON array: [" +:+ dq +:+ "sub-query 1" +:+ dq +:+ ", " +:+
  dq +:+ "sub-query 2" +:+ dq +:+ "]".

(** The body of the outer [try] (lines 51-71). *)
Definition decompose_attempt (query : string) : result (list json) :=
  let? response := chat_create system_prompt (user_prompt query) in
  let? raw := match response with
              | Some c => Ok c
              | None => Raise AttributeError
              end in
  let result := strip raw in
  match json_loads result with
  | Ok (JArr (q :: qs)) => Ok (q :: qs)
  | Ok _ => Ok [JStr query]
  | Raise JSONDecodeError => Ok [JStr query]
  | Raise e => Raise e
  end.

Definition decompose_query (query : string) : list json :=
  match decompose_attempt query with
  | Ok sub_queries => sub_queries
  | Raise _ => [JStr query]
  end.

Definition dense_leg (query : json) (k : Z) : result (list PyObj) :=
  match vector_store with
  | Some similarity_search => similarity_search query k
  | None => Ok []
  end.

Definition get_scores (tokenized_query : list string) : list Q :=
  map (bm25_score tokenized_query) (seq 0 (length documents)).

Definition sparse_leg (query : json) (k : Z) : result (list PyObj) :=
  match documents with
  | [] => Ok []
  | _ =>
      match query with
      | JStr s =>
          let tokenized_query := split s in
          let bm25_scores := get_scores tokenized_query in
          let sparse_indices := rev (slice_from (- k) (argsort bm25_scores)) in
          Ok (omap (fun i => documents !! i) sparse_indices)
      | _ => Raise AttributeError
      end
  end.

Definition hybrid_search (query : json) (k : Z) : result (list RetrievalResult) :=
  let? dense_results := dense_leg query k in
  let? sparse_results := sparse_leg query k in
  Ok (_merge_results dense_results sparse_results).

(** The [reranker] property. *)
Definition reranker : M Pipeline string :=
  let* self := get in
  match _reranker self with
  | Some model => ret model
  | None =>
      let* _ := put (mkPipeline (Some model_id) (predict_calls self)) in
      ret model_id
  end.

Definition call_predict (pairs : list (json * string)) : M Pipeline (list Q) :=
  let* self := get in
  let* _ := put (mkPipeline (_reranker self) (predict_calls self ++ [pairs])) in
  ret (predict pairs).

Definition rerank (query : json) (results : list RetrievalResult)
  : M Pipeline (list RetrievalResult) :=
  let pairs := map (fun r => (query, content r)) results in
  let* _ := reranker in
  let* scores := call_predict pairs in
  ret (sorted_desc (assign_scores results scores)).

Definition year_query (query year : string) : string :=
  query +:+ " (year: " +:+ year +:+ ")".

Fixpoint compare_loop (query : string) (years : list string)
  (results_by_year : gmap string (list RetrievalResult))
  : result (gmap string (list RetrievalResult)) :=
  match years with
  | [] => Ok results_by_year
  | year :: rest =>
      let filtered_query := year_query query year in
      let? results := hybrid_search (JStr filtered_query) 5 in
      compare_loop query rest (<[year := results]> results_by_year)
  end.

Definition compare_across_years (query : string) (years : list string)
  : result (gmap string (list RetrievalResult)) :=
  compare_loop query years ∅.

(** One turn of the loop of [retrieve] up to the slice: search, re-rank if
    there is anything to re-rank. *)
Definition search_and_rerank (sq : json) : M Pipeline (list RetrievalResult) :=
  let* results := lift (hybrid_search sq 20) in
  match results with
  | [] => ret results
  | _ => rerank sq results
  end.

Definition retrieve_step (all_results : list RetrievalResult) (sq : json)
  : M Pipeline (list RetrievalResult) :=
  let* results := search_and_rerank sq in
  ret (all_results ++ take 5 results).

Definition retrieve (query : string) : M Pipeline (list RetrievalResult) :=
  let sub_queries := decompose_query query in
  let* all_results := for_each retrieve_step sub_queries [] in
  let unique_results := _deduplicate all_results in
  ret (take 10 unique_results).

End Collaborators.

End RagPipeline.

(* ===================================================================== *)
(** ** core/citations.py *)
(* ===================================================================== *)

Module Citations.

Record Citation := mkCitation {
  source_type : string;
  ticker : string;
  year : option string;
  section : option string;
  page_range : option (Z * Z);
  url : string;
  timestamp : option string
}.

(** How an f-string renders an [Optional[str]] field. *)
Definition fmt_opt (o : option string) : string :=
  match o with
  | Some s => s
  | None => "None"
  end.

Definition to_markdown (self : Citation) : string :=
  if String.eqb (source_type self) "10-K"
  then "[" +:+ ticker self +:+ " 10-K " +:+ fmt_opt (year self) +:+ ", " +:+
       fmt_opt (section self) +:+ "](" +:+ url self +:+ ")"
  else "[Market Data: " +:+ ticker self +:+ " at " +:+
       fmt_opt (timestamp self) +:+ "]".

Record CitationTracker := mkTracker {
  citations : list Citation;
  claim_to_citation : gmap string (list Citation)
}.

Definition new_tracker : CitationTracker := mkTracker [] ∅.

Definition add_citation (claim : string) (citation : Citation)
  (self : CitationTracker) : CitationTracker :=
  let c2c :=
    match claim_to_citation self !! claim with
    | Some _ => claim_to_citation self
    | None => <[claim := []]> (claim_to_citation self)
    end in
  let c2c' := alter (fun cs => cs ++ [citation]) claim c2c in
  mkTracker (citations self ++ [citation]) c2c'.

Fixpoint format_loop (seen : gset string) (items : list (nat * Citation))
  (output : string) : string :=
  match items with
  | [] => output
  | (i, citation) :: rest =>
      let citation_str := to_markdown citation in
      if bool_decide (citation_str ∈ seen)
      then format_loop seen rest output
      else format_loop ({[citation_str]} ∪ seen) rest
             (output +:+ pretty i +:+ ". " +:+ citation_str +:+ nl)
  end.

Definition format_for_report (self : CitationTracker) : string :=
  match citations self with
  | [] => ""
  | _ =>
      format_loop ∅ (RagPipeline.enumerate 1 (citations self))
        (nl +:+ nl +:+ "## Sources" +:+ nl +:+ nl)
  end.

(** [validate_citations]: for each claim, whether it has a citation. *)
Definition validate_citations (self : CitationTracker) : gmap string bool :=
  (fun cs => 0 <? length cs) <$> claim_to_citation self.

End Citations.

(* ===================================================================== *)
(** ** Values exchanged between the agents *)
(* ===================================================================== *)

Module Data.

Import Citations.

(** A value of the market-data dict: [None], a number, a text, or the
    citation object. *)
Inductive PyVal :=
| VNone
| VNum (q : Q)
| VStr (s : string)
| VCitation (c : Citation).

Abbreviation MarketData := (gmap string PyVal).

Record Risk := mkRisk {
  summary : string;
  risk_citation : Citation
}.

(** The dict [SECResearcherAgent.run] returns: the three keys are always
    there. *)
Record SecData := mkSec {
  risks : list (string * list Risk);
  financials : list (string * string);
  strategy : string
}.

Record CitationCheck := mkCitationCheck {
  total_citations : nat;
  uncited_claims : list string;
  all_valid : bool
}.

Record NumericCheck := mkNumericCheck {
  calculations_valid : bool;
  market_cap_error_pct : option Q;
  calculated : option Q;
  reported : PyVal
}.

Record ClaimCheck := mkClaimCheck {
  unsupported_claims : list string
}.

Record Verification := mkVerification {
  citation_check : CitationCheck;
  numeric_check : NumericCheck;
  claim_check : ClaimCheck;
  overall_confidence : Q
}.

(** What a role writes into the result map. *)
Inductive Output :=
| OutSec (d : SecData)
| OutMarket (m : MarketData)
| OutReport (report : string)
| OutAudit (v : Verification).

(** [d.get(key)] and [d.get(key, default)] *)
Definition dict_get_or (d : MarketData) (key : string) (default : PyVal) : PyVal :=
  match d !! key with
  | Some v => v
  | None => default
  end.

(** [d[key]] *)
Definition getitem {V} (d : gmap string V) (key : string) : result V :=
  match d !! key with
  | Some v => Ok v
  | None => Raise (KeyError key)
  end.

(** [bool(v)] *)
Definition truthy (v : PyVal) : bool :=
  match v with
  | VNone => false
  | VNum q => negb (Qeq_bool q 0)
  | VStr s => negb (String.eqb s "")
  | VCitation _ => true
  end.

(** The number behind a value used in arithmetic.  Anything that is not a
    number raises (sequence repetition [str * int] is left out: the market
    feed fills these fields with numbers or [None]). *)
Definition as_number (v : PyVal) : result Q :=
  match v with
  | VNum q => Ok q
  | _ => Raise TypeError
  end.

End Data.

(* ===================================================================== *)
(** ** agents/auditor.py *)
(* ===================================================================== *)

Module Auditor.

Import Citations Data.

Definition not_char (c : ascii) (x : ascii) : bool := negb (Ascii.eqb x c).

(** A match of the citation pattern, a bracketed label then a
    parenthesised target, both non-empty, anchored at the head of [l];
    returns what follows the match. *)
Definition match_citation_at (l : list ascii) : option (list ascii) :=
  match l with
  | "["%char :: l1 =>
      match take_while (not_char "]") l1, drop_while (not_char "]") l1 with
      | _ :: _, "]"%char :: "("%char :: l2 =>
          match take_while (not_char ")") l2, drop_while (not_char ")") l2 with
          | _ :: _, ")"%char :: rest => Some rest
          | _, _ => None
          end
      | _, _ => None
      end
  | _ => None
  end.

(** [re.search(citation_pattern, s)] *)
Fixpoint search_citation (l : list ascii) : bool :=
  match l with
  | [] => false
  | _ :: l' =>
      match match_citation_at l with
      | Some _ => true
      | None => search_citation l'
      end
  end.

(** [len(re.findall(citation_pattern, s))]: matches do not overlap;
    [skip] characters still belong to the previous match. *)
Fixpoint count_citations (skip : nat) (l : list ascii) : nat :=
  match l with
  | [] => 0
  | _ :: l' =>
      match skip with
      | S n => count_citations n l'
      | 0 =>
          match match_citation_at l with
          | Some rest => S (count_citations (length l - length rest - 1) l')
          | None => count_citations 0 l'
          end
      end
  end.

(** The pattern of a digit followed by a percent sign. *)
Fixpoint has_percentage (l : list ascii) : bool :=
  match l with
  | d :: (p :: _) as l' =>
      (is_digit d && Ascii.eqb p "%") || has_percentage l'
  | _ => false
  end.

(** A dollar sign followed by a digit or a comma. *)
Fixpoint has_dollar_amount (l : list ascii) : bool :=
  match l with
  | d :: (c :: _) as l' =>
      (Ascii.eqb d "$" && (is_digit c || Ascii.eqb c ",")) || has_dollar_amount l'
  | _ => false
  end.

(** Four digits in a row. *)
Fixpoint has_year (l : list ascii) : bool :=
  match l with
  | a :: l' =>
      match l' with
      | b :: c :: d :: _ => is_digit a && is_digit b && is_digit c && is_digit d
      | _ => false
      end || has_year l'
  | [] => false
  end.

Definition has_word (words : list string) (l : list ascii) : bool :=
  existsb (fun w => contains_chars (chars w) (map to_lower l)) words.

Definition trend_words : list string :=
  ["increased"; "decreased"; "grew"; "declined"].
Definition financial_terms : list string :=
  ["risk"; "revenue"; "profit"; "loss"; "debt"].

Definition _is_factual_claim (sentence : string) : bool :=
  let l := chars sentence in
  has_percentage l || has_dollar_amount l || has_year l ||
  has_word trend_words l || has_word financial_terms l.

Definition is_uncited_claim (sentence : string) : bool :=
  (20 <? String.length (strip sentence)) &&
  negb (search_citation (chars sentence)) &&
  _is_factual_claim sentence.

Definition _verify_citations (report : string) (citations : list Citation)
  : CitationCheck :=
  let found_citations := count_citations 0 (chars report) in
  let sentences := split_on "." report in
  let uncited_claims := map strip (filter is_uncited_claim sentences) in
  mkCitationCheck found_citations uncited_claims
    (match uncited_claims with [] => true | _ => false end).

Definition Qlt_bool (a b : Q) : bool := negb (Qle_bool b a).

Definition _verify_numbers (market_data : MarketData) : result NumericCheck :=
  let price := dict_get_or market_data "current_price" VNone in
  let shares := dict_get_or market_data "shares_outstanding" VNone in
  let market_cap := dict_get_or market_data "market_cap" VNone in
  let? calculated_cap :=
    if truthy price && truthy shares
    then (let? p := as_number price in
          let? s := as_number shares in
          Ok (Some (p * s)%Q))
    else Ok None in
  match calculated_cap with
  | Some cap =>
      if truthy (VNum cap) && truthy market_cap
      then (let? mc := as_number market_cap in
            let error_pct := (Qabs (cap - mc) / mc * 100)%Q in
            let valid := Qlt_bool error_pct 5 in
            Ok (mkNumericCheck valid (Some error_pct) calculated_cap market_cap))
      else Ok (mkNumericCheck false None calculated_cap market_cap)
  | None => Ok (mkNumericCheck false None calculated_cap market_cap)
  end.

Definition _verify_claims (analyst_report : string) : ClaimCheck :=
  mkClaimCheck [].

(** [sum([b1, b2, b3])] *)
Definition sum_bools (bs : list bool) : nat :=
  fold_right (fun (b : bool) n => (if b then 1 else 0) + n) 0 bs.

Definition verify (analyst_report : string) (citations : list Citation)
  (market_data : MarketData) : result Verification :=
  let citation_check := _verify_citations analyst_report citations in
  let? numeric_check := _verify_numbers market_data in
  let claim_check := _verify_claims analyst_report in
  let checks_passed :=
    sum_bools [all_valid citation_check;
               calculations_valid numeric_check;
               length (unsupported_claims claim_check) =? 0] in
  Ok (mkVerification citation_check numeric_check claim_check
        (inject_Z (Z.of_nat checks_passed) / 3)%Q).

End Auditor.

(* ===================================================================== *)
(** ** agents/sec_researcher.py *)
(* ===================================================================== *)

Module SecResearcher.

Import Data.

(** [run(task, ticker)]: a placeholder that ignores both arguments. *)
Definition run (task : json) (ticker : string) : SecData :=
  mkSec [] [] "See 10-K filings for details".

End SecResearcher.

(* ===================================================================== *)
(** ** agents/analyst.py *)
(* ===================================================================== *)

Module Analyst.

Import Citations Data.

Section Formatting.

(** Number formatting is the interpreter's: [format(x, ".2f")],
    [format(x, ",.0f")], and [str] of a number or object. *)
Variable fmt_2f : Q -> string.
Variable fmt_commas : Q -> string.
Variable str_other : PyVal -> string.

Definition lines (ls : list string) : string := join nl ls.

(** [f"{v}"] *)
Definition fmt_plain (v : PyVal) : string :=
  match v with
  | VStr s => s
  | VNone => "None"
  | _ => str_other v
  end.

(** [f"{v:.2f}"] and [f"{v:,.0f}"] *)
Definition fmt_float (fmt : Q -> string) (v : PyVal) : result string :=
  match v with
  | VNum q => Ok (fmt q)
  | VStr _ => Raise ValueError
  | VNone | VCitation _ => Raise TypeError
  end.

(** [v * 100] *)
Definition times_100 (v : PyVal) : result PyVal :=
  match v with
  | VNum q => Ok (VNum (q * 100)%Q)
  | VStr s => Ok (VStr (join "" (replicate 100 s)))
  | VNone | VCitation _ => Raise TypeError
  end.

Definition _generate_executive_summary (sec_data : option SecData)
  (market_data : MarketData) : result string :=
  let ticker := dict_get_or market_data "ticker" (VStr "N/A") in
  let price := dict_get_or market_data "current_price" (VNum 0) in
  let market_cap := dict_get_or market_data "market_cap" (VNum 0) in
  let? price_s := fmt_float fmt_2f price in
  let? cap_s := fmt_float fmt_commas market_cap in
  Ok (lines
    [""
     ; "    " +:+ fmt_plain ticker +:+ " is currently trading at $" +:+ price_s +:+
       " with a market capitalization of "
     ; "    $" +:+ cap_s +:+
       ". The company demonstrates solid market positioning with "
     ; "    ongoing strategic initiatives detailed in recent SEC filings."
     ; "    "]).

Definition _summarize_business (sec_data : option SecData) (ticker : string)
  : string :=
  lines
    [""
     ; "    " +:+ ticker +:+
       " operates in its core business segments as detailed in Item 1 of the 10-K. "
     ; "    The company's strategy focuses on innovation and market expansion."
     ; ""
     ; "    *Note: Full business analysis requires indexed 10-K filings.*"
     ; "    "].

Definition _categorize_risks (risks_by_year : list (string * list Risk))
  : list (string * list Risk) :=
  [("Market & Competition", []); ("Operational", []); ("Regulatory", []);
   ("Technology", [])].

Definition _analyze_financials (sec_data : option SecData) (ticker : string)
  : string :=
  lines
    [""
     ; "    ### Revenue & Profitability"
     ; "    Analysis pending 10-K indexing."
     ; ""
     ; "    ### Cash Flow"
     ; "    Analysis pending 10-K indexing."
     ; "    "].

Definition _assess_competition (sec_data : option SecData) (ticker : string)
  : string :=
  lines
    [""
     ; "    " +:+ ticker +:+
       "'s competitive position is outlined in the 10-K Item 1 (Business) "
     ; "    and Item 1A (Risk Factors) sections."
     ; ""
     ; "    *Full competitive analysis requires indexed filings.*"
     ; "    "].

Definition item_float (fmt : Q -> string) (data : MarketData) (key : string)
  : result string :=
  let? v := getitem data key in
  fmt_float fmt v.

(** The table, then the citation passed to [add_citation]. *)
Definition _format_market_metrics (data : MarketData)
  : M CitationTracker string :=
  let* price := lift (item_float fmt_2f data "current_price") in
  let* cap := lift (item_float fmt_commas data "market_cap") in
  let* shares := lift (item_float fmt_commas data "shares_outstanding") in
  let* low := lift (item_float fmt_2f data "52_week_low") in
  let* high := lift (item_float fmt_2f data "52_week_high") in
  let pe := fmt_plain (dict_get_or data "pe_ratio" (VStr "N/A")) in
  let beta := fmt_plain (dict_get_or data "beta" (VStr "N/A")) in
  let* yield100 := lift (times_100 (dict_get_or data "dividend_yield" (VNum 0))) in
  let* yield := lift (fmt_float fmt_2f yield100) in
  let* stamp := lift (getitem data "timestamp") in
  let table :=
    lines
      [""
       ; "| Metric | Value |"
       ; "|--------|-------|"
       ; "| **Current Price** | $" +:+ price +:+ " |"
       ; "| **Market Cap** | $" +:+ cap +:+ " |"
       ; "| **Shares Outstanding** | " +:+ shares +:+ " |"
       ; "| **52-Week Range** | $" +:+ low +:+ " - $" +:+ high +:+ " |"
       ; "| **P/E Ratio** | " +:+ pe +:+ " |"
       ; "| **Beta** | " +:+ beta +:+ " |"
       ; "| **Dividend Yield** | " +:+ yield +:+ "% |"
       ; ""
       ; "*Source: Yahoo Finance, " +:+ fmt_plain stamp +:+ "*"
       ; ""] in
  let* cite := lift (getitem data "citation") in
  (* an object without [to_markdown] would be stored and fail with the
     same exception class when the sources are rendered *)
  let* citation := lift (match cite with
                         | VCitation c => Ok c
                         | _ => Raise AttributeError
                         end) in
  let* self := get in
  let* _ := put (add_citation "Current market metrics" citation self) in
  ret table.

Definition risk_line (risk : Risk) : string :=
  "- " +:+ summary risk +:+ " " +:+ to_markdown (risk_citation risk) +:+ nl.

Definition category_block (output : string) (entry : string * list Risk)
  : string :=
  let (category, risks) := entry in
  let output := output +:+ "**" +:+ category +:+ "**" +:+ nl +:+ nl in
  let output := fold_left (fun out risk => out +:+ risk_line risk)
                  (take 3 risks) output in
  output +:+ nl.

Definition _analyze_risks (sec_data : option SecData) (ticker : string)
  : result string :=
  match sec_data with
  | None => Raise AttributeError
  | Some sd =>
      let risks_by_year := risks sd in
      let output := "### Top Risk Factors (Last 5 Years)" +:+ nl +:+ nl in
      let risk_categories := _categorize_risks risks_by_year in
      Ok (fold_left category_block risk_categories output)
  end.

Definition _generate_investment_view (sec_data : option SecData)
  (market_data : MarketData) : string :=
  lines
    [""
     ; "### Strengths"
     ; "{strengths}"
     ; ""
     ; "### Concerns"
     ; "{concerns}"
     ; ""
     ; "### Key Catalysts to Watch"
     ; "{catalysts}"
     ; ""
     ; "*Note: This is an analytical framework, not investment advice.*"
     ; ""].

(** [synthesize]: the f-string evaluates its fields top to bottom, the
    first being [market_data['timestamp']]. *)
Definition synthesize (sec_data : option SecData)
  (market_data : option MarketData) (ticker : string)
  : M CitationTracker string :=
  match market_data with
  | None => lift (Raise TypeError)
  | Some md =>
      let* stamp := lift (getitem md "timestamp") in
      let* summary := lift (_generate_executive_summary sec_data md) in
      let* metrics := _format_market_metrics md in
      let business := _summarize_business sec_data ticker in
      let* risk_text := lift (_analyze_risks sec_data ticker) in
      let financial_text := _analyze_financials sec_data ticker in
      let competition := _assess_competition sec_data ticker in
      let view := _generate_investment_view sec_data md in
      let* self := get in
      let sources := format_for_report self in
      ret (lines
        ["# Financial Analysis: " +:+ ticker
         ; "*Generated: " +:+ fmt_plain stamp +:+ "*"
         ; ""; "---"; ""; "## Executive Summary"; ""; summary; ""; "---"; ""
         ; "## Current Market Metrics"; ""; metrics; ""; "---"; ""
         ; "## Business Overview & Strategy"; ""; business; ""; "---"; ""
         ; "## Key Risk Factors"; ""; risk_text; ""; "---"; ""
         ; "## Financial Performance Trends"; ""; financial_text; ""; "---"; ""
         ; "## Competitive Position"; ""; competition; ""; "---"; ""
         ; "## Investment Considerations"; ""; view; ""; sources; ""])
  end.

End Formatting.

End Analyst.

(* ===================================================================== *)
(** ** agents/orchestrator.py *)
(* ===================================================================== *)

Module Orchestrator.

Import Citations Data.

(** *** Python's dynamic operations on parsed JSON *)

Fixpoint fields_get (fields : list (string * json)) (key : string) : option json :=
  match fields with
  | [] => None
  | (k, v) :: rest => if String.eqb k key then Some v else fields_get rest key
  end.

(** [v[key]] for a string key *)
Definition subscript (v : json) (key : string) : result json :=
  match v with
  | JObj fields =>
      match fields_get fields key with
      | Some x => Ok x
      | None => Raise (KeyError key)
      end
  | _ => Raise TypeError
  end.

(** [for x in v] *)
Definition iterate (v : json) : result (list json) :=
  match v with
  | JArr items => Ok items
  | JStr s => Ok (map (fun c => JStr (String c "")) (chars s))
  | JObj fields => Ok (map (fun kv => JStr (fst kv)) fields)
  | JNull | JBool _ | JNum _ => Raise TypeError
  end.

Abbreviation ResultMap := (gmap string Output).

(** [dep in results]: the keys are strings; lists and dicts cannot be
    hashed. *)
Definition dep_in (results : ResultMap) (dep : json) : result bool :=
  match dep with
  | JStr s => Ok (bool_decide (is_Some (results !! s)))
  | JNull | JBool _ | JNum _ => Ok false
  | JArr _ | JObj _ => Raise TypeError
  end.

(** [all(dep in results for dep in deps)]: stops at the first [False]. *)
Fixpoint all_in (results : ResultMap) (deps : list json) : result bool :=
  match deps with
  | [] => Ok true
  | dep :: rest =>
      let? present := dep_in results dep in
      if present then all_in results rest else Ok false
  end.

(** The entry under a key, seen at the type its role wrote it with. *)
Definition sec_entry (results : ResultMap) : result (option SecData) :=
  match results !! "sec_researcher" with
  | None => Ok None
  | Some (OutSec d) => Ok (Some d)
  | Some _ => Raise AttributeError
  end.

Definition market_entry (results : ResultMap) : result (option MarketData) :=
  match results !! "market_data" with
  | None => Ok None
  | Some (OutMarket m) => Ok (Some m)
  | Some _ => Raise TypeError
  end.

Definition report_entry (results : ResultMap) : result string :=
  let? out := getitem results "analyst" in
  match out with
  | OutReport s => Ok s
  | _ => Raise TypeError
  end.

Definition step_json (agent : string) (task : string) (deps : list string) : json :=
  JObj [("agent", JStr agent); ("task", JStr task);
        ("dependencies", JArr (map JStr deps))].

Definition plan_json (steps : list json) : json :=
  JObj [("steps", JArr steps)].

Definition fallback_plan (user_query : string) : json :=
  plan_json
    [step_json "sec_researcher" ("Analyze 10-K filings for " +:+ user_query) [];
     step_json "market_data" "Fetch current market data" [];
     step_json "analyst" "Synthesize analysis" ["sec_researcher"; "market_data"];
     step_json "auditor" "Verify analysis" ["analyst"]].

Definition plan_prompt (user_query : string) : string :=
  let q s := dq +:+ s +:+ dq in
  let example agent deps :=
    "                {" +:+ q "agent" +:+ ": " +:+ q agent +:+ ", " +:+
    q "task" +:+ ": " +:+ q "..." +:+ ", " +:+ q "dependencies" +:+ ": [" +:+
    join ", " (map q deps) +:+ "]}" in
  join nl
    [""
     ; "        User Query: " +:+ user_query
     ; "        "
     ; "        Create an execution plan:"
     ; "        1. What information is needed from 10-K filings?"
     ; "        2. What market data is required?"
     ; "        3. What comparisons or calculations are needed?"
     ; "        4. In what order should agents execute?"
     ; "        "
     ; "        Return ONLY valid JSON (no markdown, no code blocks):"
     ; "        {"
     ; "            " +:+ q "steps" +:+ ": ["
     ; example "sec_researcher" [] +:+ ","
     ; example "market_data" [] +:+ ","
     ; example "analyst" ["sec_researcher"; "market_data"] +:+ ","
     ; example "auditor" ["analyst"]
     ; "            ]"
     ; "        }"
     ; "        "].

(** Lines 68-76: drop a leading fence line and a trailing fence line. *)
Definition strip_fences (content : string) : string :=
  if startswith content "```"
  then
    let lines := split_on (ascii_of_nat 10) content in
    let lines := drop 1 lines in
    let lines :=
      match last lines with
      | Some l => if String.eqb (strip l) "```" then drop_last lines else lines
      | None => lines
      end in
    join nl lines
  else content.

Section Agents.

(** [self.planner.run(prompt).content] *)
Variable planner_run : string -> result (option string).
Variable json_loads : string -> result json.
(** [self.market_agent.run(ticker)]: a live feed. *)
Variable market_run : string -> result MarketData.
Variable fmt_2f : Q -> string.
Variable fmt_commas : Q -> string.
Variable str_other : PyVal -> string.

(** [create_plan]; the two warnings printed on the fallback path are not
    part of the returned value. *)
Definition create_plan (user_query : string) : result json :=
  let? response := planner_run (plan_prompt user_query) in
  let? raw := match response with
              | Some c => Ok c
              | None => Raise AttributeError
              end in
  let content := strip_fences (strip raw) in
  match json_loads content with
  | Ok plan => Ok plan
  | Raise JSONDecodeError => Ok (fallback_plan user_query)
  | Raise e => Raise e
  end.

(** [agent_name == name] *)
Definition is_name (agent_name : json) (name : string) : bool :=
  match agent_name with
  | JStr s => String.eqb s name
  | _ => false
  end.

(** The [if]/[elif] chain on [agent_name] (lines 112-128). *)
Definition run_agent (agent_name task : json) (ticker : string)
  (results : ResultMap) : M CitationTracker ResultMap :=
  if is_name agent_name "sec_researcher" then
    ret (<["sec_researcher" := OutSec (SecResearcher.run task ticker)]> results)
  else if is_name agent_name "market_data" then
    let* data := lift (market_run ticker) in
    ret (<["market_data" := OutMarket data]> results)
  else if is_name agent_name "analyst" then
    let* sec_data := lift (sec_entry results) in
    let* market_data := lift (market_entry results) in
    let* report :=
      Analyst.synthesize fmt_2f fmt_commas str_other sec_data market_data ticker in
    ret (<["analyst" := OutReport report]> results)
  else if is_name agent_name "auditor" then
    let* report := lift (report_entry results) in
    let* market_data := lift (market_entry results) in
    let* v := lift (Auditor.verify report [] (default ∅ market_data)) in
    ret (<["auditor" := OutAudit v]> results)
  else ret results.

(** One turn of the loop (lines 101-128). *)
Definition execute_step (ticker : string) (results : ResultMap) (step : json)
  : M CitationTracker ResultMap :=
  let* agent_name := lift (subscript step "agent") in
  let* task := lift (subscript step "task") in
  let* deps := lift (let? d := subscript step "dependencies" in iterate d) in
  let* deps_ready := lift (all_in results deps) in
  if negb deps_ready then ret results
  else run_agent agent_name task ticker results.

Definition execute_plan (plan : json) (ticker : string)
  : M CitationTracker ResultMap :=
  let* steps := lift (let? s := subscript plan "steps" in iterate s) in
  for_each (execute_step ticker) steps ∅.

End Agents.

End Orchestrator.

(* ===================================================================== *)
(** ** agents/market_data.py *)
(* ===================================================================== *)

Module MarketData.

Import Citations Data.

Record Validations := mkValidations {
  has_price : bool;
  has_market_cap : bool;
  has_shares : bool;
  market_cap_matches : bool
}.

(** [v is not None] *)
Definition is_not_none (v : PyVal) : bool :=
  match v with
  | VNone => false
  | _ => true
  end.

(** [_verify_market_cap]: reported cap within 5% of price x shares. *)
Definition _verify_market_cap (data : MarketData) : result bool :=
  let price := dict_get_or data "current_price" VNone in
  let shares := dict_get_or data "shares_outstanding" VNone in
  let reported_cap := dict_get_or data "market_cap" VNone in
  if negb (truthy price && truthy shares && truthy reported_cap) then Ok false
  else
    let? p := as_number price in
    let? s := as_number shares in
    let calculated_cap := (p * s)%Q in
    let tolerance := 0.05%Q in
    let? r := as_number reported_cap in
    Ok (Auditor.Qlt_bool (Qabs (calculated_cap - r) / r) tolerance).

Definition validate_data (data : MarketData) : result Validations :=
  let? matches := _verify_market_cap data in
  Ok (mkValidations
        (is_not_none (dict_get_or data "current_price" VNone))
        (is_not_none (dict_get_or data "market_cap" VNone))
        (is_not_none (dict_get_or data "shares_outstanding" VNone))
        matches).

Section Feed.

(** [yf.Ticker(ticker).info], a dict of the provider's fields, or a
    failure of the call. *)
Variable ticker_info : string -> result (gmap string PyVal).
(** [datetime.now().isoformat()] at the time of the call. *)
Variable timestamp : string.

(** The [data] dict literal (lines 42-69). *)
Definition snapshot (ticker : string) (info : gmap string PyVal) : MarketData :=
  list_to_map
    [("ticker", VStr ticker);
     ("timestamp", VStr timestamp);
     ("current_price", dict_get_or info "currentPrice" VNone);
     ("previous_close", dict_get_or info "previousClose" VNone);
     ("open", dict_get_or info "open" VNone);
     ("market_cap", dict_get_or info "marketCap" VNone);
     ("shares_outstanding", dict_get_or info "sharesOutstanding" VNone);
     ("52_week_high", dict_get_or info "fiftyTwoWeekHigh" VNone);
     ("52_week_low", dict_get_or info "fiftyTwoWeekLow" VNone);
     ("pe_ratio", dict_get_or info "trailingPE" VNone);
     ("forward_pe", dict_get_or info "forwardPE" VNone);
     ("dividend_yield", dict_get_or info "dividendYield" VNone);
     ("beta", dict_get_or info "beta" VNone);
     ("volume", dict_get_or info "volume" VNone);
     ("avg_volume", dict_get_or info "averageVolume" VNone);
     ("currency", dict_get_or info "currency" (VStr "USD"));
     ("exchange", dict_get_or info "exchange" VNone);
     ("timezone", dict_get_or info "timeZoneFullName" VNone);
     ("citation",
      VCitation (mkCitation "market_data" ticker None None None
                   ("https://finance.yahoo.com/quote/" +:+ ticker)
                   (Some timestamp)))].

Definition get_comprehensive_data (ticker : string) : result MarketData :=
  let? info := ticker_info ticker in
  Ok (snapshot ticker info).

Definition run (ticker : string) : result MarketData :=
  get_comprehensive_data ticker.

End Feed.

End MarketData.

(* ===================================================================== *)
(** ** core/memory.py: SessionMemory *)
(* ===================================================================== *)

Module SessionMemory.

Record Turn := mkTurn {
  role : string;
  message : string;
  metadata : list (string * string);
  timestamp : string
}.

Record Session := mkSession {
  conversation_history : list Turn;
  intermediate_plans : list json;
  retrieved_documents : gmap string (list RagPipeline.RetrievalResult);
  agent_states : gmap string json
}.

(** [__init__] *)
Definition new_session : Session := mkSession [] [] ∅ ∅.

(** [add_turn]; [now] is the clock reading [datetime.now()], [metadata]
    the optional argument ([None] by default, replaced by an empty dict). *)
Definition add_turn (role message : string)
  (metadata : option (list (string * string))) (now : string) (self : Session)
  : Session :=
  mkSession
    (conversation_history self
       ++ [mkTurn role message (default [] metadata) now])
    (intermediate_plans self) (retrieved_documents self) (agent_states self).

Definition save_plan (plan : json) (self : Session) : Session :=
  mkSession (conversation_history self) (intermediate_plans self ++ [plan])
    (retrieved_documents self) (agent_states self).

Definition cache_retrieval (query : string)
  (results : list RagPipeline.RetrievalResult) (self : Session) : Session :=
  mkSession (conversation_history self) (intermediate_plans self)
    (<[query := results]> (retrieved_documents self)) (agent_states self).

(** [self.conversation_history[-n_turns:]] *)
Definition get_context_window (n_turns : Z) (self : Session) : list Turn :=
  slice_from (- n_turns) (conversation_history self).

End SessionMemory.

(* ===================================================================== *)
(** ** utils/cost_tracker.py *)
(* ===================================================================== *)

Module CostTracker.

(** A cost dict, in insertion order. *)
Definition Costs : Type := list (string * Q).

Fixpoint costs_get (d : Costs) (k : string) : option Q :=
  match d with
  | [] => None
  | (k', v) :: d' => if String.eqb k' k then Some v else costs_get d' k
  end.

(** [d[k] += x] for a key that is present *)
Fixpoint costs_bump (k : string) (x : Q) (d : Costs) : Costs :=
  match d with
  | [] => []
  | (k', v) :: d' =>
      if String.eqb k' k then (k', (v + x)%Q) :: d'
      else (k', v) :: costs_bump k x d'
  end.

(** [if k not in d: d[k] = 0] then [d[k] += x] *)
Definition costs_track (k : string) (x : Q) (d : Costs) : Costs :=
  let d1 := match costs_get d k with
            | Some _ => d
            | None => d ++ [(k, 0%Q)]
            end in
  costs_bump k x d1.

Record Tracker := mkTracker {
  llm_costs : Costs;
  api_costs : Costs
}.

Definition new_tracker : Tracker := mkTracker [] [].

(** Dollars per token. *)
Definition PRICING : Costs :=
  [("gpt-4o-input", (0.005 / 1000)%Q);
   ("gpt-4o-output", (0.015 / 1000)%Q);
   ("embedding-ada-002", (0.0001 / 1000)%Q);
   ("yfinance", 0.0%Q)].

(** [PRICING.get(key, 0)] *)
Definition price (key : string) : Q := default 0%Q (costs_get PRICING key).

Definition llm_call_cost (model : string) (input_tokens output_tokens : Z) : Q :=
  (inject_Z input_tokens * price (model +:+ "-input")
   + inject_Z output_tokens * price (model +:+ "-output"))%Q.

Definition track_llm_call (model : string) (input_tokens output_tokens : Z)
  (self : Tracker) : Tracker :=
  let cost := llm_call_cost model input_tokens output_tokens in
  mkTracker (costs_track model cost (llm_costs self)) (api_costs self).

Definition track_api_call (api_name : string) (cost : Q) (self : Tracker) : Tracker :=
  mkTracker (llm_costs self) (costs_track api_name cost (api_costs self)).

(** [sum(d.values())] *)
Definition total (d : Costs) : Q := fold_left Qplus (map snd d) 0%Q.

Record Summary := mkSummary {
  total_cost_usd : Q;
  llm_cost_breakdown : Costs;
  api_cost_breakdown : Costs;
  dominant_cost : string
}.

Definition get_summary (self : Tracker) : Summary :=
  let total_llm := total (llm_costs self) in
  let total_api := total (api_costs self) in
  mkSummary (total_llm + total_api)%Q (llm_costs self) (api_costs self)
    (if Auditor.Qlt_bool total_api total_llm then "LLM" else "API").

End CostTracker.

(* ===================================================================== *)
(** * Properties *)
(* ===================================================================== *)

Module PyFacts.

Example strip_ex : strip "  a b  " = "a b".
Proof. reflexivity. Qed.

Example split_ex : split " risk  factors 2023 " = ["risk"; "factors"; "2023"].
Proof. reflexivity. Qed.

Example split_on_ex : split_on "." "a.b." = ["a"; "b"; ""].
Proof. reflexivity. Qed.

Example slice_from_ex :
  slice_from (-2) [1; 2; 3] = [2; 3] /\ slice_from (-5) [1; 2; 3] = [1; 2; 3]
  /\ slice_from 0 [1; 2; 3] = [1; 2; 3] /\ slice_from 2 [1; 2; 3] = [3].
Proof. repeat split. Qed.

Lemma slice_from_length {A} (start : Z) (l : list A) :
  (start < 0)%Z -> length (slice_from start l) <= Z.to_nat (- start).
Proof.
  intros Hneg. unfold slice_from.
  destruct (Z.ltb_spec start 0) as [_|Hge]; [|lia].
  rewrite length_drop. lia.
Qed.

Lemma bind_ok {St A B} (m : M St A) (k : A -> M St B) st b st' :
  bind m k st = Ok (b, st') ->
  exists a st1, m st = Ok (a, st1) /\ k a st1 = Ok (b, st').
Proof.
  unfold bind. destruct (m st) as [[a st1]|e]; [eauto | discriminate].
Qed.

Lemma lift_ok {St A} (r : result A) (st : St) a st' :
  lift r st = Ok (a, st') -> r = Ok a /\ st' = st.
Proof. unfold lift. destruct r; intros H; inversion H; auto. Qed.

End PyFacts.

Module RagFacts.

Import RagPipeline PyFacts.

(** Two shapes of retrieved objects: a vector-store document (it has
    [page_content] and [metadata]) and a corpus document (it has
    [content] and [metadata]). *)
Definition store_doc (c : string) : PyObj :=
  mkObj (Some c) None (Some []) ("page_content=" +:+ c).
Definition corpus_doc (c : string) : PyObj :=
  mkObj None (Some c) (Some []) ("content=" +:+ c).

(** *** The dict operations *)

Lemma dict_alter_length f k d : length (dict_alter f k d) = length d.
Proof.
  induction d as [|[k' v] d IH]; simpl; [done|].
  destruct (String.eqb k' k); simpl; congruence.
Qed.

Lemma dict_alter_Forall (P : RetrievalResult -> Prop) f k d :
  (forall v, P v -> P (f v)) ->
  Forall (fun kv => P (snd kv)) d ->
  Forall (fun kv => P (snd kv)) (dict_alter f k d).
Proof.
  intros Hf. induction 1 as [|[k' v] d Hv Hd IH]; simpl; [constructor|].
  destruct (String.eqb k' k); constructor; simpl in *; auto.
Qed.

Lemma dict_alter_fresh f k v d :
  dict_mem d k = false ->
  dict_alter f k (dict_add k v d) = dict_add k (f v) d.
Proof.
  unfold dict_mem, dict_add. induction d as [|[k' v'] d IH]; simpl.
  - intros _. by rewrite String.eqb_refl.
  - destruct (String.eqb k' k); [discriminate|].
    intros H. by rewrite IH.
Qed.

Lemma dense_step_length d item : length (dense_step d item) <= S (length d).
Proof.
  destruct item as [rank result]. unfold dense_step.
  rewrite !dict_alter_length.
  destruct (dict_mem d _); unfold dict_add; rewrite ?length_app; simpl; lia.
Qed.

Lemma sparse_step_length d item : length (sparse_step d item) <= S (length d).
Proof.
  destruct item as [rank result]. unfold sparse_step.
  rewrite !dict_alter_length.
  destruct (dict_mem d _); unfold dict_add; rewrite ?length_app; simpl; lia.
Qed.

Lemma fold_step_length (step : Dict -> nat * PyObj -> Dict) items d :
  (forall d item, length (step d item) <= S (length d)) ->
  length (fold_left step items d) <= length d + length items.
Proof.
  intros Hstep. revert d.
  induction items as [|it items IH]; intros d; simpl; [lia|].
  specialize (IH (step d it)). specialize (Hstep d it). lia.
Qed.

Lemma enumerate_length {A} start (l : list A) :
  length (enumerate start l) = length l.
Proof. revert start. induction l; intros; simpl; auto. Qed.

Lemma insert_desc_length x l : length (insert_desc x l) = S (length l).
Proof.
  induction l as [|y l IH]; simpl; [done|].
  destruct (Qle_bool _ _); simpl; auto.
Qed.

Lemma sorted_desc_length l : length (sorted_desc l) = length l.
Proof.
  induction l as [|x l IH]; simpl; [done|].
  by rewrite insert_desc_length, IH.
Qed.

Lemma insert_desc_elem x y l : y ∈ insert_desc x l <-> y = x \/ y ∈ l.
Proof.
  induction l as [|z l IH]; simpl.
  - rewrite list_elem_of_singleton, elem_of_nil. tauto.
  - destruct (Qle_bool _ _); [apply elem_of_cons|].
    rewrite !elem_of_cons, IH. tauto.
Qed.

Lemma sorted_desc_elem y l : y ∈ sorted_desc l <-> y ∈ l.
Proof.
  induction l as [|x l IH]; simpl; [done|].
  rewrite insert_desc_elem, elem_of_cons, IH. tauto.
Qed.

(** Fusion never yields more entries than the two legs hold together. *)
Lemma merge_results_length ds ss :
  length (_merge_results ds ss) <= length ds + length ss.
Proof.
  unfold _merge_results, merged_dict, dict_values.
  rewrite sorted_desc_length, length_map.
  etrans; [apply fold_step_length, sparse_step_length|].
  rewrite enumerate_length.
  pose proof (fold_step_length dense_step (enumerate 1 ds) [] dense_step_length) as H.
  rewrite enumerate_length in H. simpl in H. lia.
Qed.

(** *** Tags *)

Definition not_dense (r : RetrievalResult) : Prop := source r <> dense.

Lemma dense_step_not_dense d item :
  Forall (fun kv => not_dense (snd kv)) d ->
  Forall (fun kv => not_dense (snd kv)) (dense_step d item).
Proof.
  intros Hd. destruct item as [rank result]. unfold dense_step.
  destruct (dict_mem d (dense_content result)) eqn:Hmem.
  - apply dict_alter_Forall; [done|].
    apply dict_alter_Forall; [|done].
    by intros [? ? ? ?].
  - rewrite !dict_alter_fresh by done.
    unfold dict_add. apply Forall_app. split; [done|].
    constructor; [done | constructor].
Qed.

Lemma sparse_step_not_dense d item :
  Forall (fun kv => not_dense (snd kv)) d ->
  Forall (fun kv => not_dense (snd kv)) (sparse_step d item).
Proof.
  intros Hd. destruct item as [rank result]. unfold sparse_step.
  apply dict_alter_Forall.
  { intros [c m s t] Ht. unfold not_dense in *. simpl in *. by destruct t. }
  apply dict_alter_Forall; [by intros [? ? ? ?]|].
  destruct (dict_mem d _); [done|].
  unfold dict_add. apply Forall_app. split; [done|].
  constructor; [done | constructor].
Qed.

Lemma fold_step_not_dense (step : Dict -> nat * PyObj -> Dict) items d :
  (forall d item, Forall (fun kv => not_dense (snd kv)) d ->
                  Forall (fun kv => not_dense (snd kv)) (step d item)) ->
  Forall (fun kv => not_dense (snd kv)) d ->
  Forall (fun kv => not_dense (snd kv)) (fold_left step items d).
Proof.
  intros Hstep. revert d. induction items; simpl; auto.
Qed.

(** Whatever the two legs hold, no fused result carries the tag [dense]:
    the first loop overwrites the tag of every entry it touches. *)
Lemma merge_never_dense ds ss r :
  r ∈ _merge_results ds ss -> source r <> dense.
Proof.
  unfold _merge_results. rewrite sorted_desc_elem.
  unfold dict_values. rewrite list_elem_of_fmap. intros [[k v] [-> Hin]].
  assert (Forall (fun kv => not_dense (snd kv)) (merged_dict ds ss)) as Hall.
  { unfold merged_dict.
    apply fold_step_not_dense; [apply sparse_step_not_dense|].
    apply fold_step_not_dense; [apply dense_step_not_dense | constructor]. }
  rewrite Forall_forall in Hall. by apply (Hall (k, v)).
Qed.

(** *** What fusion does to one content key *)

Lemma dict_get_alter f k d c :
  dict_get (dict_alter f k d) c
  = if String.eqb k c then f <$> dict_get d c else dict_get d c.
Proof.
  induction d as [|[k' v] d IH]; simpl; [by destruct (String.eqb k c)|].
  destruct (String.eqb_spec k' k) as [->|Hk]; simpl.
  - destruct (String.eqb_spec k c) as [->|Hc]; simpl; [done|].
    by destruct (String.eqb_spec k c).
  - destruct (String.eqb_spec k' c) as [->|Hc]; simpl; [|exact IH].
    by destruct (String.eqb_spec k c); [congruence|].
Qed.

Lemma dict_get_add k v d c :
  dict_get (dict_add k v d) c
  = match dict_get d c with
    | Some r => Some r
    | None => if String.eqb k c then Some v else None
    end.
Proof.
  unfold dict_add. induction d as [|[k' v'] d IH]; simpl; [done|].
  by destruct (String.eqb k' c).
Qed.

Definition bump (rank : nat) (r : RetrievalResult) : RetrievalResult :=
  set_score (score r + rrf rank)%Q r.
Definition promote (r : RetrievalResult) : RetrievalResult :=
  match source r with
  | dense => set_source hybrid r
  | _ => r
  end.

(** The entry a leg's loop leaves under the key of the item it handles,
    given the entry found there. *)
Definition dense_entry (rank : nat) (result : PyObj) (old : option RetrievalResult)
  : RetrievalResult :=
  set_source hybrid
    (bump rank (default (mkResult (dense_content result) (metadata_of result) 0 dense) old)).
Definition sparse_entry (rank : nat) (result : PyObj) (old : option RetrievalResult)
  : RetrievalResult :=
  promote
    (bump rank (default (mkResult (sparse_content result) (metadata_of result) 0 sparse) old)).

Lemma dense_step_get d rank result c :
  dict_get (dense_step d (rank, result)) c
  = if String.eqb (dense_content result) c
    then Some (dense_entry rank result (dict_get d c))
    else dict_get d c.
Proof.
  unfold dense_step, dense_entry, dict_mem. rewrite !dict_get_alter.
  destruct (String.eqb_spec (dense_content result) c) as [<-|Hc].
  - destruct (dict_get d (dense_content result)) as [r|] eqn:Hget; simpl.
    + by rewrite Hget.
    + by rewrite dict_get_add, Hget, String.eqb_refl.
  - destruct (dict_get d (dense_content result)) as [r|] eqn:Hget; [done|].
    rewrite dict_get_add. destruct (dict_get d c); [done|].
    by destruct (String.eqb_spec (dense_content result) c).
Qed.

Lemma sparse_step_get d rank result c :
  dict_get (sparse_step d (rank, result)) c
  = if String.eqb (sparse_content result) c
    then Some (sparse_entry rank result (dict_get d c))
    else dict_get d c.
Proof.
  unfold sparse_step, sparse_entry, dict_mem. rewrite !dict_get_alter.
  destruct (String.eqb_spec (sparse_content result) c) as [<-|Hc].
  - destruct (dict_get d (sparse_content result)) as [r|] eqn:Hget; simpl.
    + by rewrite Hget.
    + by rewrite dict_get_add, Hget, String.eqb_refl.
  - destruct (dict_get d (sparse_content result)) as [r|] eqn:Hget; [done|].
    rewrite dict_get_add. destruct (dict_get d c); [done|].
    by destruct (String.eqb_spec (sparse_content result) c).
Qed.

Section Leg.

Variable step : Dict -> nat * PyObj -> Dict.
Variable key_of : PyObj -> string.
Variable entry : nat -> PyObj -> option RetrievalResult -> RetrievalResult.
Hypothesis step_get : forall d rank result c,
  dict_get (step d (rank, result)) c
  = if String.eqb (key_of result) c
    then Some (entry rank result (dict_get d c))
    else dict_get d c.

(** A leg that does not hold the key leaves its entry alone. *)
Lemma leg_absent c l start d :
  c ∉ map key_of l ->
  dict_get (fold_left step (enumerate start l) d) c = dict_get d c.
Proof.
  revert start d. induction l as [|x l IH]; intros start d Hc; simpl; [done|].
  simpl in Hc. apply not_elem_of_cons in Hc as [Hx Hl].
  rewrite IH by done. rewrite step_get.
  by destruct (String.eqb_spec (key_of x) c); [congruence|].
Qed.

(** A leg that holds the key once, after [before], handles it once, at
    rank [start + length before]. *)
Lemma leg_once c before x after start d :
  key_of x = c ->
  c ∉ map key_of before -> c ∉ map key_of after ->
  dict_get (fold_left step (enumerate start (before ++ x :: after)) d) c
  = Some (entry (start + length before) x (dict_get d c)).
Proof.
  revert start d. induction before as [|y before IH]; intros start d Hx Hb Ha; simpl.
  - rewrite leg_absent by done. rewrite step_get, Hx, String.eqb_refl.
    by rewrite Nat.add_0_r.
  - simpl in Hb. apply not_elem_of_cons in Hb as [Hy Hb].
    rewrite IH by done. rewrite step_get.
    destruct (String.eqb_spec (key_of y) c); [congruence|].
    do 2 f_equal. lia.
Qed.

End Leg.

Lemma dict_get_elem d c r : dict_get d c = Some r -> r ∈ dict_values d.
Proof.
  unfold dict_values. induction d as [|[k v] d IH]; simpl; [done|].
  destruct (String.eqb k c).
  - intros [= ->]. left.
  - intros H. right. by apply IH.
Qed.

(** X6.  The fusion rule, leg by leg, for legs that hold no content twice.
    An item at dense rank [i] and sparse rank [j] sums both contributions
    and is tagged [hybrid]; an item at sparse rank [j] only has that one
    contribution and keeps [sparse]; an item at dense rank [i] only has
    that one contribution -- and is tagged [hybrid] all the same. *)
Lemma merge_by_leg ds ss c :
  let found := dict_get (merged_dict ds ss) c in
  (forall d1 x d2 s1 y s2,
     ds = d1 ++ x :: d2 -> dense_content x = c ->
     c ∉ map dense_content d1 -> c ∉ map dense_content d2 ->
     ss = s1 ++ y :: s2 -> sparse_content y = c ->
     c ∉ map sparse_content s1 -> c ∉ map sparse_content s2 ->
     exists r, found = Some r /\ r ∈ _merge_results ds ss
       /\ (score r == rrf (S (length d1)) + rrf (S (length s1)))%Q
       /\ source r = hybrid)
  /\ (forall s1 y s2,
        c ∉ map dense_content ds ->
        ss = s1 ++ y :: s2 -> sparse_content y = c ->
        c ∉ map sparse_content s1 -> c ∉ map sparse_content s2 ->
        exists r, found = Some r /\ r ∈ _merge_results ds ss
          /\ (score r == rrf (S (length s1)))%Q
          /\ source r = sparse)
  /\ (forall d1 x d2,
        ds = d1 ++ x :: d2 -> dense_content x = c ->
        c ∉ map dense_content d1 -> c ∉ map dense_content d2 ->
        c ∉ map sparse_content ss ->
        exists r, found = Some r /\ r ∈ _merge_results ds ss
          /\ (score r == rrf (S (length d1)))%Q
          /\ source r = hybrid).
Proof.
  intros found. subst found.
  assert (forall r, dict_get (merged_dict ds ss) c = Some r ->
                    r ∈ _merge_results ds ss) as Hin.
  { intros r Hr. apply sorted_desc_elem. by eapply dict_get_elem. }
  unfold merged_dict in *. split_and!.
  - intros d1 x d2 s1 y s2 -> Hx Hd1 Hd2 -> Hy Hs1 Hs2.
    exists (sparse_entry (1 + length s1) y
              (Some (dense_entry (1 + length d1) x None))).
    assert (dict_get
              (fold_left sparse_step (enumerate 1 (s1 ++ y :: s2))
                 (fold_left dense_step (enumerate 1 (d1 ++ x :: d2)) [])) c
            = Some (sparse_entry (1 + length s1) y
                      (Some (dense_entry (1 + length d1) x None)))) as Hget.
    { rewrite (leg_once _ _ _ sparse_step_get c s1 y s2) by done.
      by rewrite (leg_once _ _ _ dense_step_get c d1 x d2) by done. }
    split; [done|]. split; [by apply Hin|].
    split; [simpl; ring | reflexivity].
  - intros s1 y s2 Hds -> Hy Hs1 Hs2.
    exists (sparse_entry (1 + length s1) y None).
    assert (dict_get
              (fold_left sparse_step (enumerate 1 (s1 ++ y :: s2))
                 (fold_left dense_step (enumerate 1 ds) [])) c
            = Some (sparse_entry (1 + length s1) y None)) as Hget.
    { rewrite (leg_once _ _ _ sparse_step_get c s1 y s2) by done.
      by rewrite (leg_absent _ _ _ dense_step_get c ds) by done. }
    split; [done|]. split; [by apply Hin|].
    split; [simpl; ring | reflexivity].
  - intros d1 x d2 -> Hx Hd1 Hd2 Hss.
    exists (dense_entry (1 + length d1) x None).
    assert (dict_get
              (fold_left sparse_step (enumerate 1 ss)
                 (fold_left dense_step (enumerate 1 (d1 ++ x :: d2)) [])) c
            = Some (dense_entry (1 + length d1) x None)) as Hget.
    { rewrite (leg_absent _ _ _ sparse_step_get c ss) by done.
      by rewrite (leg_once _ _ _ dense_step_get c d1 x d2) by done. }
    split; [done|]. split; [by apply Hin|].
    split; [simpl; ring | reflexivity].
Qed.

(** C1 (the code departs from the claim).  No fused result is ever tagged
    [dense], whatever the two legs hold.  In particular an item found by
    the dense leg only -- here the single document "alpha", at rank 1, with
    an empty sparse leg -- comes out with score 1/61 but tagged [hybrid],
    where the fusion rule promises the tag of its leg, [dense]. *)
Theorem merge_dense_only_tagged_hybrid (ds ss : list PyObj) :
  Forall (fun r => source r <> dense) (_merge_results ds ss)
  /\ _merge_results [store_doc "alpha"] [] = [mkResult "alpha" [] (1 # 61) hybrid].
Proof.
  split; [|reflexivity].
  apply Forall_forall. intros r Hr. by eapply merge_never_dense.
Qed.

(** The rest of the fusion rule on a small pair of lists: "beta" is in both
    legs (dense rank 2, sparse rank 1) and sums both contributions,
    "gamma" is sparse only and keeps [sparse]. *)
Example merge_two_legs :
  _merge_results [store_doc "alpha"; store_doc "beta"]
                 [corpus_doc "beta"; corpus_doc "gamma"]
  = [mkResult "beta" [] (rrf 2 + rrf 1)%Q hybrid;
     mkResult "alpha" [] (1 # 61) hybrid;
     mkResult "gamma" [] (1 # 62) sparse].
Proof. reflexivity. Qed.

(** *** Hybrid search *)

Lemma omap_length {A B} (f : A -> option B) (l : list A) :
  length (omap f l) <= length l.
Proof.
  induction l as [|x l IH]; csimpl; [done|].
  destruct (f x); simpl; lia.
Qed.

Section Search.

Variable vector_store : option (json -> Z -> result (list PyObj)).
Variable documents : list PyObj.
Variable bm25_score : list string -> nat -> Q.

(** The vector store answers the query, with no more than the [k] items
    it was asked for. *)
Definition dense_answers (query : json) (k : Z) : Prop :=
  exists ds, dense_leg vector_store query k = Ok ds /\ length ds <= Z.to_nat k.

Lemma sparse_leg_length s k :
  (1 <= k)%Z ->
  exists ss, sparse_leg documents bm25_score (JStr s) k = Ok ss
             /\ length ss <= Z.to_nat k.
Proof.
  intros Hk. unfold sparse_leg.
  destruct documents as [|doc docs] eqn:Hdocs.
  - exists []. split; [done | simpl; lia].
  - eexists. split; [reflexivity|].
    etrans; [apply omap_length|].
    rewrite length_rev.
    etrans; [apply slice_from_length; lia|].
    rewrite Z.opp_involutive. lia.
Qed.

Lemma hybrid_search_length s k :
  (1 <= k)%Z -> dense_answers (JStr s) k ->
  exists rs, hybrid_search vector_store documents bm25_score (JStr s) k = Ok rs
             /\ length rs <= 2 * Z.to_nat k.
Proof.
  intros Hk (ds & Hds & Hlen).
  destruct (sparse_leg_length s k Hk) as (ss & Hss & Hlen').
  exists (_merge_results ds ss). split.
  - unfold hybrid_search. rewrite Hds. simpl. rewrite Hss. reflexivity.
  - pose proof (merge_results_length ds ss). lia.
Qed.

Lemma compare_loop_bound query years acc :
  (forall year, year ∈ years -> dense_answers (JStr (year_query query year)) 5) ->
  (forall y rs, acc !! y = Some rs -> length rs <= 10) ->
  exists m,
    compare_loop vector_store documents bm25_score query years acc = Ok m
    /\ (forall y rs, m !! y = Some rs -> length rs <= 10)
    /\ (forall y, y ∈ years \/ is_Some (acc !! y) -> is_Some (m !! y)).
Proof.
  revert acc. induction years as [|year rest IH]; intros acc Hans Hacc; simpl.
  - exists acc. split_and!; [done | done |].
    intros y [Hy|Hy]; [by apply elem_of_nil in Hy | done].
  - destruct (hybrid_search_length (year_query query year) 5) as (rs & Hrs & Hlen).
    { lia. } { apply Hans. left. }
    rewrite Hrs. simpl.
    destruct (IH (<[year := rs]> acc)) as (m & Hm & Hbound & Hdom).
    { intros y Hy. apply Hans. by right. }
    { intros y rs'. rewrite lookup_insert. case_decide.
      - intros [= <-]. simpl in Hlen. lia.
      - apply Hacc. }
    exists m. split_and!; [done | done |].
    intros y Hy. apply Hdom.
    destruct (decide (year = y)) as [->|Hne].
    + right. rewrite lookup_insert_eq. eauto.
    + rewrite lookup_insert_ne by done.
      destruct Hy as [Hy|Hy]; [|by right].
      apply elem_of_cons in Hy as [->|Hy]; [done | by left].
Qed.

(** C2 (as the code has it).  Fusion keeps every distinct item of both
    legs and nothing cuts the merged list back to [k]: with a vector store
    that honours its limit, a text query and [1 <= k], hybrid search
    returns, and returns at most [2k] results; compare_across_years, which
    searches with [k = 5], returns a map holding every requested year,
    each with at most 10 results. *)
Theorem hybrid_search_at_most_2k (query : string) (years : list string)
  (s : string) (k : Z) :
  (1 <= k)%Z ->
  dense_answers (JStr s) k ->
  (forall year, year ∈ years -> dense_answers (JStr (year_query query year)) 5) ->
  (exists rs, hybrid_search vector_store documents bm25_score (JStr s) k = Ok rs
              /\ length rs <= 2 * Z.to_nat k)
  /\ (exists m,
        compare_across_years vector_store documents bm25_score query years = Ok m
        /\ (forall y, y ∈ years -> is_Some (m !! y))
        /\ (forall y rs, m !! y = Some rs -> length rs <= 10)).
Proof.
  intros Hk Hs Hyears. split; [by apply hybrid_search_length|].
  destruct (compare_loop_bound query years ∅ Hyears) as (m & Hm & Hbound & Hdom).
  { intros y rs. by rewrite lookup_empty. }
  exists m. split_and!; [done | | done].
  intros y Hy. apply Hdom. by left.
Qed.

End Search.

(** A vector store holding five passages, a corpus holding five others,
    and a BM25 scorer that ranks the corpus by position. *)
Definition store_ex : json -> Z -> result (list PyObj) :=
  fun _ k => Ok (take (Z.to_nat k) (map store_doc ["a1"; "a2"; "a3"; "a4"; "a5"])).
Definition corpus_ex : list PyObj :=
  map corpus_doc ["b1"; "b2"; "b3"; "b4"; "b5"].
Definition bm25_ex : list string -> nat -> Q :=
  fun _ i => inject_Z (Z.of_nat i).

Lemma store_ex_answers q k : (0 <= k)%Z -> dense_answers (Some store_ex) q k.
Proof.
  intros Hk. eexists. split; [reflexivity|].
  rewrite length_take. lia.
Qed.

Lemma hybrid_search_at_most_2k_witness :
  (exists rs, hybrid_search (Some store_ex) corpus_ex bm25_ex (JStr "risk") 3 = Ok rs
              /\ length rs <= 2 * Z.to_nat 3)
  /\ (exists m,
        compare_across_years (Some store_ex) corpus_ex bm25_ex "risk" ["2022"; "2023"]
        = Ok m
        /\ (forall y, y ∈ ["2022"; "2023"] -> is_Some (m !! y))
        /\ (forall y rs, m !! y = Some rs -> length rs <= 10)).
Proof.
  apply (hybrid_search_at_most_2k (Some store_ex) corpus_ex bm25_ex
           "risk" ["2022"; "2023"] "risk" 3).
  - lia.
  - apply store_ex_answers. lia.
  - intros year _. apply store_ex_answers. lia.
Defined.

(** C2 as stated fails: asked for [k = 1], hybrid search returns the dense
    hit and the sparse hit, two results; and compare_across_years maps the
    year 2023 to ten results. *)
Lemma hybrid_search_exceeds_k :
  (exists rs,
     hybrid_search (Some store_ex) corpus_ex bm25_ex (JStr "risk") 1 = Ok rs
     /\ map content rs = ["a1"; "b5"]
     /\ ~ (length rs <= Z.to_nat 1))
  /\ (exists m rs,
        compare_across_years (Some store_ex) corpus_ex bm25_ex "risk" ["2023"] = Ok m
        /\ m !! "2023" = Some rs
        /\ length rs = 10
        /\ ~ (length rs <= 5)).
Proof.
  split.
  - eexists. split; [reflexivity|]. split; [reflexivity|]. simpl. lia.
  - eexists _, _. split; [reflexivity|]. split; [reflexivity|].
    split; [reflexivity|]. simpl. lia.
Qed.

(** *** Query decomposition *)

Section Decompose.

Variable chat_create : string -> string -> result (option string).
Variable json_loads : string -> result json.

Local Abbreviation ask query := (chat_create system_prompt (user_prompt query)).

(** The ways decomposition degrades: the model call raises, or yields no
    text; the text does not parse; the parsed value is not a non-empty
    array. *)
Inductive degraded (query : string) : Prop :=
| call_failed e :
    ask query = Raise e -> degraded query
| no_content :
    ask query = Ok None -> degraded query
| parse_failed c e :
    ask query = Ok (Some c) -> json_loads (strip c) = Raise e -> degraded query
| not_an_array c v :
    ask query = Ok (Some c) -> json_loads (strip c) = Ok v ->
    (forall q qs, v <> JArr (q :: qs)) -> degraded query.

(** C6.  Whenever the model call fails, or its answer does not parse, or
    the parsed value is not a non-empty array, decompose_query returns
    exactly the one-element list holding the query (as a total function it
    has no way of raising). *)
Theorem decompose_fallback (query : string) :
  degraded query ->
  decompose_query chat_create json_loads query = [JStr query].
Proof.
  unfold decompose_query, decompose_attempt.
  intros [e He | He | c e He Hp | c v He Hp Hv]; rewrite He; simpl; try done.
  - rewrite Hp. by destruct e.
  - rewrite Hp. destruct v as [| | | |[|q qs]|]; try done.
    by destruct (Hv q qs).
Qed.

(** C5 (as the code has it).  decompose_query returns a list of at least
    one element, with no upper bound on its length and no check on the
    elements: it is either the one-element fallback or, verbatim, the
    non-empty array the model's answer parsed to. *)
Theorem decompose_nonempty (query : string) :
  1 <= length (decompose_query chat_create json_loads query)
  /\ (decompose_query chat_create json_loads query = [JStr query]
      \/ exists c, ask query = Ok (Some c)
           /\ json_loads (strip c)
              = Ok (JArr (decompose_query chat_create json_loads query))).
Proof.
  unfold decompose_query, decompose_attempt.
  destruct (ask query) as [[c|]|e]; simpl; [| split; [lia | by left] ..].
  destruct (json_loads (strip c)) as [v|e] eqn:Hp.
  - destruct v as [| | | |[|q qs]|]; try (split; [simpl; lia | by left]).
    split; [simpl; lia|]. right. exists c. by rewrite Hp.
  - destruct e; simpl; split; try lia; by left.
Qed.

End Decompose.

(** A model that answers with four sub-queries, one that answers with an
    array of numbers, and a parser that agrees with [json.loads] on these
    two texts. *)
Definition quoted (s : string) : string := dq +:+ s +:+ dq.
Definition four_queries_text : string :=
  "[" +:+ quoted "revenue" +:+ ", " +:+ quoted "margins" +:+ ", " +:+
  quoted "cash flow" +:+ ", " +:+ quoted "debt" +:+ "]".
Definition four_queries : list json :=
  [JStr "revenue"; JStr "margins"; JStr "cash flow"; JStr "debt"].
Definition chat_four : string -> string -> result (option string) :=
  fun _ _ => Ok (Some (four_queries_text +:+ nl)).
Definition chat_numbers : string -> string -> result (option string) :=
  fun _ _ => Ok (Some "[1, 2]").
Definition chat_prose : string -> string -> result (option string) :=
  fun _ _ => Ok (Some "Here are some sub-queries.").
Definition loads_ex (s : string) : result json :=
  if String.eqb s four_queries_text then Ok (JArr four_queries)
  else if String.eqb s "[1, 2]" then Ok (JArr [JNum 1; JNum 2])
  else Raise JSONDecodeError.

Lemma decompose_fallback_witness :
  decompose_query chat_prose loads_ex "risk factors" = [JStr "risk factors"].
Proof.
  apply decompose_fallback.
  apply (parse_failed chat_prose loads_ex "risk factors"
           "Here are some sub-queries." JSONDecodeError); reflexivity.
Defined.

(** C5 as stated fails: an answer listing four sub-queries is returned as
    it is, four long; an answer listing numbers is returned as numbers. *)
Lemma decompose_four_queries :
  decompose_query chat_four loads_ex "outlook" = four_queries
  /\ ~ (length (decompose_query chat_four loads_ex "outlook") <= 3)
  /\ decompose_query chat_numbers loads_ex "outlook" = [JNum 1; JNum 2].
Proof.
  split; [reflexivity|]. split; [|reflexivity].
  change (~ (4 <= 3)). lia.
Qed.

(** *** Re-ranking *)

Section Rerank.

Variable vector_store : option (json -> Z -> result (list PyObj)).
Variable documents : list PyObj.
Variable bm25_score : list string -> nat -> Q.
Variable chat_create : string -> string -> result (option string).
Variable json_loads : string -> result json.
Variable predict : list (json * string) -> list Q.

Local Abbreviation hybrid_search := (hybrid_search vector_store documents bm25_score).
Local Abbreviation search_and_rerank :=
  (search_and_rerank vector_store documents bm25_score predict).
Local Abbreviation retrieve_step :=
  (retrieve_step vector_store documents bm25_score predict).
Local Abbreviation retrieve :=
  (retrieve vector_store documents bm25_score chat_create json_loads predict).

(** What [rerank] does to the pipeline object. *)
Definition after_rerank (pairs : list (json * string)) (st : Pipeline) : Pipeline :=
  mkPipeline (Some (default model_id (_reranker st))) (predict_calls st ++ [pairs]).

Lemma rerank_run query results st :
  rerank predict query results st
  = Ok (sorted_desc (assign_scores results
                       (predict (map (fun r => (query, content r)) results))),
        after_rerank (map (fun r => (query, content r)) results) st).
Proof.
  unfold rerank, reranker, call_predict, bind, get, put, ret, after_rerank.
  destruct st as [[model|] calls]; reflexivity.
Qed.


(** *** The retrieval pipeline *)

(** What one sub-query adds to [all_results]. *)
Definition contribution (sq : json) (part : list RetrievalResult) : Prop :=
  length part <= 5
  /\ exists st1 st2 results,
       search_and_rerank sq st1 = Ok (results, st2) /\ part = take 5 results.

Lemma retrieve_loop_parts sqs acc st all st' :
  for_each retrieve_step sqs acc st = Ok (all, st') ->
  exists parts, Forall2 contribution sqs parts /\ all = acc ++ concat parts.
Proof.
  revert acc st. induction sqs as [|sq sqs IH]; intros acc st; simpl.
  - intros [= <- <-]. exists []. split; [constructor | by rewrite app_nil_r].
  - intros H. apply bind_ok in H as (acc1 & st1 & Hstep & Hrest).
    unfold RagPipeline.retrieve_step in Hstep.
    apply bind_ok in Hstep as (results & st2 & Hsr & Hret).
    injection Hret as <- <-.
    apply IH in Hrest as (parts & Hparts & ->).
    exists (take 5 results :: parts). split.
    + constructor; [|done]. split; [rewrite length_take; lia | eauto].
    + simpl. by rewrite app_assoc.
Qed.

Lemma search_and_rerank_total sq st found :
  hybrid_search sq 20 = Ok found ->
  exists results st', search_and_rerank sq st = Ok (results, st').
Proof.
  intros H. unfold RagPipeline.search_and_rerank, bind, lift. rewrite H.
  destruct found; [by eauto|]. rewrite rerank_run. eauto.
Qed.

Lemma retrieve_loop_total sqs acc st :
  (forall sq, sq ∈ sqs -> exists found, hybrid_search sq 20 = Ok found) ->
  exists all st', for_each retrieve_step sqs acc st = Ok (all, st').
Proof.
  revert acc st. induction sqs as [|sq sqs IH]; intros acc st Hall; simpl.
  - unfold ret. eauto.
  - destruct (Hall sq) as [found Hfound]; [left|].
    destruct (search_and_rerank_total sq st found Hfound) as (results & st1 & Hsr).
    unfold bind at 1. unfold RagPipeline.retrieve_step at 1. unfold bind at 1.
    rewrite Hsr. unfold ret at 1.
    apply IH. intros sq' Hin. apply Hall. by right.
Qed.

Lemma deduplicate_length results : length (_deduplicate results) <= length results.
Proof.
  unfold _deduplicate. destruct results as [|r rs]; [done|].
  generalize (r :: rs) (∅ : gset string). clear.
  intros l. induction l as [|x l IH]; intros seen; simpl; [done|].
  case_bool_decide; simpl.
  - specialize (IH seen). lia.
  - specialize (IH ({[prefix_of 200 (content x)]} ∪ seen)). lia.
Qed.

(** C4.  Whatever the decomposition, a result of [retrieve] has at most
    10 entries: it is the first 10 of the de-duplicated concatenation of
    one part per sub-query, each part being the first 5 (at most) of that
    sub-query's search results.  And [retrieve] does return whenever
    hybrid search answers every sub-query. *)
Theorem retrieve_top_k (query : string) (st : Pipeline) :
  (forall rs st',
     retrieve query st = Ok (rs, st') ->
     length rs <= 10
     /\ exists parts,
          Forall2 contribution (decompose_query chat_create json_loads query) parts
          /\ rs = take 10 (_deduplicate (concat parts)))
  /\ ((forall sq, sq ∈ decompose_query chat_create json_loads query ->
                  exists found, hybrid_search sq 20 = Ok found) ->
      exists rs st', retrieve query st = Ok (rs, st')).
Proof.
  split.
  - intros rs st' H. unfold RagPipeline.retrieve in H.
    apply bind_ok in H as (all & st1 & Hloop & Hret).
    injection Hret as <- <-.
    split; [rewrite length_take; lia|].
    apply retrieve_loop_parts in Hloop as (parts & Hparts & ->).
    by exists parts.
  - intros Hall. unfold RagPipeline.retrieve.
    destruct (retrieve_loop_total _ [] st Hall) as (all & st1 & Hloop).
    unfold bind. rewrite Hloop. unfold ret. eauto.
Qed.

End Rerank.

Definition predict_ex : list (json * string) -> list Q :=
  fun pairs => map (fun p => inject_Z (Z.of_nat (String.length (snd p)))) pairs.



Lemma retrieve_top_k_witness :
  exists rs st',
    retrieve (Some store_ex) corpus_ex bm25_ex chat_four loads_ex predict_ex
      "outlook" fresh_pipeline = Ok (rs, st')
    /\ length rs <= 10.
Proof.
  destruct (retrieve_top_k (Some store_ex) corpus_ex bm25_ex chat_four loads_ex
              predict_ex "outlook" fresh_pipeline) as [Hbound Htotal].
  destruct Htotal as (rs & st' & Hrun).
  - intros sq Hsq.
    change (sq ∈ four_queries) in Hsq. unfold four_queries in Hsq.
    repeat (apply elem_of_cons in Hsq as [->|Hsq]);
      [eexists; reflexivity .. | by apply elem_of_nil in Hsq].
  - exists rs, st'. split; [exact Hrun|]. by destruct (Hbound rs st' Hrun).
Defined.

(** The same run, evaluated: each of the four sub-queries keeps its first
    five results; they are the same five passages, so five remain. *)
Example retrieve_four_queries :
  exists rs st',
    retrieve (Some store_ex) corpus_ex bm25_ex chat_four loads_ex predict_ex
      "outlook" fresh_pipeline = Ok (rs, st')
    /\ map content rs = ["a1"; "b5"; "a2"; "b4"; "a3"]
    /\ _reranker st' = Some model_id
    /\ length (predict_calls st') = 4.
Proof. eexists _, _. split; [vm_compute; reflexivity|]. repeat split. Qed.

End RagFacts.

Module AuditorFacts.

Import Citations Data Auditor.

(** The three fields the numeric check reads hold what the market feed
    puts there: a number, [None], or nothing. *)
Definition numeric_or_none (md : MarketData) (key : string) : Prop :=
  match md !! key with
  | None | Some VNone | Some (VNum _) => True
  | Some (VStr _) | Some (VCitation _) => False
  end.

Definition numeric_fields_ok (md : MarketData) : Prop :=
  numeric_or_none md "current_price"
  /\ numeric_or_none md "shares_outstanding"
  /\ numeric_or_none md "market_cap".

Lemma verify_numbers_total md :
  numeric_fields_ok md -> exists nc, _verify_numbers md = Ok nc.
Proof.
  intros (Hp & Hs & Hc). unfold _verify_numbers, dict_get_or.
  unfold numeric_or_none in *.
  destruct (md !! "current_price") as [[|p| |]|]; try done;
  destruct (md !! "shares_outstanding") as [[|s| |]|]; try done;
  destruct (md !! "market_cap") as [[|c| |]|]; try done; simpl;
  repeat (match goal with
          | |- context [Qeq_bool ?a ?b] => destruct (Qeq_bool a b); simpl
          end); eauto.
Qed.

Definition confidence_level (c : Q) : Prop :=
  (c == 1 # 3 \/ c == 2 # 3 \/ c == 1)%Q.

Lemma verify_level report citations md v :
  verify report citations md = Ok v ->
  unsupported_claims (claim_check v) = []
  /\ confidence_level (overall_confidence v)
  /\ (1 # 3 <= overall_confidence v)%Q.
Proof.
  unfold verify. generalize (_verify_citations report citations) as cc.
  intros cc. destruct (_verify_numbers md) as [nc|e]; [|discriminate].
  cbn [rbind]. intros [= <-].
  cbn [claim_check overall_confidence _verify_claims unsupported_claims].
  split; [done|]. unfold confidence_level.
  destruct (all_valid cc), (calculations_valid nc); vm_compute;
    split; try (by left); try (by right; left); try (by right; right);
    discriminate.
Qed.

(** C10.  Every result of [verify] has an overall confidence of 1/3, 2/3
    or 1, hence never below 1/3: the claim check reports no unsupported
    claim and so always counts as passed.  And [verify] does return a
    result for every report, citation list and market-data mapping whose
    price, share count and market cap are numbers or missing. *)
Theorem verify_confidence_levels (report : string) (cites : list Citation)
  (md : MarketData) :
  (forall v, verify report cites md = Ok v ->
     unsupported_claims (claim_check v) = []
     /\ confidence_level (overall_confidence v)
     /\ (1 # 3 <= overall_confidence v)%Q)
  /\ (numeric_fields_ok md -> exists v, verify report cites md = Ok v).
Proof.
  split; [intros v; apply verify_level|].
  intros Hok. destruct (verify_numbers_total md Hok) as [nc Hnc].
  unfold verify. rewrite Hnc. simpl. eauto.
Qed.

Definition to_option {A} (r : result A) : option A :=
  match r with
  | Ok a => Some a
  | Raise _ => None
  end.
Definition verify_opt (report : string) (md : MarketData) : option Verification :=
  to_option (verify report [] md).
Definition _verify_numbers_opt (md : MarketData) : option NumericCheck :=
  to_option (_verify_numbers md).

(** Price 100 and a million shares against a reported cap of 100 million,
    and against one of 200 million. *)
Definition snapshot (cap : Q) : MarketData :=
  <["current_price" := VNum 100]>
    (<["shares_outstanding" := VNum 1000000]>
       (<["market_cap" := VNum cap]> ∅)).

Lemma snapshot_ok cap : numeric_fields_ok (snapshot cap).
Proof. repeat split. Qed.

Lemma verify_confidence_levels_witness :
  exists v,
    verify "Revenue grew 12% in 2023." [] (snapshot 100000000) = Ok v
    /\ confidence_level (overall_confidence v).
Proof.
  destruct (verify_confidence_levels "Revenue grew 12% in 2023." []
              (snapshot 100000000)) as [Hlevel Htotal].
  destruct (Htotal (snapshot_ok _)) as [v Hv].
  exists v. split; [exact Hv|]. by destruct (Hlevel v Hv) as (_ & ? & _).
Defined.

(** The three levels are all reached. *)
Example confidence_values :
  (overall_confidence <$> verify_opt "Revenue grew 12% in 2023." (snapshot 200000000))
    = Some (1 # 3)%Q
  /\ (overall_confidence <$> verify_opt "Revenue grew 12% in 2023." (snapshot 100000000))
    = Some (2 # 3)%Q
  /\ (overall_confidence <$> verify_opt "Nothing to report." (snapshot 100000000))
    = Some (3 # 3)%Q.
Proof. repeat split. Qed.

Example market_cap_check :
  (calculations_valid <$> _verify_numbers_opt (snapshot 100000000)) = Some true
  /\ (calculations_valid <$> _verify_numbers_opt (snapshot 200000000)) = Some false
  /\ (calculations_valid <$> _verify_numbers_opt ∅) = Some false.
Proof. repeat split. Qed.

(** A cited sentence, a sentence without a factual pattern, and an
    uncited claim. *)
Example uncited_claim_found :
  _verify_citations
    "Revenue grew 12% in 2023 [NVDA 10-K 2023, Item 7](http://sec/x). Margins were stable over the period. Debt is a concern for the company" []
  = mkCitationCheck 1 ["Debt is a concern for the company"] false.
Proof. reflexivity. Qed.

End AuditorFacts.

Module PlanFacts.

Import Citations Data Orchestrator PyFacts.

(** The dependency structure of a plan, read with the accessors the
    executor uses: each step's agent and the names it depends on. *)
Definition as_name (v : json) : result string :=
  match v with
  | JStr s => Ok s
  | _ => Raise TypeError
  end.

Fixpoint each {A B} (f : A -> result B) (l : list A) : result (list B) :=
  match l with
  | [] => Ok []
  | x :: l' =>
      let? y := f x in
      let? ys := each f l' in
      Ok (y :: ys)
  end.

Definition step_edges (step : json) : result (string * list string) :=
  let? agent := subscript step "agent" in
  let? name := as_name agent in
  let? deps := subscript step "dependencies" in
  let? items := iterate deps in
  let? names := each as_name items in
  Ok (name, names).

Definition plan_edges (plan : json) : result (list (string * list string)) :=
  let? steps := subscript plan "steps" in
  let? items := iterate steps in
  each step_edges items.

Definition fallback_edges : list (string * list string) :=
  [("sec_researcher", []); ("market_data", []);
   ("analyst", ["sec_researcher"; "market_data"]); ("auditor", ["analyst"])].

(** Are all the named results there? *)
Definition deps_present (results : ResultMap) (deps : list string) : bool :=
  forallb (fun d => bool_decide (is_Some (results !! d))) deps.

Definition sec_output : Output := OutSec (mkSec [] [] "See 10-K filings for details").

Example strip_fences_ex :
  strip_fences ("```json" +:+ nl +:+ "{}" +:+ nl +:+ "```") = "{}"
  /\ strip_fences "{}" = "{}".
Proof. split; reflexivity. Qed.

Section Agents.

Variable planner_run : string -> result (option string).
Variable json_loads : string -> result json.
Variable market_run : string -> result MarketData.
Variable fmt_2f : Q -> string.
Variable fmt_commas : Q -> string.
Variable str_other : PyVal -> string.

Local Abbreviation create_plan := (create_plan planner_run json_loads).
Local Abbreviation run_agent :=
  (run_agent market_run fmt_2f fmt_commas str_other).
Local Abbreviation execute_step :=
  (execute_step market_run fmt_2f fmt_commas str_other).
Local Abbreviation execute_plan :=
  (execute_plan market_run fmt_2f fmt_commas str_other).

(** C7.  When the planner's text, fences stripped, is rejected by the JSON
    parser, create_plan returns -- without raising -- the fallback plan:
    four steps whose agents and dependencies are the same on every call
    (only the first step's task text quotes the goal). *)
Theorem create_plan_fallback (user_query raw : string) :
  planner_run (plan_prompt user_query) = Ok (Some raw) ->
  json_loads (strip_fences (strip raw)) = Raise JSONDecodeError ->
  create_plan user_query = Ok (fallback_plan user_query)
  /\ plan_edges (fallback_plan user_query) = Ok fallback_edges.
Proof.
  intros Hrun Hparse. split; [|reflexivity].
  unfold Orchestrator.create_plan. rewrite Hrun. simpl. by rewrite Hparse.
Qed.

(** *** Dependency gating *)

Lemma all_in_strings results deps :
  all_in results (map JStr deps) = Ok (deps_present results deps).
Proof.
  induction deps as [|d deps IH]; simpl; [done|].
  destruct (bool_decide _); simpl; [exact IH | done].
Qed.

(** A step runs exactly when all it depends on is in the result map;
    otherwise it is passed over and the map is left as it is. *)
Lemma execute_step_gate ticker results agent task deps st :
  execute_step ticker results (step_json agent task deps) st
  = if deps_present results deps
    then run_agent (JStr agent) (JStr task) ticker results st
    else Ok (results, st).
Proof.
  unfold Orchestrator.execute_step, step_json, bind, lift.
  cbn [subscript fields_get String.eqb Ascii.eqb Bool.eqb iterate rbind].
  rewrite all_in_strings. by destruct (deps_present results deps).
Qed.

Lemma execute_plan_steps ticker steps st :
  execute_plan (plan_json steps) ticker st
  = for_each (execute_step ticker) steps ∅ st.
Proof. reflexivity. Qed.

Lemma run_sec task ticker results st :
  run_agent (JStr "sec_researcher") task ticker results st
  = Ok (<["sec_researcher" := sec_output]> results, st).
Proof. reflexivity. Qed.

Lemma run_market task ticker results st md :
  market_run ticker = Ok md ->
  run_agent (JStr "market_data") task ticker results st
  = Ok (<["market_data" := OutMarket md]> results, st).
Proof.
  intros H. unfold Orchestrator.run_agent. cbn [is_name String.eqb Ascii.eqb Bool.eqb].
  unfold bind, lift. by rewrite H.
Qed.



(** *** The result map is keyed by role *)

(** Each role's output sits under that role's own key; the projections
    [sec_entry], [market_entry] and [report_entry] therefore never meet an
    entry of another shape. *)
Definition entry_ok (key : string) (o : Output) : Prop :=
  match o with
  | OutSec _ => key = "sec_researcher"
  | OutMarket _ => key = "market_data"
  | OutReport _ => key = "analyst"
  | OutAudit _ => key = "auditor"
  end.

Lemma run_agent_typed a t ticker results st results' st' :
  map_Forall entry_ok results ->
  run_agent a t ticker results st = Ok (results', st') ->
  map_Forall entry_ok results'.
Proof.
  intros Hok. unfold Orchestrator.run_agent.
  repeat match goal with
         | |- context [if is_name ?x ?n then _ else _] => destruct (is_name x n)
         end.
  - intros [= <- <-]. by apply map_Forall_insert_2.
  - intros H. apply bind_ok in H as (md & st1 & _ & [= <- <-]).
    by apply map_Forall_insert_2.
  - intros H. apply bind_ok in H as (sd & st1 & _ & H).
    apply bind_ok in H as (md & st2 & _ & H).
    apply bind_ok in H as (report & st3 & _ & [= <- <-]).
    by apply map_Forall_insert_2.
  - intros H. apply bind_ok in H as (report & st1 & _ & H).
    apply bind_ok in H as (md & st2 & _ & H).
    apply bind_ok in H as (v & st3 & _ & [= <- <-]).
    by apply map_Forall_insert_2.
  - by intros [= <- <-].
Qed.

Lemma execute_step_typed ticker results step st results' st' :
  map_Forall entry_ok results ->
  execute_step ticker results step st = Ok (results', st') ->
  map_Forall entry_ok results'.
Proof.
  intros Hok H. unfold Orchestrator.execute_step in H.
  apply bind_ok in H as (a & st1 & _ & H).
  apply bind_ok in H as (t & st2 & _ & H).
  apply bind_ok in H as (deps & st3 & _ & H).
  apply bind_ok in H as (ready & st4 & _ & H).
  destruct ready; simpl in H.
  - by eapply run_agent_typed.
  - by injection H as <- <-.
Qed.

Lemma execute_plan_typed plan ticker st results st' :
  execute_plan plan ticker st = Ok (results, st') ->
  map_Forall entry_ok results.
Proof.
  unfold Orchestrator.execute_plan. intros H.
  apply bind_ok in H as (steps & st1 & _ & H).
  assert (map_Forall entry_ok (∅ : ResultMap)) as Hempty by apply map_Forall_empty.
  revert H Hempty. generalize (∅ : ResultMap) st1.
  induction steps as [|step steps IH]; intros acc st2; simpl.
  - by intros [= <- <-].
  - intros H Hacc. apply bind_ok in H as (acc' & st3 & Hstep & Hrest).
    eapply IH; [exact Hrest|]. by eapply execute_step_typed.
Qed.

Lemma typed_entries_read results :
  map_Forall entry_ok results ->
  (exists sd, sec_entry results = Ok sd)
  /\ (exists md, market_entry results = Ok md)
  /\ (is_Some (results !! "analyst") -> exists report, report_entry results = Ok report).
Proof.
  intros Hok. unfold sec_entry, market_entry, report_entry, getitem. split_and!.
  - destruct (results !! "sec_researcher") as [o|] eqn:H; [|by eauto].
    apply Hok in H. destruct o; simpl in H; by eauto.
  - destruct (results !! "market_data") as [o|] eqn:H; [|by eauto].
    apply Hok in H. destruct o; simpl in H; by eauto.
  - intros [o H]. rewrite H. simpl.
    apply Hok in H. destruct o; simpl in H; by eauto.
Qed.

(** C8 (the code departs from the claim).  A step that runs without its
    upstream entry aborts the whole execution: the auditor, run with no
    analyst entry, raises [KeyError]; the analyst, run with no
    market-data entry -- with or without filing research -- raises
    [TypeError]. *)
Theorem missing_upstream_aborts (task ticker : string) (st : CitationTracker) :
  execute_plan (plan_json [step_json "auditor" task []]) ticker st
  = Raise (KeyError "analyst")
  /\ execute_plan (plan_json [step_json "analyst" task []]) ticker st
     = Raise TypeError
  /\ execute_plan
       (plan_json [step_json "sec_researcher" task [];
                   step_json "analyst" task ["sec_researcher"]]) ticker st
     = Raise TypeError.
Proof. split_and!; vm_compute; reflexivity. Qed.

End Agents.

(** A planner that answers in prose inside a code fence, a parser that
    rejects it, a market feed with a complete snapshot, and formatters that
    print a fixed text. *)
Definition planner_ex : string -> result (option string) :=
  fun _ => Ok (Some ("```json" +:+ nl +:+ "I would start with the filings." +:+ nl +:+ "```")).
Definition loads_none : string -> result json :=
  fun _ => Raise JSONDecodeError.
Definition quote_ex (ticker : string) : MarketData :=
  list_to_map
    [("ticker", VStr ticker); ("timestamp", VStr "2024-01-02T10:00:00");
     ("current_price", VNum 100); ("market_cap", VNum 100000000);
     ("shares_outstanding", VNum 1000000);
     ("52_week_high", VNum 120); ("52_week_low", VNum 80);
     ("pe_ratio", VNone); ("dividend_yield", VNum 0);
     ("citation",
      VCitation (mkCitation "market_data" ticker None None None
                   ("https://finance.yahoo.com/quote/" +:+ ticker)
                   (Some "2024-01-02T10:00:00")))].
Definition market_ex : string -> result MarketData :=
  fun ticker => Ok (quote_ex ticker).
Definition fmt_ex : Q -> string := fun _ => "0.00".
Definition str_ex : PyVal -> string := fun _ => "0.0".

Lemma create_plan_fallback_witness :
  create_plan planner_ex loads_none "Analyze NVDA" = Ok (fallback_plan "Analyze NVDA")
  /\ plan_edges (fallback_plan "Analyze NVDA") = Ok fallback_edges.
Proof.
  apply (create_plan_fallback planner_ex loads_none "Analyze NVDA"
           ("```json" +:+ nl +:+ "I would start with the filings." +:+ nl +:+ "```"));
    reflexivity.
Defined.


(** The fallback plan, run against the complete snapshot: all four roles
    write their entry, and the analyst's tracker holds the one citation. *)
Example fallback_plan_runs :
  exists results tracker,
    execute_plan market_ex fmt_ex fmt_ex str_ex (fallback_plan "Analyze NVDA")
      "NVDA" new_tracker = Ok (results, tracker)
    /\ dom results
       = ({["sec_researcher"; "market_data"; "analyst"; "auditor"]} : gset string)
    /\ length (citations tracker) = 1.
Proof.
  eexists _, _. split; [vm_compute; reflexivity|].
  split; [|reflexivity]. by vm_compute.
Qed.

End PlanFacts.

(* ===================================================================== *)
(** * Further properties of the retrieval pipeline *)
(* ===================================================================== *)

Module DedupFacts.

Import RagPipeline PyFacts RagFacts.

(** The key [_deduplicate] compares: the first 200 characters. *)
Definition content_key (r : RetrievalResult) : string :=
  prefix_of 200 (content r).

Lemma dedup_loop_elem seen l r :
  r ∈ dedup_loop seen l -> r ∈ l /\ content_key r ∉ seen.
Proof.
  revert seen. induction l as [|x l IH]; intros seen; simpl.
  - by intros ?%elem_of_nil.
  - fold (content_key x). case_bool_decide as Hx.
    + intros [? ?]%IH. split; [by right | done].
    + intros [->|Hr]%elem_of_cons; [split; [left | done]|].
      apply IH in Hr as [? Hn]. split; [by right|].
      intros ?. apply Hn. apply elem_of_union. by right.
Qed.

Lemma dedup_loop_NoDup seen l : NoDup (map content_key (dedup_loop seen l)).
Proof.
  revert seen. induction l as [|x l IH]; intros seen; simpl; [constructor|].
  fold (content_key x). case_bool_decide as Hx; [apply IH|].
  simpl. constructor; [|apply IH].
  intros Hin. apply list_elem_of_fmap in Hin as (y & Hy & Hin).
  apply dedup_loop_elem in Hin as [_ Hn]. apply Hn. rewrite <- Hy. set_solver.
Qed.

Lemma dedup_loop_sublist seen l : dedup_loop seen l `sublist_of` l.
Proof.
  revert seen. induction l as [|x l IH]; intros seen; simpl; [constructor|].
  case_bool_decide; [apply sublist_cons, IH | apply sublist_skip, IH].
Qed.

(** An element whose key was not seen, and is not carried by anything
    before it, is kept. *)
Lemma dedup_loop_first seen before r after :
  content_key r ∉ seen ->
  content_key r ∉ map content_key before ->
  r ∈ dedup_loop seen (before ++ r :: after).
Proof.
  revert seen. induction before as [|x before IH]; intros seen Hs Hb; simpl.
  - fold (content_key r). rewrite bool_decide_false by done. left.
  - simpl in Hb. apply not_elem_of_cons in Hb as [Hx Hb].
    fold (content_key x). case_bool_decide.
    + by apply IH.
    + right. apply IH; [|done].
      intros [?%elem_of_singleton|?]%elem_of_union; done.
Qed.

Lemma dedup_loop_covers seen l r :
  r ∈ l ->
  content_key r ∈ seen \/ content_key r ∈ map content_key (dedup_loop seen l).
Proof.
  revert seen. induction l as [|x l IH]; intros seen; simpl.
  - by intros ?%elem_of_nil.
  - fold (content_key x). intros [->|Hr]%elem_of_cons.
    + case_bool_decide; [by left|]. right. simpl. left.
    + case_bool_decide.
      * by apply IH.
      * destruct (IH ({[content_key x]} ∪ seen) Hr) as [Hin|Hin].
        -- apply elem_of_union in Hin as [->%elem_of_singleton|Hin];
             [right; simpl; left | by left].
        -- right. simpl. by right.
Qed.

(** A list that already has distinct unseen keys goes through unchanged. *)
Lemma dedup_loop_fixed seen l :
  NoDup (map content_key l) ->
  (forall r, r ∈ l -> content_key r ∉ seen) ->
  dedup_loop seen l = l.
Proof.
  revert seen. induction l as [|x l IH]; intros seen Hnd Hs; simpl; [done|].
  simpl in Hnd. apply NoDup_cons in Hnd as [Hx Hnd].
  fold (content_key x). rewrite bool_decide_false by (apply Hs; left).
  f_equal. apply IH; [done|].
  intros r Hr Hin. apply elem_of_union in Hin as [Hin%elem_of_singleton|Hin].
  - apply Hx. rewrite <- Hin. apply list_elem_of_fmap. eauto.
  - by apply (Hs r); [right|].
Qed.

Lemma deduplicate_loop l : _deduplicate l = dedup_loop ∅ l.
Proof. by destruct l. Qed.

Lemma deduplicate_distinct_keys l : NoDup (map content_key (_deduplicate l)).
Proof. rewrite deduplicate_loop. apply dedup_loop_NoDup. Qed.

(** X1.  The results [_deduplicate] returns carry pairwise different
    200-character prefixes, and they are results of the input, in the
    input's order. *)
Theorem deduplicate_distinct_prefixes (results : list RetrievalResult) :
  NoDup (map content_key (_deduplicate results))
  /\ _deduplicate results `sublist_of` results.
Proof.
  rewrite deduplicate_loop. split; [apply dedup_loop_NoDup | apply dedup_loop_sublist].
Qed.

(** X2.  Of the results that share a 200-character prefix, the one seen
    first is the one kept: a result preceded by no result with its prefix
    is in the output, whatever follows it; and so every prefix of the
    input is still represented in the output. *)
Theorem deduplicate_keeps_first (before after : list RetrievalResult)
  (r : RetrievalResult) :
  content_key r ∉ map content_key before ->
  r ∈ _deduplicate (before ++ r :: after)
  /\ Forall (fun x => content_key x ∈ map content_key
                        (_deduplicate (before ++ r :: after)))
       (before ++ r :: after).
Proof.
  intros Hb. rewrite deduplicate_loop. split.
  - apply dedup_loop_first; [set_solver | done].
  - apply Forall_forall. intros x Hx.
    destruct (dedup_loop_covers ∅ _ x Hx) as [Hin|Hin]; [set_solver | done].
Qed.

(** X3.  De-duplicating twice changes nothing. *)
Theorem deduplicate_idempotent (results : list RetrievalResult) :
  _deduplicate (_deduplicate results) = _deduplicate results.
Proof.
  rewrite !deduplicate_loop. apply dedup_loop_fixed.
  - apply dedup_loop_NoDup.
  - intros r _. set_solver.
Qed.

(** Two passages that agree on their first 200 characters and differ
    after them, around a third one. *)
Definition long_prefix : string := text (replicate 200 "x"%char).
Definition passage (c : string) : RetrievalResult := mkResult c [] 0 sparse.

Lemma deduplicate_keeps_first_witness :
  passage (long_prefix +:+ "A")
    ∈ _deduplicate ([passage "other"] ++ passage (long_prefix +:+ "A")
                      :: [passage (long_prefix +:+ "B")])
  /\ Forall (fun x => content_key x ∈ map content_key
               (_deduplicate ([passage "other"] ++ passage (long_prefix +:+ "A")
                                :: [passage (long_prefix +:+ "B")])))
       ([passage "other"] ++ passage (long_prefix +:+ "A")
          :: [passage (long_prefix +:+ "B")]).
Proof.
  apply (deduplicate_keeps_first [passage "other"] [passage (long_prefix +:+ "B")]
           (passage (long_prefix +:+ "A"))).
  vm_compute. intros H. apply list_elem_of_singleton in H. discriminate H.
Defined.

Example dedup_by_prefix :
  _deduplicate [passage "other"; passage (long_prefix +:+ "A");
                passage (long_prefix +:+ "B")]
  = [passage "other"; passage (long_prefix +:+ "A")].
Proof. vm_compute. reflexivity. Qed.

End DedupFacts.

Module FusionFacts.

Import RagPipeline PyFacts RagFacts.

(** [a] may stand before [b] in a list sorted by descending score. *)
Definition score_ge (a b : RetrievalResult) : Prop := (score b <= score a)%Q.

Lemma insert_desc_sorted x l :
  StronglySorted score_ge l -> StronglySorted score_ge (insert_desc x l).
Proof.
  induction 1 as [|y l Hl IH Hy]; simpl.
  - repeat constructor.
  - destruct (Qle_bool (score y) (score x)) eqn:Hle.
    + apply Qle_bool_iff in Hle.
      constructor; [by constructor|].
      constructor; [done|].
      eapply Forall_impl; [exact Hy|].
      intros z Hz. unfold score_ge in *. by eapply Qle_trans.
    + constructor; [done|].
      apply Forall_forall. intros z Hz.
      apply insert_desc_elem in Hz as [->|Hz].
      * unfold score_ge. apply Qlt_le_weak, Qnot_le_lt.
        intros H. apply Qle_bool_iff in H. congruence.
      * rewrite Forall_forall in Hy. by apply Hy.
Qed.

Lemma sorted_desc_sorted l : StronglySorted score_ge (sorted_desc l).
Proof.
  induction l as [|x l IH]; simpl; [constructor | by apply insert_desc_sorted].
Qed.

Lemma insert_desc_perm x l : insert_desc x l ≡ₚ x :: l.
Proof.
  induction l as [|y l IH]; simpl; [done|].
  destruct (Qle_bool _ _); [done|].
  rewrite IH. apply Permutation_swap.
Qed.

Lemma sorted_desc_perm l : sorted_desc l ≡ₚ l.
Proof.
  induction l as [|x l IH]; simpl; [done|].
  by rewrite insert_desc_perm, IH.
Qed.

(** X4.  The fused list is in descending order of fused score: every
    result scores at least as much as every result after it. *)
Theorem merge_results_sorted (dense_results sparse_results : list PyObj) :
  StronglySorted score_ge (_merge_results dense_results sparse_results).
Proof. apply sorted_desc_sorted. Qed.

(** *** The keys of the dict *)

(** Every entry sits under its own content, and no key occurs twice. *)
Definition keyed (d : Dict) : Prop :=
  NoDup (map fst d) /\ Forall (fun kv => content (snd kv) = fst kv) d.

Lemma dict_mem_keys d k : dict_mem d k = true <-> k ∈ map fst d.
Proof.
  unfold dict_mem. induction d as [|[k' v] d IH]; simpl.
  - split; [done | by intros ?%elem_of_nil].
  - destruct (String.eqb_spec k' k) as [->|Hne].
    + split; [left | done].
    + rewrite IH, elem_of_cons. split; [by right | by intros [?|?]].
Qed.

Lemma dict_alter_keys f k d : map fst (dict_alter f k d) = map fst d.
Proof.
  induction d as [|[k' v] d IH]; simpl; [done|].
  destruct (String.eqb k' k); simpl; congruence.
Qed.

Lemma dict_alter_keyed f k d :
  (forall v, content (f v) = content v) -> keyed d -> keyed (dict_alter f k d).
Proof.
  intros Hf [Hnd Hc]. split; [by rewrite dict_alter_keys|].
  clear Hnd. induction Hc as [|[k' v] d Hv Hd IH]; simpl; [constructor|].
  destruct (String.eqb k' k); constructor; simpl in *; try done.
  by rewrite Hf.
Qed.

Lemma dict_add_keyed k v d :
  dict_mem d k = false -> content v = k -> keyed d -> keyed (dict_add k v d).
Proof.
  intros Hmem Hv [Hnd Hc]. unfold dict_add. split.
  - rewrite map_app. apply NoDup_app. split_and!; [done | | apply NoDup_singleton].
    intros x Hx ->%list_elem_of_singleton.
    apply dict_mem_keys in Hx. simpl in Hx. congruence.
  - apply Forall_app. split; [done|]. by repeat constructor.
Qed.

Lemma dense_step_keys d rank result :
  keyed d ->
  keyed (dense_step d (rank, result))
  /\ (forall k, k ∈ map fst (dense_step d (rank, result))
                <-> k = dense_content result \/ k ∈ map fst d).
Proof.
  intros Hd. unfold dense_step.
  destruct (dict_mem d (dense_content result)) eqn:Hmem.
  - split; [by repeat apply dict_alter_keyed|].
    intros k. rewrite !dict_alter_keys. apply dict_mem_keys in Hmem.
    split; [by right | by intros [->|?]].
  - split.
    + repeat apply dict_alter_keyed; try done. by apply dict_add_keyed.
    + intros k. rewrite !dict_alter_keys. unfold dict_add.
      rewrite map_app, elem_of_app. simpl. rewrite list_elem_of_singleton. tauto.
Qed.

Lemma sparse_step_keys d rank result :
  keyed d ->
  keyed (sparse_step d (rank, result))
  /\ (forall k, k ∈ map fst (sparse_step d (rank, result))
                <-> k = sparse_content result \/ k ∈ map fst d).
Proof.
  intros Hd. unfold sparse_step.
  assert (forall v, content (match source v with
                             | dense => set_source hybrid v
                             | _ => v
                             end) = content v) as Hp by (by intros [? ? ? []]).
  destruct (dict_mem d (sparse_content result)) eqn:Hmem.
  - split; [by repeat apply dict_alter_keyed|].
    intros k. rewrite !dict_alter_keys. apply dict_mem_keys in Hmem.
    split; [by right | by intros [->|?]].
  - split.
    + repeat apply dict_alter_keyed; try done. by apply dict_add_keyed.
    + intros k. rewrite !dict_alter_keys. unfold dict_add.
      rewrite map_app, elem_of_app. simpl. rewrite list_elem_of_singleton. tauto.
Qed.

Lemma leg_keys (step : Dict -> nat * PyObj -> Dict) (key_of : PyObj -> string)
  items d :
  (forall d rank result, keyed d ->
     keyed (step d (rank, result))
     /\ (forall k, k ∈ map fst (step d (rank, result))
                   <-> k = key_of result \/ k ∈ map fst d)) ->
  keyed d ->
  keyed (fold_left step items d)
  /\ (forall k, k ∈ map fst (fold_left step items d)
                <-> k ∈ map (fun it => key_of (snd it)) items \/ k ∈ map fst d).
Proof.
  intros Hstep. revert d. induction items as [|[rank result] items IH];
    intros d Hd; simpl.
  - split; [done|]. intros k. split; [by right | by intros [?%elem_of_nil|?]].
  - destruct (Hstep d rank result Hd) as [Hk Hin].
    destruct (IH _ Hk) as [Hk' Hin']. split; [done|].
    intros k. rewrite Hin', Hin, elem_of_cons. tauto.
Qed.

Lemma enumerate_snd {A} start (l : list A) : map snd (enumerate start l) = l.
Proof. revert start. induction l as [|x l IH]; intros; simpl; by rewrite ?IH. Qed.

Lemma merged_dict_keys ds ss :
  keyed (merged_dict ds ss)
  /\ (forall k, k ∈ map fst (merged_dict ds ss)
                <-> k ∈ map dense_content ds \/ k ∈ map sparse_content ss).
Proof.
  unfold merged_dict.
  destruct (leg_keys dense_step dense_content (enumerate 1 ds) [])
    as [Hk1 Hin1]; [apply dense_step_keys | split; simpl; constructor|].
  destruct (leg_keys sparse_step sparse_content (enumerate 1 ss) _
              sparse_step_keys Hk1) as [Hk2 Hin2].
  split; [done|]. intros k. rewrite Hin2, Hin1.
  rewrite <- !(map_map snd), !enumerate_snd. simpl.
  rewrite elem_of_nil. tauto.
Qed.

Lemma keyed_contents d :
  Forall (fun kv => content (snd kv) = fst kv) d ->
  map content (dict_values d) = map fst d.
Proof.
  unfold dict_values. induction 1 as [|kv d Hkv Hd IH]; simpl; [done|].
  by rewrite Hkv, IH.
Qed.

(** X5.  Fusion merges by content: no two fused results have the same
    content, and the contents present are exactly those of the dense leg
    together with those of the sparse leg -- nothing is dropped, nothing
    is made up. *)
Theorem merge_results_contents (dense_results sparse_results : list PyObj) :
  NoDup (map content (_merge_results dense_results sparse_results))
  /\ (forall c,
        c ∈ map content (_merge_results dense_results sparse_results)
        <-> c ∈ map dense_content dense_results
            \/ c ∈ map sparse_content sparse_results).
Proof.
  destruct (merged_dict_keys dense_results sparse_results) as [[Hnd Hc] Hin].
  assert (map content (dict_values (merged_dict dense_results sparse_results))
          = map fst (merged_dict dense_results sparse_results)) as Heq.
  { by apply keyed_contents. }
  assert (map content (_merge_results dense_results sparse_results)
          ≡ₚ map fst (merged_dict dense_results sparse_results)) as Hperm.
  { unfold _merge_results. rewrite <- Heq. apply fmap_Permutation, sorted_desc_perm. }
  split.
  - by rewrite Hperm.
  - intros c. by rewrite Hperm, Hin.
Qed.

(** The rule for an item of both legs, applied to "beta": second in the
    dense leg and first in the sparse one. *)
Lemma merge_by_leg_witness :
  exists r,
    dict_get (merged_dict [store_doc "alpha"; store_doc "beta"]
                          [corpus_doc "beta"; corpus_doc "gamma"]) "beta" = Some r
    /\ r ∈ _merge_results [store_doc "alpha"; store_doc "beta"]
                          [corpus_doc "beta"; corpus_doc "gamma"]
    /\ (score r == rrf 2 + rrf 1)%Q
    /\ source r = hybrid.
Proof.
  destruct (merge_by_leg [store_doc "alpha"; store_doc "beta"]
              [corpus_doc "beta"; corpus_doc "gamma"] "beta") as (Hboth & _ & _).
  apply (Hboth [store_doc "alpha"] (store_doc "beta") []
               [] (corpus_doc "beta") [corpus_doc "gamma"]);
    try reflexivity;
    try (by intros ?%elem_of_nil);
    intros H; apply list_elem_of_singleton in H; discriminate H.
Defined.

End FusionFacts.

Module SearchFacts.

Import RagPipeline PyFacts RagFacts DedupFacts FusionFacts.

(** *** Re-ranking *)




(** *** The sparse leg *)

Definition pair_le (a b : nat * Q) : Prop := (snd a <= snd b)%Q.

Lemma insert_asc_perm x l : insert_asc x l ≡ₚ x :: l.
Proof.
  induction l as [|y l IH]; simpl; [done|].
  destruct (Qle_bool _ _); [done|].
  rewrite IH. apply Permutation_swap.
Qed.

Lemma insert_asc_sorted x l :
  StronglySorted pair_le l -> StronglySorted pair_le (insert_asc x l).
Proof.
  induction 1 as [|y l Hl IH Hy]; simpl.
  - repeat constructor.
  - destruct (Qle_bool (snd x) (snd y)) eqn:Hle.
    + apply Qle_bool_iff in Hle.
      constructor; [by constructor|].
      constructor; [done|].
      eapply Forall_impl; [exact Hy|].
      intros z Hz. unfold pair_le in *. by eapply Qle_trans.
    + constructor; [done|].
      apply Forall_forall. intros z Hz.
      rewrite insert_asc_perm in Hz. apply elem_of_cons in Hz as [->|Hz].
      * unfold pair_le. apply Qlt_le_weak, Qnot_le_lt.
        intros H. apply Qle_bool_iff in H. congruence.
      * rewrite Forall_forall in Hy. by apply Hy.
Qed.

Lemma sort_asc_perm l : foldr insert_asc [] l ≡ₚ l.
Proof.
  induction l as [|x l IH]; simpl; [done|]. by rewrite insert_asc_perm, IH.
Qed.

Lemma sort_asc_sorted l : StronglySorted pair_le (foldr insert_asc [] l).
Proof.
  induction l as [|x l IH]; simpl; [constructor | by apply insert_asc_sorted].
Qed.

Lemma enumerate_scores (f : nat -> Q) start n :
  enumerate start (map f (seq start n)) = map (fun i => (i, f i)) (seq start n).
Proof.
  revert start. induction n as [|n IH]; intros start; simpl; [done|].
  by rewrite IH.
Qed.

(** [argsort] over the scores of [n] documents: a rearrangement of the
    indices below [n], in ascending order of score. *)
Lemma argsort_spec (f : nat -> Q) n :
  argsort (map f (seq 0 n)) ≡ₚ seq 0 n
  /\ StronglySorted (fun i j => (f i <= f j)%Q) (argsort (map f (seq 0 n))).
Proof.
  unfold argsort. rewrite enumerate_scores.
  set (pairs := map (fun i => (i, f i)) (seq 0 n)).
  assert (Forall (fun p => snd p = f (fst p)) (foldr insert_asc [] pairs)) as Hf.
  { rewrite sort_asc_perm. subst pairs. apply Forall_forall.
    intros p Hp. apply list_elem_of_fmap in Hp as (i & -> & _). done. }
  split.
  - rewrite sort_asc_perm. subst pairs. rewrite map_map. simpl. by rewrite map_id.
  - pose proof (sort_asc_sorted pairs) as Hs. revert Hf Hs.
    generalize (foldr insert_asc [] pairs). intros l Hf Hs.
    induction Hs as [|p l Hl IH Hp]; simpl; [constructor|].
    apply Forall_cons in Hf as [Hpf Hf].
    constructor; [by apply IH|].
    rewrite Forall_forall in Hp, Hf. apply Forall_forall.
    intros i Hi. apply list_elem_of_fmap in Hi as (q & -> & Hq).
    specialize (Hp q Hq). unfold pair_le in Hp.
    by rewrite Hpf, (Hf q Hq) in Hp.
Qed.

Lemma StronglySorted_rev {A} (R : A -> A -> Prop) l :
  StronglySorted R l -> StronglySorted (fun a b => R b a) (rev l).
Proof.
  induction 1 as [|x l Hl IH Hx]; simpl; [constructor|].
  apply StronglySorted_app. split_and!; [|done | repeat constructor].
  intros a b Ha Hb. apply list_elem_of_singleton in Hb as ->.
  rewrite Forall_forall in Hx. apply Hx.
  apply list_elem_of_In. apply in_rev. by apply list_elem_of_In.
Qed.

Lemma omap_lookup {A} (l : list A) idx :
  (forall i, i ∈ idx -> i < length l) ->
  Forall2 (fun i x => l !! i = Some x) idx (omap (fun i => l !! i) idx).
Proof.
  induction idx as [|i idx IH]; intros Hlt; csimpl; [constructor|].
  destruct (lookup_lt_is_Some_2 l i) as [x Hx]; [apply Hlt; left|].
  rewrite Hx. constructor; [done|]. apply IH. intros j Hj. apply Hlt. by right.
Qed.

Section Sparse.

Variable documents : list PyObj.
Variable bm25_score : list string -> nat -> Q.

(** How many items [l[-k:]] keeps of [n]. *)
Definition kept (k : Z) (n : nat) : nat :=
  if (0 <? k)%Z then Nat.min (Z.to_nat k) n else n - Z.to_nat (- k).

Lemma slice_from_kept {A} k (l : list A) :
  length (slice_from (- k) l) = kept k (length l)
  /\ exists skipped, l = skipped ++ slice_from (- k) l.
Proof.
  unfold slice_from, kept. split.
  - destruct (Z.ltb_spec (- k) 0), (Z.ltb_spec 0 k); try lia;
      rewrite length_drop; lia.
  - destruct (- k <? 0)%Z; eexists; symmetry; apply take_drop.
Qed.

(** The ranking behind the sparse leg: the indices returned, best first. *)
Lemma sparse_leg_ranking s k :
  exists idx docs,
    sparse_leg documents bm25_score (JStr s) k = Ok docs
    /\ Forall2 (fun i d => documents !! i = Some d) idx docs
    /\ length idx = kept k (length documents)
    /\ NoDup idx
    /\ StronglySorted
         (fun i j => (bm25_score (split s) j <= bm25_score (split s) i)%Q) idx
    /\ (forall i j, i ∈ idx -> j < length documents -> j ∉ idx ->
                    (bm25_score (split s) j <= bm25_score (split s) i)%Q).
Proof.
  unfold sparse_leg.
  destruct documents as [|d0 ds] eqn:Hdocs.
  { exists [], []. split_and!; try done; try constructor.
    - unfold kept. simpl. destruct (0 <? k)%Z; lia.
    - by intros i j ?%elem_of_nil. }
  rewrite <- Hdocs. unfold get_scores.
  set (f := bm25_score (split s)). set (n := length documents).
  destruct (argsort_spec f n) as [Hperm Hsorted].
  destruct (slice_from_kept k (argsort (map f (seq 0 n)))) as [Hlen [skipped Hsplit]].
  set (order := argsort (map f (seq 0 n))) in *.
  set (suffix := slice_from (- k) order) in *.
  assert (forall i, i ∈ order <-> i < n) as Hrange.
  { intros i. rewrite Hperm, list_elem_of_In, in_seq. lia. }
  assert (forall i, i ∈ rev suffix <-> i ∈ suffix) as Hrev.
  { intros i. rewrite !list_elem_of_In. symmetry. apply in_rev. }
  exists (rev suffix), (omap (fun i => documents !! i) (rev suffix)).
  split_and!.
  - reflexivity.
  - apply omap_lookup. intros i Hi. apply Hrev in Hi.
    apply Hrange. rewrite Hsplit. apply elem_of_app. by right.
  - rewrite length_rev, Hlen. f_equal.
    subst order. by rewrite Hperm, length_seq.
  - apply NoDup_ListNoDup, NoDup_rev, NoDup_ListNoDup.
    assert (NoDup order) as Hnd by (rewrite Hperm; apply NoDup_seq).
    rewrite Hsplit in Hnd. by apply NoDup_app in Hnd as (_ & _ & ?).
  - apply (StronglySorted_rev (fun i j => (f i <= f j)%Q)).
    rewrite Hsplit in Hsorted. by apply StronglySorted_app_1_r in Hsorted.
  - intros i j Hi Hj Hnj. apply Hrev in Hi.
    assert (j ∈ skipped) as Hjs.
    { apply Hrange in Hj. rewrite Hsplit in Hj.
      apply elem_of_app in Hj as [?|Hj]; [done|].
      exfalso. apply Hnj. by apply Hrev. }
    rewrite Hsplit in Hsorted.
    by apply (StronglySorted_app_1_elem_of _ _ _ _ _ Hsorted).
Qed.

(** X8.  For a text query the sparse leg returns [min k n] of the [n]
    documents when [k] is positive -- but all [n] of them when [k] is 0,
    and all but the [-k] lowest-scored when [k] is negative: the slice
    [[-k:]] does not clamp. *)
Theorem sparse_leg_count (s : string) (k : Z) :
  exists docs,
    sparse_leg documents bm25_score (JStr s) k = Ok docs
    /\ length docs
       = if (0 <? k)%Z then Nat.min (Z.to_nat k) (length documents)
         else length documents - Z.to_nat (- k).
Proof.
  destruct (sparse_leg_ranking s k) as (idx & docs & Hrun & Hdocs & Hlen & _).
  exists docs. split; [done|].
  apply Forall2_length in Hdocs. by rewrite <- Hdocs, Hlen.
Qed.

(** X9.  What the sparse leg returns are documents of the corpus, none
    twice, best BM25 score first, and no document left out scores higher
    than one returned. *)
Theorem sparse_leg_top_k (s : string) (k : Z) :
  exists idx docs,
    sparse_leg documents bm25_score (JStr s) k = Ok docs
    /\ Forall2 (fun i d => documents !! i = Some d) idx docs
    /\ NoDup idx
    /\ StronglySorted
         (fun i j => (bm25_score (split s) j <= bm25_score (split s) i)%Q) idx
    /\ Forall (fun i =>
         Forall (fun j => j ∈ idx
                          \/ (bm25_score (split s) j <= bm25_score (split s) i)%Q)
                (seq 0 (length documents))) idx.
Proof.
  destruct (sparse_leg_ranking s k)
    as (idx & docs & Hrun & Hdocs & _ & Hnd & Hsorted & Htop).
  exists idx, docs. split_and!; try done.
  apply Forall_forall. intros i Hi. apply Forall_forall. intros j Hj.
  destruct (decide (j ∈ idx)) as [?|Hnj]; [by left|]. right.
  apply Htop; try done. apply list_elem_of_In, in_seq in Hj. lia.
Qed.

End Sparse.

(** *** Comparison across years *)

Section Years.

Variable vector_store : option (json -> Z -> result (list PyObj)).
Variable documents : list PyObj.
Variable bm25_score : list string -> nat -> Q.

Definition search_year (query year : string) : result (list RetrievalResult) :=
  hybrid_search vector_store documents bm25_score (JStr (year_query query year)) 5.

Lemma compare_loop_entries query years acc m :
  compare_loop vector_store documents bm25_score query years acc = Ok m ->
  forall y rs,
    m !! y = Some rs
    <-> (y ∈ years /\ search_year query y = Ok rs)
        \/ ((y ∉ years) /\ acc !! y = Some rs).
Proof.
  revert acc. induction years as [|year rest IH]; intros acc; simpl.
  - intros [= <-] y rs. split.
    + intros H. right. split; [by intros ?%elem_of_nil | done].
    + by intros [[?%elem_of_nil _]|[_ ?]].
  - fold (search_year query year).
    destruct (search_year query year) as [found|e] eqn:Hfound; [|discriminate].
    simpl. intros Hrest y rs. rewrite (IH _ Hrest y rs).
    rewrite elem_of_cons. destruct (decide (y = year)) as [->|Hne].
    + rewrite lookup_insert_eq, Hfound.
      destruct (decide (year ∈ rest)); naive_solver.
    + rewrite lookup_insert_ne by done. naive_solver.
Qed.

(** X10.  When compare_across_years returns, its map has an entry for
    exactly the years asked for, and the entry of a year is what hybrid
    search, with [k = 5], returns for the query with that year's
    qualifier appended. *)
Theorem compare_across_years_entries (query : string) (years : list string)
  (m : gmap string (list RetrievalResult)) :
  compare_across_years vector_store documents bm25_score query years = Ok m ->
  forall y rs,
    m !! y = Some rs <-> y ∈ years /\ search_year query y = Ok rs.
Proof.
  intros Hm y rs. rewrite (compare_loop_entries _ _ _ _ Hm), lookup_empty.
  split; [by intros [?|[_ ?]] | by left].
Qed.

End Years.





Lemma compare_across_years_entries_witness :
  exists m,
    compare_across_years (Some store_ex) corpus_ex bm25_ex "risk" ["2022"; "2023"]
    = Ok m
    /\ forall y rs,
         m !! y = Some rs
         <-> y ∈ ["2022"; "2023"]
             /\ search_year (Some store_ex) corpus_ex bm25_ex "risk" y = Ok rs.
Proof.
  eexists. split; [reflexivity|].
  apply (compare_across_years_entries (Some store_ex) corpus_ex bm25_ex
           "risk" ["2022"; "2023"]).
  reflexivity.
Defined.

(** *** The whole pipeline *)

Section Retrieve.

Variable vector_store : option (json -> Z -> result (list PyObj)).
Variable documents : list PyObj.
Variable bm25_score : list string -> nat -> Q.
Variable chat_create : string -> string -> result (option string).
Variable json_loads : string -> result json.
Variable predict : list (json * string) -> list Q.

(** X11.  No two results of [retrieve] share their first 200 characters. *)
Theorem retrieve_distinct_prefixes (query : string) (st st' : Pipeline)
  (rs : list RetrievalResult) :
  retrieve vector_store documents bm25_score chat_create json_loads predict
    query st = Ok (rs, st') ->
  NoDup (map content_key rs).
Proof.
  intros H. unfold retrieve in H.
  apply bind_ok in H as (all & st1 & _ & [= <- <-]).
  eapply sublist_NoDup; [apply (deduplicate_distinct_keys all)|].
  apply (fmap_sublist content_key), sublist_take.
Qed.

Lemma retrieve_step_nothing acc sq st :
  retrieve_step None [] bm25_score predict acc sq st = Ok (acc, st).
Proof.
  unfold retrieve_step, bind.
  change (search_and_rerank None [] bm25_score predict sq st)
    with (Ok (([] : list RetrievalResult), st)).
  unfold ret. simpl. by rewrite app_nil_r.
Qed.

Lemma retrieve_loop_nothing sqs acc st :
  for_each (retrieve_step None [] bm25_score predict) sqs acc st = Ok (acc, st).
Proof.
  revert acc st. induction sqs as [|sq sqs IH]; intros acc st; simpl; [done|].
  unfold bind. by rewrite retrieve_step_nothing.
Qed.

(** X12.  A pipeline with no vector store and no documents -- however the
    query is decomposed -- retrieves nothing, and does so without loading
    or calling the re-ranking model. *)
Theorem retrieve_without_sources (query : string) (st : Pipeline) :
  retrieve None [] bm25_score chat_create json_loads predict query st
  = Ok ([], st).
Proof.
  unfold retrieve, bind. by rewrite retrieve_loop_nothing.
Qed.

End Retrieve.

Lemma retrieve_distinct_prefixes_witness :
  exists rs st',
    retrieve (Some store_ex) corpus_ex bm25_ex chat_four loads_ex predict_ex
      "outlook" fresh_pipeline = Ok (rs, st')
    /\ NoDup (map content_key rs).
Proof.
  eexists _, _. split; [vm_compute; reflexivity|].
  eapply (retrieve_distinct_prefixes (Some store_ex) corpus_ex bm25_ex chat_four
            loads_ex predict_ex "outlook" fresh_pipeline).
  vm_compute. reflexivity.
Defined.

End SearchFacts.

(* ===================================================================== *)
(** * Properties of the citation tracker *)
(* ===================================================================== *)

Module StringFacts.

Lemma append_assoc (a b c : string) : (a +:+ b) +:+ c = a +:+ (b +:+ c).
Proof.
  induction a as [|ch a IH]; [reflexivity|].
  change (String ch ((a +:+ b) +:+ c) = String ch (a +:+ (b +:+ c))).
  by f_equal.
Qed.

Lemma append_empty_r (a : string) : a +:+ "" = a.
Proof.
  induction a as [|ch a IH]; [reflexivity|].
  change (String ch (a +:+ "") = String ch a). by f_equal.
Qed.

Lemma chars_app (a b : string) : chars (a +:+ b) = chars a ++ chars b.
Proof.
  induction a as [|ch a IH]; [reflexivity|].
  change (ch :: chars (a +:+ b) = ch :: (chars a ++ chars b)). by f_equal.
Qed.

Lemma text_chars (s : string) : text (chars s) = s.
Proof. apply string_of_list_ascii_of_string. Qed.

Lemma chars_text (l : list ascii) : chars (text l) = l.
Proof. apply list_ascii_of_string_of_list_ascii. Qed.

Lemma take_while_stop {A} (p : A -> bool) l x r :
  Forall (fun a => p a = true) l -> p x = false ->
  take_while p (l ++ x :: r) = l /\ drop_while p (l ++ x :: r) = x :: r.
Proof.
  intros Hl Hx. induction Hl as [|a l Ha Hl IH]; simpl.
  - by rewrite Hx.
  - rewrite Ha. destruct IH as [-> ->]. done.
Qed.

End StringFacts.

Module CitationFacts.

Import Citations StringFacts.

(** A tracker after a series of [add_citation] calls. *)
Definition record_all (adds : list (string * Citation)) (t : CitationTracker)
  : CitationTracker :=
  fold_left (fun t a => add_citation (fst a) (snd a) t) adds t.

(** The citations recorded for one claim, in the order recorded. *)
Definition cited_for (claim : string) (adds : list (string * Citation))
  : list Citation :=
  map snd (filter (fun a => fst a = claim) adds).

Lemma add_citation_lookup claim c t k :
  claim_to_citation (add_citation claim c t) !! k
  = if decide (claim = k)
    then Some (default [] (claim_to_citation t !! claim) ++ [c])
    else claim_to_citation t !! k.
Proof.
  unfold add_citation. simpl. rewrite lookup_alter. case_decide as Hk.
  - subst k. destruct (claim_to_citation t !! claim) as [cs|] eqn:Hc.
    + by rewrite Hc.
    + by rewrite lookup_insert_eq.
  - destruct (claim_to_citation t !! claim); [done|].
    by rewrite lookup_insert_ne.
Qed.

Lemma record_all_spec adds t :
  citations (record_all adds t) = citations t ++ map snd adds
  /\ forall claim,
       claim_to_citation (record_all adds t) !! claim
       = match claim_to_citation t !! claim, cited_for claim adds with
         | None, [] => None
         | old, cs => Some (default [] old ++ cs)
         end.
Proof.
  revert t. induction adds as [|[cl c] adds IH]; intros t; simpl.
  - split; [by rewrite app_nil_r|]. intros claim.
    destruct (claim_to_citation t !! claim); simpl; by rewrite ?app_nil_r.
  - destruct (IH (add_citation cl c t)) as [Hc Hm]. split.
    + rewrite Hc. simpl. by rewrite <- app_assoc.
    + intros claim. rewrite Hm, add_citation_lookup.
      unfold cited_for. rewrite filter_cons. simpl.
      case_decide as Hk; [subst cl|].
      * rewrite ?decide_True by done. simpl.
        destruct (claim_to_citation t !! claim) as [old|]; simpl;
          by rewrite <- ?app_assoc.
      * rewrite ?decide_False by done.
        by destruct (claim_to_citation t !! claim).
Qed.

(** X13.  After any series of [add_citation] calls on a new tracker, the
    tracker lists every citation added, in the order added, and maps each
    claim to exactly the citations added for it, in that order; a claim
    nothing was added for has no entry. *)
Theorem add_citation_records (adds : list (string * Citation)) :
  citations (record_all adds new_tracker) = map snd adds
  /\ forall claim,
       claim_to_citation (record_all adds new_tracker) !! claim
       = match cited_for claim adds with
         | [] => None
         | cs => Some cs
         end.
Proof.
  destruct (record_all_spec adds new_tracker) as [Hc Hm]. split; [done|].
  intros claim. rewrite Hm. simpl. rewrite lookup_empty.
  by destruct (cited_for claim adds).
Qed.

(** X14.  [validate_citations] never reports a claim without a citation
    for a tracker filled through [add_citation]: every claim it lists is
    marked valid. *)
Theorem validate_citations_all_true (adds : list (string * Citation))
  (claim : string) (valid : bool) :
  validate_citations (record_all adds new_tracker) !! claim = Some valid ->
  valid = true.
Proof.
  unfold validate_citations. rewrite lookup_fmap.
  destruct (record_all_spec adds new_tracker) as [_ Hm]. rewrite Hm.
  simpl. rewrite lookup_empty.
  destruct (cited_for claim adds) as [|c cs]; simpl; [done|].
  by intros [= <-].
Qed.

(** *** The sources section *)

(** One numbered line of the list. *)
Definition source_line (item : nat * Citation) : string :=
  pretty (fst item) +:+ ". " +:+ to_markdown (snd item) +:+ nl.

Definition source_lines (items : list (nat * Citation)) : string :=
  fold_right (fun item rest => source_line item +:+ rest) "" items.

Definition rendered (items : list (nat * Citation)) : list string :=
  map (fun item => to_markdown (snd item)) items.

Lemma format_loop_lines seen items output :
  exists shown,
    format_loop seen items output = output +:+ source_lines shown
    /\ shown `sublist_of` items
    /\ NoDup (rendered shown)
    /\ (forall s, s ∈ rendered shown -> s ∉ seen)
    /\ (forall item, item ∈ items ->
          to_markdown (snd item) ∈ seen
          \/ to_markdown (snd item) ∈ rendered shown).
Proof.
  revert seen output. induction items as [|[i c] items IH]; intros seen output.
  - exists []. simpl. split_and!.
    + by rewrite append_empty_r.
    + constructor.
    + constructor.
    + by intros s ?%elem_of_nil.
    + by intros it ?%elem_of_nil.
  - simpl. case_bool_decide as Hseen.
    + destruct (IH seen output) as (shown & Heq & Hsub & Hnd & Hns & Hcov).
      exists shown. split_and!; try done.
      * by apply sublist_cons.
      * intros it [->|Hin]%elem_of_cons; [by left | by apply Hcov].
    + destruct (IH ({[to_markdown c]} ∪ seen)
                   (output +:+ pretty i +:+ ". " +:+ to_markdown c +:+ nl))
        as (shown & Heq & Hsub & Hnd & Hns & Hcov).
      exists ((i, c) :: shown). split_and!.
      * rewrite Heq. simpl. unfold source_line. simpl.
        by rewrite !append_assoc.
      * by apply sublist_skip.
      * simpl. constructor; [|done].
        intros Hin. apply (Hns _ Hin). apply elem_of_union. left.
        by apply elem_of_singleton.
      * intros s [->|Hin]%elem_of_cons; [done|].
        intros Hs. apply (Hns _ Hin). apply elem_of_union. by right.
      * intros it [->|Hin]%elem_of_cons; [right; simpl; left|].
        destruct (Hcov it Hin) as [Hs|Hs].
        -- apply elem_of_union in Hs as [->%elem_of_singleton|Hs];
             [right; simpl; left | by left].
        -- right. simpl. by right.
Qed.

(** X15.  The sources section is empty for a tracker without citations;
    otherwise it is the heading followed by one numbered line per distinct
    rendered citation: each rendering appears exactly once, every
    recorded citation is represented, and the lines come in recording
    order, numbered by position in the citation list (so numbers are
    skipped where a duplicate is dropped). *)
Theorem format_for_report_lines (t : CitationTracker) :
  (citations t = [] -> format_for_report t = "")
  /\ (citations t <> [] ->
      exists shown,
        format_for_report t
        = nl +:+ nl +:+ "## Sources" +:+ nl +:+ nl +:+ source_lines shown
        /\ shown `sublist_of` RagPipeline.enumerate 1 (citations t)
        /\ NoDup (rendered shown)
        /\ Forall (fun c => to_markdown c ∈ rendered shown) (citations t)).
Proof.
  unfold format_for_report. split.
  - by intros ->.
  - intros Hne. destruct (citations t) as [|c cs] eqn:Hc; [done|].
    destruct (format_loop_lines ∅ (RagPipeline.enumerate 1 (c :: cs))
                (nl +:+ nl +:+ "## Sources" +:+ nl +:+ nl))
      as (shown & Heq & Hsub & Hnd & _ & Hcov).
    exists shown. split_and!; [| exact Hsub | exact Hnd |].
    + rewrite Heq. by rewrite !append_assoc.
    + apply Forall_forall. intros x Hx.
      apply list_elem_of_lookup in Hx as [n Hn].
      assert ((1 + n, x) ∈ RagPipeline.enumerate 1 (c :: cs)) as Hin.
      { clear -Hn. generalize 1. revert n Hn.
        induction (c :: cs) as [|y l IH]; intros n Hn start; [done|].
        destruct n as [|n]; simpl in *.
        - injection Hn as ->. rewrite Nat.add_0_r. left.
        - right. replace (start + S n) with (S start + n) by lia. by apply IH. }
      destruct (Hcov _ Hin) as [Hs|Hs]; [by apply not_elem_of_empty in Hs | done].
Qed.

Definition quote_cite : Citation :=
  mkCitation "market_data" "NVDA" None None None
    "https://finance.yahoo.com/quote/NVDA" (Some "2024-01-02T10:00:00").
Definition filing_cite : Citation :=
  mkCitation "10-K" "NVDA" (Some "2023") (Some "Item 1A") None
    "https://sec.example/nvda-10k-2023" None.

Lemma validate_citations_all_true_witness :
  validate_citations
    (record_all [("Current market metrics", quote_cite);
                 ("Supply risk", filing_cite);
                 ("Current market metrics", quote_cite)] new_tracker)
    !! "Supply risk" = Some true
  /\ true = true.
Proof.
  split; [reflexivity|].
  apply (validate_citations_all_true
           [("Current market metrics", quote_cite); ("Supply risk", filing_cite);
            ("Current market metrics", quote_cite)] "Supply risk" true).
  reflexivity.
Defined.

Lemma format_for_report_lines_witness :
  exists shown,
    format_for_report
      (record_all [("Current market metrics", quote_cite);
                   ("Current market metrics", quote_cite);
                   ("Supply risk", filing_cite)] new_tracker)
    = nl +:+ nl +:+ "## Sources" +:+ nl +:+ nl +:+ source_lines shown
    /\ NoDup (rendered shown).
Proof.
  destruct (format_for_report_lines
              (record_all [("Current market metrics", quote_cite);
                           ("Current market metrics", quote_cite);
                           ("Supply risk", filing_cite)] new_tracker))
    as [_ Hlines].
  destruct Hlines as (shown & Heq & _ & Hnd & _); [discriminate|].
  exists shown. by split.
Defined.

(** A duplicate is dropped and its number with it. *)
Example sources_numbering :
  format_for_report
    (record_all [("Current market metrics", quote_cite);
                 ("Current market metrics", quote_cite);
                 ("Supply risk", filing_cite)] new_tracker)
  = nl +:+ nl +:+ "## Sources" +:+ nl +:+ nl +:+
    "1. [Market Data: NVDA at 2024-01-02T10:00:00]" +:+ nl +:+
    "3. [NVDA 10-K 2023, Item 1A](https://sec.example/nvda-10k-2023)" +:+ nl.
Proof. vm_compute. reflexivity. Qed.

End CitationFacts.

(* ===================================================================== *)
(** * Properties of the checks on reports and market data *)
(* ===================================================================== *)

Module CheckFacts.

Import Citations Data Auditor AuditorFacts StringFacts.

(** *** What the citation pattern finds in a rendered citation *)

Lemma search_without_bracket l :
  Forall (fun ch => ch <> "["%char) l -> search_citation l = false.
Proof.
  induction 1 as [|ch l Hch Hl IH]; simpl; [done|].
  destruct ch as [[] [] [] [] [] [] [] []]; try exact IH.
  by destruct Hch.
Qed.

Lemma count_without_match skip l :
  search_citation l = false -> count_citations skip l = 0.
Proof.
  revert skip. induction l as [|ch l IH]; intros skip; [done|].
  cbn [search_citation count_citations].
  destruct (match_citation_at (ch :: l)); [discriminate|].
  intros Hl. destruct skip; by apply IH.
Qed.

Lemma count_skipped skip l : length l <= skip -> count_citations skip l = 0.
Proof.
  revert skip. induction l as [|ch l IH]; intros skip Hs; [done|].
  simpl in Hs. destruct skip as [|skip]; [lia|].
  cbn [count_citations]. apply IH. lia.
Qed.

Definition free_of (ch : ascii) (s : string) : Prop :=
  Forall (fun x => x <> ch) (chars s).

Lemma free_of_app ch a b : free_of ch a -> free_of ch b -> free_of ch (a +:+ b).
Proof. unfold free_of. rewrite chars_app. apply Forall_app_2. Qed.

Lemma not_char_true ch l :
  Forall (fun x => x <> ch) l -> Forall (fun x => not_char ch x = true) l.
Proof.
  intros H. eapply Forall_impl; [exact H|]. intros x Hx. unfold not_char.
  destruct (Ascii.eqb_spec x ch); [done | reflexivity].
Qed.

(** A bracketed text with nothing after it is no citation. *)
Lemma bare_label_not_found label :
  free_of "[" label -> free_of "]" label ->
  search_citation (chars ("[" +:+ label +:+ "]")) = false.
Proof.
  intros Ho Hc. rewrite !chars_app.
  change (chars "[" ++ chars label ++ chars "]")
    with ("["%char :: chars label ++ ["]"%char]).
  assert (match_citation_at ("["%char :: chars label ++ ["]"%char]) = None) as Hm.
  { cbn [match_citation_at].
    destruct (take_while_stop (not_char "]") (chars label) "]"%char [])
      as [-> ->]; [by apply not_char_true | reflexivity|].
    by destruct (chars label). }
  cbn [search_citation]. rewrite Hm.
  apply search_without_bracket, Forall_app_2; [exact Ho|].
  by repeat constructor.
Qed.

(** A label followed by a parenthesised target is one. *)
Lemma link_found label target :
  label <> "" -> free_of "]" label -> target <> "" -> free_of ")" target ->
  match_citation_at (chars ("[" +:+ label +:+ "](" +:+ target +:+ ")")) = Some [].
Proof.
  intros Hl Hlc Ht Htc. rewrite !chars_app.
  change (chars "[" ++ chars label ++ chars "](" ++ chars target ++ chars ")")
    with ("["%char :: chars label ++ "]"%char :: "("%char :: chars target ++ [")"%char]).
  cbn [match_citation_at].
  destruct (take_while_stop (not_char "]") (chars label) "]"%char
              ("("%char :: chars target ++ [")"%char]))
    as [-> ->]; [by apply not_char_true | reflexivity|].
  destruct (chars label) as [|a la] eqn:Hla.
  { destruct label; [done | discriminate]. }
  destruct (take_while_stop (not_char ")") (chars target) ")"%char [])
    as [-> ->]; [by apply not_char_true | reflexivity|].
  destruct (chars target) as [|b lb] eqn:Hlb; [|done].
  destruct target; [done | discriminate].
Qed.

Lemma free_of_fmt_opt ch o :
  free_of ch "None" -> (forall s, o = Some s -> free_of ch s) ->
  free_of ch (fmt_opt o).
Proof. intros Hn Hs. destruct o; simpl; [by apply Hs | done]. Qed.

(** X16.  What [to_markdown] renders and what the auditor's citation
    pattern recognises.  A market-data citation is rendered as a bare
    bracketed label, which the pattern never matches: the auditor counts
    no citation in it.  A filing citation with a non-empty URL is rendered
    as a link, which the pattern matches: the auditor counts one.  (Ticker,
    year, section and time stamp free of square brackets, URL free of a
    closing parenthesis.) *)
Theorem markdown_recognised_by_auditor (c : Citation) (cites : list Citation) :
  free_of "[" (ticker c) -> free_of "]" (ticker c) ->
  (forall s, year c = Some s -> free_of "]" s) ->
  (forall s, section c = Some s -> free_of "]" s) ->
  (forall s, timestamp c = Some s -> free_of "[" s /\ free_of "]" s) ->
  url c <> "" -> free_of ")" (url c) ->
  total_citations (_verify_citations (to_markdown c) cites)
  = if String.eqb (source_type c) "10-K" then 1 else 0.
Proof.
  intros Hto Htc Hy Hs Hts Hu Huc.
  unfold _verify_citations, to_markdown. cbn [total_citations].
  destruct (String.eqb (source_type c) "10-K").
  - set (label := ticker c +:+ " 10-K " +:+ fmt_opt (year c) +:+ ", " +:+
                  fmt_opt (section c)).
    assert (chars ("[" +:+ ticker c +:+ " 10-K " +:+ fmt_opt (year c) +:+ ", " +:+
                   fmt_opt (section c) +:+ "](" +:+ url c +:+ ")")
            = chars ("[" +:+ label +:+ "](" +:+ url c +:+ ")")) as ->.
    { subst label. by rewrite !append_assoc. }
    assert (match_citation_at (chars ("[" +:+ label +:+ "](" +:+ url c +:+ ")"))
            = Some []) as Hm.
    { apply link_found; try done.
      - subst label. by destruct (ticker c).
      - subst label. repeat apply free_of_app; try done.
        + by repeat constructor.
        + apply free_of_fmt_opt; [by repeat constructor | done].
        + by repeat constructor.
        + apply free_of_fmt_opt; [by repeat constructor | done]. }
    destruct (chars ("[" +:+ label +:+ "](" +:+ url c +:+ ")")) as [|ch l] eqn:Hl;
      [discriminate|].
    cbn [count_citations]. rewrite Hm. f_equal.
    apply count_skipped. simpl. lia.
  - set (label := "Market Data: " +:+ ticker c +:+ " at " +:+ fmt_opt (timestamp c)).
    assert (chars ("[Market Data: " +:+ ticker c +:+ " at " +:+
                   fmt_opt (timestamp c) +:+ "]")
            = chars ("[" +:+ label +:+ "]")) as ->.
    { subst label. by rewrite !append_assoc. }
    apply count_without_match, bare_label_not_found; subst label.
    + repeat apply free_of_app; try done; try (by repeat constructor).
      apply free_of_fmt_opt; [by repeat constructor | by intros s [? ?]%Hts].
    + repeat apply free_of_app; try done; try (by repeat constructor).
      apply free_of_fmt_opt; [by repeat constructor | by intros s [? ?]%Hts].
Qed.

Lemma markdown_recognised_by_auditor_witness :
  total_citations (_verify_citations (to_markdown CitationFacts.quote_cite) []) = 0
  /\ total_citations (_verify_citations (to_markdown CitationFacts.filing_cite) []) = 1.
Proof.
  split.
  - apply (markdown_recognised_by_auditor CitationFacts.quote_cite []);
      try (by repeat constructor); try done.
    intros s [= <-]. split; by repeat constructor.
  - apply (markdown_recognised_by_auditor CitationFacts.filing_cite []);
      try (by repeat constructor); try done.
    + intros s [= <-]. by repeat constructor.
    + intros s [= <-]. by repeat constructor.
Defined.

End CheckFacts.

Module NumberFacts.

Import Citations Data Auditor AuditorFacts.











(** *** The auditor on a provider snapshot *)






End NumberFacts.

(* ===================================================================== *)
(** * Properties of the analyst *)
(* ===================================================================== *)

Module AnalystFacts.

Import Citations Data Analyst StringFacts AuditorFacts.

Lemma starts_with_app p rest : starts_with p (p ++ rest) = true.
Proof.
  induction p as [|ch p IH]; simpl; [by destruct rest|].
  by rewrite Ascii.eqb_refl.
Qed.

Lemma lines_heading first rest :
  rest <> [] -> startswith (lines (first :: rest)) first = true.
Proof.
  intros Hr. unfold startswith, lines. destruct rest as [|second rest]; [done|].
  change (join nl (first :: second :: rest))
    with (first +:+ nl +:+ join nl (second :: rest)).
  rewrite chars_app. apply starts_with_app.
Qed.

(** Market data as the analyst needs it: a time stamp, the five figures
    of the table as numbers, a dividend yield that is a number or absent,
    and the citation of the source. *)
Record complete (md : MarketData) (cite : Citation) : Prop := {
  has_stamp : is_Some (md !! "timestamp");
  has_price : exists q, md !! "current_price" = Some (VNum q);
  has_cap : exists q, md !! "market_cap" = Some (VNum q);
  has_shares : exists q, md !! "shares_outstanding" = Some (VNum q);
  has_low : exists q, md !! "52_week_low" = Some (VNum q);
  has_high : exists q, md !! "52_week_high" = Some (VNum q);
  has_yield : md !! "dividend_yield" = None
              \/ exists q, md !! "dividend_yield" = Some (VNum q);
  has_citation : md !! "citation" = Some (VCitation cite)
}.

Section Formatting.

Variable fmt_2f : Q -> string.
Variable fmt_commas : Q -> string.
Variable str_other : PyVal -> string.

Local Abbreviation synthesize := (synthesize fmt_2f fmt_commas str_other).

Lemma summary_ok sec_data md cite :
  complete md cite ->
  exists text, _generate_executive_summary fmt_2f fmt_commas str_other sec_data md
               = Ok text.
Proof.
  intros [_ [p Hp] [c Hc] _ _ _ _ _].
  unfold _generate_executive_summary, dict_get_or. rewrite Hp, Hc. simpl. eauto.
Qed.

Lemma metrics_ok md cite st :
  complete md cite ->
  exists table,
    _format_market_metrics fmt_2f fmt_commas str_other md st
    = Ok (table, add_citation "Current market metrics" cite st).
Proof.
  intros [[stamp Hst] [p Hp] [c Hc] [s Hs] [lo Hlo] [hi Hhi] Hy Hcite].
  unfold _format_market_metrics, item_float, getitem, dict_get_or, bind, lift.
  rewrite Hp, Hc, Hs, Hlo, Hhi, Hst, Hcite.
  destruct Hy as [Hy|[y Hy]]; rewrite Hy; simpl; eauto.
Qed.

Lemma synthesize_report sec_data md cite ticker st :
  complete md cite ->
  exists report,
    synthesize (Some sec_data) (Some md) ticker st
    = Ok (report, add_citation "Current market metrics" cite st)
    /\ startswith report ("# Financial Analysis: " +:+ ticker) = true.
Proof.
  intros Hmd.
  destruct (summary_ok (Some sec_data) md cite Hmd) as [summary Hsum].
  destruct (metrics_ok md cite st Hmd) as [table Htable].
  destruct (has_stamp _ _ Hmd) as [stamp Hstamp].
  unfold Analyst.synthesize, bind, lift, getitem. rewrite Hstamp.
  rewrite Hsum, Htable. cbn [_analyze_risks]. unfold get, ret.
  eexists. split; [reflexivity|]. by apply lines_heading.
Qed.

(** X20.  Given complete market data and filing research, [synthesize]
    returns a report that opens with the heading naming the ticker, and
    leaves the analyst's tracker with exactly one more citation, the
    market-data source, recorded for the claim "Current market metrics".
    Given the same market data but no filing research it raises
    [AttributeError]. *)
Theorem synthesize_complete (sec_data : SecData) (md : MarketData)
  (cite : Citation) (ticker : string) (st : CitationTracker) :
  complete md cite ->
  (exists report,
     synthesize (Some sec_data) (Some md) ticker st
     = Ok (report, add_citation "Current market metrics" cite st)
     /\ startswith report ("# Financial Analysis: " +:+ ticker) = true)
  /\ synthesize None (Some md) ticker st = Raise AttributeError.
Proof.
  intros Hmd. split; [by apply synthesize_report|].
  destruct (summary_ok None md cite Hmd) as [summary Hsum].
  destruct (metrics_ok md cite st Hmd) as [table Htable].
  destruct (has_stamp _ _ Hmd) as [stamp Hstamp].
  unfold Analyst.synthesize, bind, lift, getitem. rewrite Hstamp.
  rewrite Hsum, Htable. reflexivity.
Qed.

(** The keys of the figures the analyst formats. *)
Definition figures : list string :=
  ["current_price"; "market_cap"; "shares_outstanding"; "52_week_low";
   "52_week_high"; "dividend_yield"].

Definition null_or_number (md : MarketData) (key : string) : Prop :=
  md !! key = Some VNone \/ exists q, md !! key = Some (VNum q).

Lemma synthesize_null_figure md sec_data ticker st cite :
  is_Some (md !! "timestamp") ->
  md !! "citation" = Some (VCitation cite) ->
  Forall (null_or_number md) figures ->
  Exists (fun key => md !! key = Some VNone) figures ->
  synthesize sec_data (Some md) ticker st = Raise TypeError.
Proof.
  intros [stamp Hst] Hcite Hall Hbad. unfold figures in *.
  repeat (apply Forall_cons in Hall as [? Hall]). clear Hall.
  unfold null_or_number in *.
  unfold Analyst.synthesize, _generate_executive_summary, _format_market_metrics,
    item_float, getitem, dict_get_or, bind, lift.
  repeat match goal with
         | H : _ \/ _ |- _ => destruct H as [H|[? H]]
         end;
    repeat match goal with
           | H : md !! _ = _ |- _ => rewrite H
           end;
    try reflexivity.
  exfalso.
  repeat (apply Exists_cons in Hbad as [Hbad|Hbad]; [congruence|]).
  by apply Exists_nil in Hbad.
Qed.

(** The same figures, by the provider's names. *)
Definition provider_figures : list string :=
  ["currentPrice"; "marketCap"; "sharesOutstanding"; "fiftyTwoWeekLow";
   "fiftyTwoWeekHigh"; "dividendYield"].

Definition is_number (info : gmap string PyVal) (key : string) : Prop :=
  exists q, info !! key = Some (VNum q).

Lemma snapshot_figures ts ticker info :
  Forall2 (fun key name =>
             MarketData.snapshot ts ticker info !! key
             = Some (dict_get_or info name VNone))
    figures provider_figures.
Proof. by repeat constructor. Qed.

(** X21.  A snapshot of the market agent always carries every key, so the
    analyst's defaults never apply: when the provider leaves out (or
    nulls) any of price, market cap, share count, 52-week low or high, or
    dividend yield -- the others being numbers -- [synthesize] raises
    [TypeError] on the snapshot, with or without filing research. *)
Theorem synthesize_incomplete_snapshot (info : gmap string PyVal)
  (ts ticker : string) (sec_data : option SecData) (st : CitationTracker) :
  Forall (numeric_or_none info) provider_figures ->
  Exists (fun name => ~ is_number info name) provider_figures ->
  synthesize sec_data (Some (MarketData.snapshot ts ticker info)) ticker st
  = Raise TypeError.
Proof.
  intros Hall Hbad.
  pose proof (snapshot_figures ts ticker info) as Hsnap.
  apply (synthesize_null_figure _ _ _ _
           (mkCitation "market_data" ticker None None None
              ("https://finance.yahoo.com/quote/" +:+ ticker) (Some ts))).
  - by exists (VStr ts).
  - reflexivity.
  - clear Hbad. induction Hsnap as [|key name keys names Hk _ IH]; [constructor|].
    apply Forall_cons in Hall as [Hn Hall]. constructor; [|by apply IH].
    unfold null_or_number, numeric_or_none, dict_get_or in *. rewrite Hk.
    destruct (info !! name) as [[]|]; try done; eauto.
  - induction Hsnap as [|key name keys names Hk _ IH].
    { by apply Exists_nil in Hbad. }
    apply Forall_cons in Hall as [Hn Hall].
    apply Exists_cons in Hbad as [Hbad|Hbad]; [|right; by apply IH].
    left. rewrite Hk. unfold numeric_or_none, is_number, dict_get_or in *.
    destruct (info !! name) as [[]|]; try done.
    destruct Hbad. eauto.
Qed.

End Formatting.

Definition full_info : gmap string PyVal :=
  list_to_map [("currentPrice", VNum 100); ("marketCap", VNum 100000000);
               ("sharesOutstanding", VNum 1000000);
               ("fiftyTwoWeekLow", VNum 80); ("fiftyTwoWeekHigh", VNum 120);
               ("dividendYield", VNum 0.01)].

Definition snapshot_cite (ts ticker : string) : Citation :=
  mkCitation "market_data" ticker None None None
    ("https://finance.yahoo.com/quote/" +:+ ticker) (Some ts).

Lemma snapshot_complete ts ticker info :
  Forall (is_number info) provider_figures ->
  complete (MarketData.snapshot ts ticker info) (snapshot_cite ts ticker).
Proof.
  unfold provider_figures. intros Hall.
  repeat (apply Forall_cons in Hall as [[? ?] Hall]). clear Hall.
  split.
  - by exists (VStr ts).
  - change (MarketData.snapshot ts ticker info !! "current_price")
      with (Some (dict_get_or info "currentPrice" VNone)).
    unfold dict_get_or. rewrite H. eauto.
  - change (MarketData.snapshot ts ticker info !! "market_cap")
      with (Some (dict_get_or info "marketCap" VNone)).
    unfold dict_get_or. rewrite H0. eauto.
  - change (MarketData.snapshot ts ticker info !! "shares_outstanding")
      with (Some (dict_get_or info "sharesOutstanding" VNone)).
    unfold dict_get_or. rewrite H1. eauto.
  - change (MarketData.snapshot ts ticker info !! "52_week_low")
      with (Some (dict_get_or info "fiftyTwoWeekLow" VNone)).
    unfold dict_get_or. rewrite H2. eauto.
  - change (MarketData.snapshot ts ticker info !! "52_week_high")
      with (Some (dict_get_or info "fiftyTwoWeekHigh" VNone)).
    unfold dict_get_or. rewrite H3. eauto.
  - right.
    change (MarketData.snapshot ts ticker info !! "dividend_yield")
      with (Some (dict_get_or info "dividendYield" VNone)).
    unfold dict_get_or. rewrite H4. eauto.
  - reflexivity.
Qed.

Lemma full_info_numbers : Forall (is_number full_info) provider_figures.
Proof. repeat constructor; by eexists. Qed.

Lemma synthesize_complete_witness :
  (exists report,
     synthesize PlanFacts.fmt_ex PlanFacts.fmt_ex PlanFacts.str_ex
       (Some (SecResearcher.run (JStr "Read the 10-K") "NVDA"))
       (Some (MarketData.snapshot "2024-01-02T10:00:00" "NVDA" full_info))
       "NVDA" new_tracker
     = Ok (report,
           add_citation "Current market metrics"
             (snapshot_cite "2024-01-02T10:00:00" "NVDA") new_tracker)
     /\ startswith report ("# Financial Analysis: " +:+ "NVDA") = true)
  /\ synthesize PlanFacts.fmt_ex PlanFacts.fmt_ex PlanFacts.str_ex None
       (Some (MarketData.snapshot "2024-01-02T10:00:00" "NVDA" full_info))
       "NVDA" new_tracker
     = Raise AttributeError.
Proof.
  apply (synthesize_complete PlanFacts.fmt_ex PlanFacts.fmt_ex PlanFacts.str_ex).
  apply snapshot_complete, full_info_numbers.
Defined.

Lemma synthesize_incomplete_snapshot_witness :
  synthesize PlanFacts.fmt_ex PlanFacts.fmt_ex PlanFacts.str_ex
    (Some (SecResearcher.run (JStr "Read the 10-K") "NVDA"))
    (Some (MarketData.snapshot "2024-01-02T10:00:00" "NVDA"
             (delete "dividendYield" full_info)))
    "NVDA" new_tracker
  = Raise TypeError.
Proof.
  apply (synthesize_incomplete_snapshot PlanFacts.fmt_ex PlanFacts.fmt_ex
           PlanFacts.str_ex (delete "dividendYield" full_info)).
  - by repeat constructor.
  - do 5 apply Exists_cons_tl. apply Exists_cons_hd.
    intros [q Hq]. discriminate Hq.
Defined.

End AnalystFacts.

(* ===================================================================== *)
(** * Properties of planning and plan execution *)
(* ===================================================================== *)

Module ExecutionFacts.

Import Citations Data Orchestrator PyFacts PlanFacts StringFacts AuditorFacts
  AnalystFacts.

(** *** Fences *)

Lemma split_on_chars_nonempty sep x : split_on_chars sep x <> [].
Proof.
  destruct x as [|ch x]; simpl; [done|].
  destruct (Ascii.eqb ch sep); [done|]. by destruct (split_on_chars sep x).
Qed.

Lemma split_on_chars_app sep x y :
  split_on_chars sep (x ++ sep :: y)
  = split_on_chars sep x ++ split_on_chars sep y.
Proof.
  induction x as [|ch x IH]; simpl.
  - by rewrite Ascii.eqb_refl.
  - destruct (Ascii.eqb ch sep); [by rewrite IH|].
    rewrite IH. pose proof (split_on_chars_nonempty sep x).
    by destruct (split_on_chars sep x).
Qed.

Lemma split_on_chars_whole sep x :
  Forall (fun ch => ch <> sep) x -> split_on_chars sep x = [x].
Proof.
  induction 1 as [|ch x Hch Hx IH]; simpl; [done|].
  destruct (Ascii.eqb_spec ch sep); [done|]. by rewrite IH.
Qed.

Lemma join_split sep x :
  join (String sep "") (map text (split_on_chars sep x)) = text x.
Proof.
  induction x as [|ch x IH]; [reflexivity|].
  cbn [split_on_chars]. destruct (Ascii.eqb_spec ch sep) as [->|Hne].
  - pose proof (split_on_chars_nonempty sep x) as Hn.
    destruct (split_on_chars sep x) as [|w ws] eqn:Hw; [done|].
    change (join (String sep "") (map text ([] :: w :: ws)))
      with ("" +:+ String sep "" +:+ join (String sep "") (map text (w :: ws))).
    by rewrite IH.
  - pose proof (split_on_chars_nonempty sep x) as Hn.
    destruct (split_on_chars sep x) as [|w ws] eqn:Hw; [done|].
    destruct ws as [|w' ws].
    + simpl in *. by rewrite <- IH.
    + change (join (String sep "") (map text ((ch :: w) :: w' :: ws)))
        with (String ch (text w +:+ String sep ""
                         +:+ join (String sep "") (map text (w' :: ws)))).
      change (text (ch :: x)) with (String ch (text x)).
      f_equal. exact IH.
Qed.

Definition newline : ascii := ascii_of_nat 10.

(** X22.  Code fences come off and nothing else changes: a text that
    opens with a fence line (three backquotes and a language tag) and
    closes with a fence line is reduced to exactly what stands between the
    two lines, whatever it is; a text that does not open with a fence is
    returned as it is. *)
Theorem strip_fences_unwraps (lang body other : string) :
  CheckFacts.free_of newline lang ->
  startswith other "```" = false ->
  strip_fences ("```" +:+ lang +:+ nl +:+ body +:+ nl +:+ "```") = body
  /\ strip_fences other = other.
Proof.
  intros Hlang Hother. split; [|unfold strip_fences; by rewrite Hother].
  unfold strip_fences.
  assert (startswith ("```" +:+ lang +:+ nl +:+ body +:+ nl +:+ "```") "```" = true)
    as -> by reflexivity.
  unfold split_on. rewrite !chars_app.
  change (chars nl) with [newline].
  change (chars "```" ++ chars lang ++ [newline] ++ chars body ++ [newline] ++ chars "```")
    with ((chars "```" ++ chars lang) ++ newline :: chars body ++ newline :: chars "```").
  change (ascii_of_nat 10) with newline.
  rewrite split_on_chars_app.
  rewrite (split_on_chars_whole newline (chars "```" ++ chars lang)).
  2:{ apply Forall_app_2; [by repeat constructor | exact Hlang]. }
  rewrite split_on_chars_app.
  rewrite (split_on_chars_whole newline (chars "```")) by (by repeat constructor).
  cbn [app map drop].
  rewrite map_app. cbn [map].
  rewrite !drop_0, last_snoc.
  assert (String.eqb (strip (text (chars "```"))) "```" = true) as -> by reflexivity.
  unfold drop_last. rewrite length_app, length_map. cbn [length].
  replace (length (split_on_chars newline (chars body)) + 1 - 1)
    with (length (map text (split_on_chars newline (chars body))))
    by (rewrite length_map; lia).
  rewrite take_app_length.
  change nl with (String newline "").
  by rewrite join_split, text_chars.
Qed.

Lemma strip_fences_unwraps_witness :
  strip_fences ("```" +:+ "json" +:+ nl +:+ "{}" +:+ nl +:+ "```") = "{}"
  /\ strip_fences "{}" = "{}".
Proof.
  apply (strip_fences_unwraps "json" "{}" "{}"); [by repeat constructor | reflexivity].
Defined.

Section Planner.

Variable planner_run : string -> result (option string).
Variable json_loads : string -> result json.
Variable market_run : string -> result MarketData.
Variable fmt_2f : Q -> string.
Variable fmt_commas : Q -> string.
Variable str_other : PyVal -> string.

Local Abbreviation create_plan := (create_plan planner_run json_loads).
Local Abbreviation execute_plan :=
  (execute_plan market_run fmt_2f fmt_commas str_other).

(** *** Plans are not validated *)

(** X23.  create_plan returns whatever the planner's text parses to,
    unchecked; execute_plan then raises [TypeError] on a plan that is not
    a JSON object and [KeyError] on an object without "steps" -- the
    fallback plan is for text that does not parse, not for a plan of the
    wrong shape. *)
Theorem create_plan_unvalidated (user_query raw ticker : string) (plan : json)
  (st : CitationTracker) :
  planner_run (plan_prompt user_query) = Ok (Some raw) ->
  json_loads (strip_fences (strip raw)) = Ok plan ->
  create_plan user_query = Ok plan
  /\ ((forall fields, plan <> JObj fields) ->
      execute_plan plan ticker st = Raise TypeError)
  /\ (forall fields, plan = JObj fields -> fields_get fields "steps" = None ->
      execute_plan plan ticker st = Raise (KeyError "steps")).
Proof.
  intros Hrun Hparse. split_and!.
  - unfold Orchestrator.create_plan. rewrite Hrun. simpl. by rewrite Hparse.
  - intros Hshape. unfold Orchestrator.execute_plan, bind, lift.
    destruct plan; try reflexivity. by destruct (Hshape fields).
  - intros fields -> Hsteps. unfold Orchestrator.execute_plan, bind, lift.
    simpl. by rewrite Hsteps.
Qed.

End Planner.

Section Agents.

Variable market_run : string -> result MarketData.
Variable fmt_2f : Q -> string.
Variable fmt_commas : Q -> string.
Variable str_other : PyVal -> string.

Local Abbreviation run_agent :=
  (run_agent market_run fmt_2f fmt_commas str_other).
Local Abbreviation execute_step :=
  (execute_step market_run fmt_2f fmt_commas str_other).
Local Abbreviation execute_plan :=
  (execute_plan market_run fmt_2f fmt_commas str_other).

(** *** What a step writes *)

Lemma run_agent_writes a t ticker results st results' st' :
  run_agent a t ticker results st = Ok (results', st') ->
  results' = results \/ exists k o, a = JStr k /\ results' = <[k := o]> results.
Proof.
  unfold Orchestrator.run_agent.
  destruct a as [| | |s| |]; cbn [is_name]; try (intros [= <- <-]; by left).
  repeat match goal with
         | |- context [if String.eqb s ?n then _ else _] =>
             destruct (String.eqb_spec s n) as [->|?]
         end.
  - intros [= <- <-]. right. eauto.
  - intros H. apply bind_ok in H as (md & st1 & _ & [= <- <-]). right. eauto.
  - intros H. apply bind_ok in H as (sd & st1 & _ & H).
    apply bind_ok in H as (md & st2 & _ & H).
    apply bind_ok in H as (report & st3 & _ & [= <- <-]). right. eauto.
  - intros H. apply bind_ok in H as (report & st1 & _ & H).
    apply bind_ok in H as (md & st2 & _ & H).
    apply bind_ok in H as (v & st3 & _ & [= <- <-]). right. eauto.
  - intros [= <- <-]. by left.
Qed.

Lemma execute_step_writes ticker results step st results' st' :
  execute_step ticker results step st = Ok (results', st') ->
  results' = results
  \/ exists k o, subscript step "agent" = Ok (JStr k)
                 /\ results' = <[k := o]> results.
Proof.
  intros H. unfold Orchestrator.execute_step in H.
  apply bind_ok in H as (a & st1 & [Ha ->]%lift_ok & H).
  apply bind_ok in H as (t & st2 & _ & H).
  apply bind_ok in H as (deps & st3 & _ & H).
  apply bind_ok in H as (ready & st4 & _ & H).
  destruct ready; simpl in H.
  - apply run_agent_writes in H as [->|(k & o & -> & ->)]; [by left|].
    right. eauto.
  - injection H as <- <-. by left.
Qed.

(** X24.  The result map only grows, and only by steps of the plan: an
    entry present before a run of steps is present after it, and an
    entry present after it was present before or is under the agent name
    of one of the steps. *)
Theorem results_grow_by_steps (ticker : string) (steps : list json)
  (acc results : ResultMap) (st st' : CitationTracker) :
  for_each (execute_step ticker) steps acc st = Ok (results, st') ->
  (forall k, is_Some (acc !! k) -> is_Some (results !! k))
  /\ (forall k, is_Some (results !! k) ->
        is_Some (acc !! k)
        \/ exists step, step ∈ steps /\ subscript step "agent" = Ok (JStr k)).
Proof.
  revert acc st. induction steps as [|step steps IH]; intros acc st; simpl.
  - intros [= <- <-]. split; [done | by left].
  - intros H. apply bind_ok in H as (acc' & st1 & Hstep & Hrest).
    apply IH in Hrest as [Hkeep Hnew].
    apply execute_step_writes in Hstep as [->|(k' & o & Hagent & ->)].
    + split; [done|]. intros k Hk. destruct (Hnew k Hk) as [?|(s & ? & ?)];
        [by left|]. right. exists s. split; [by right | done].
    + split.
      * intros k Hk. apply Hkeep.
        destruct (decide (k' = k)) as [->|?];
          [rewrite lookup_insert_eq; eauto | by rewrite lookup_insert_ne].
      * intros k Hk. destruct (Hnew k Hk) as [Hin|(s & ? & ?)].
        -- destruct (decide (k' = k)) as [->|?].
           ++ right. exists step. split; [left | done].
           ++ left. by rewrite lookup_insert_ne in Hin.
        -- right. exists s. split; [by right | done].
Qed.

(** *** Steps that can never run *)

Definition roles : list string :=
  ["sec_researcher"; "market_data"; "analyst"; "auditor"].

Lemma typed_keys (results : ResultMap) k :
  map_Forall entry_ok results -> is_Some (results !! k) -> k ∈ roles.
Proof.
  intros Hok [o Ho]. apply Hok in Ho. unfold roles.
  destruct o; simpl in Ho; subst k; set_solver.
Qed.

Lemma deps_blocked (results : ResultMap) deps d :
  d ∈ deps -> results !! d = None -> deps_present results deps = false.
Proof.
  intros Hd Hnone. unfold deps_present. apply not_true_is_false.
  rewrite forallb_forall. intros Hall.
  specialize (Hall d). rewrite <- list_elem_of_In in Hall.
  apply Hall in Hd. apply bool_decide_eq_true in Hd. rewrite Hnone in Hd.
  by destruct Hd.
Qed.

Lemma for_each_typed ticker steps acc st results st' :
  map_Forall entry_ok acc ->
  for_each (execute_step ticker) steps acc st = Ok (results, st') ->
  map_Forall entry_ok results.
Proof.
  revert acc st. induction steps as [|step steps IH]; intros acc st Hacc; simpl.
  - by intros [= <- <-].
  - intros H. apply bind_ok in H as (acc' & st1 & Hstep & Hrest).
    eapply IH; [|exact Hrest].
    by eapply (execute_step_typed market_run fmt_2f fmt_commas str_other).
Qed.

Lemma for_each_app ticker before after acc st :
  for_each (execute_step ticker) (before ++ after) acc st
  = match for_each (execute_step ticker) before acc st with
    | Ok (mid, st1) => for_each (execute_step ticker) after mid st1
    | Raise e => Raise e
    end.
Proof.
  revert acc st. induction before as [|step before IH]; intros acc st; simpl;
    [done|].
  unfold bind. destruct (execute_step ticker acc step st) as [[acc' st1]|e];
    [apply IH | done].
Qed.

(** X25.  A step that depends on a name that is not one of the four role
    ids never runs: taking it out of the plan changes nothing, neither the
    resulting map nor an error raised. *)
Theorem unknown_dependency_is_dead (before after : list json)
  (agent task d ticker : string) (deps : list string) (st : CitationTracker) :
  d ∈ deps -> d ∉ roles ->
  execute_plan (plan_json (before ++ step_json agent task deps :: after)) ticker st
  = execute_plan (plan_json (before ++ after)) ticker st.
Proof.
  intros Hd Hunknown.
  rewrite !(execute_plan_steps market_run fmt_2f fmt_commas str_other).
  rewrite !for_each_app.
  destruct (for_each (execute_step ticker) before ∅ st) as [[mid st1]|e] eqn:Hmid;
    [|done].
  cbn [for_each]. unfold bind at 1.
  rewrite (execute_step_gate market_run fmt_2f fmt_commas str_other).
  rewrite (deps_blocked mid deps d); [done | done |].
  apply for_each_typed in Hmid; [|apply map_Forall_empty].
  destruct (mid !! d) as [o|] eqn:Ho; [|done].
  destruct Hunknown. by apply (typed_keys mid); [|eauto].
Qed.

(** X30.  Whatever the plan, the results of a run are keyed by role ids
    only, and each entry holds the output of its own role: filing research
    under "sec_researcher", market data under "market_data", a report
    under "analyst", a verification under "auditor". *)
Theorem results_keyed_by_role (plan : json) (ticker : string)
  (st st' : CitationTracker) (results : ResultMap) :
  execute_plan plan ticker st = Ok (results, st') ->
  forall key out, results !! key = Some out ->
    key ∈ roles
    /\ match out with
       | OutSec _ => key = "sec_researcher"
       | OutMarket _ => key = "market_data"
       | OutReport _ => key = "analyst"
       | OutAudit _ => key = "auditor"
       end.
Proof.
  intros Hrun key out Hkey.
  apply (execute_plan_typed market_run fmt_2f fmt_commas str_other) in Hrun.
  split; [apply (typed_keys results); eauto|].
  apply Hrun in Hkey. by destruct out.
Qed.

(** *** The fallback plan, run *)

Lemma complete_numeric md cite : complete md cite -> numeric_fields_ok md.
Proof.
  intros [_ [p Hp] [c Hc] [s Hs] _ _ _ _].
  unfold numeric_fields_ok, numeric_or_none. by rewrite Hp, Hc, Hs.
Qed.

(** X26.  The fallback plan runs to the end on complete market data: all
    four roles write their entry -- filing research, the market data, the
    analyst's report, and the auditor's verification of that report
    against that market data -- and the analyst's tracker gains the
    market-data citation. *)
Theorem fallback_plan_completes (user_query ticker : string) (md : MarketData)
  (cite : Citation) (st : CitationTracker) :
  market_run ticker = Ok md ->
  complete md cite ->
  exists report v,
    execute_plan (fallback_plan user_query) ticker st
    = Ok (<["auditor" := OutAudit v]>
            (<["analyst" := OutReport report]>
               (<["market_data" := OutMarket md]>
                  (<["sec_researcher" := sec_output]> ∅))),
          add_citation "Current market metrics" cite st)
    /\ Auditor.verify report [] md = Ok v
    /\ startswith report ("# Financial Analysis: " +:+ ticker) = true.
Proof.
  intros Hrun Hmd.
  destruct (synthesize_report fmt_2f fmt_commas str_other
              (mkSec [] [] "See 10-K filings for details") md cite ticker st Hmd)
    as (report & Hreport & Hhead).
  destruct (verify_numbers_total md (complete_numeric md cite Hmd)) as [nc Hnc].
  assert (exists v, Auditor.verify report [] md = Ok v) as [v Hv].
  { unfold Auditor.verify. rewrite Hnc. simpl. eauto. }
  exists report, v. split; [|by split].
  unfold fallback_plan.
  rewrite (execute_plan_steps market_run fmt_2f fmt_commas str_other).
  cbn [for_each]. unfold bind at 1.
  rewrite (execute_step_gate market_run fmt_2f fmt_commas str_other).
  cbn [deps_present forallb].
  rewrite (run_sec market_run fmt_2f fmt_commas str_other).
  unfold bind at 1.
  rewrite (execute_step_gate market_run fmt_2f fmt_commas str_other).
  cbn [deps_present forallb].
  rewrite (run_market market_run fmt_2f fmt_commas str_other _ _ _ _ md Hrun).
  unfold bind at 1.
  rewrite (execute_step_gate market_run fmt_2f fmt_commas str_other).
  cbn [deps_present forallb].
  rewrite lookup_insert_ne by done. rewrite !lookup_insert_eq.
  rewrite !bool_decide_true by eauto. cbn [andb].
  unfold Orchestrator.run_agent at 1. cbn [is_name String.eqb Ascii.eqb Bool.eqb].
  unfold sec_entry, market_entry.
  rewrite lookup_insert_ne by done. rewrite !lookup_insert_eq.
  unfold sec_output.
  unfold bind at 1. unfold lift at 1. unfold bind at 1. unfold lift at 1.
  unfold bind at 1. rewrite Hreport. unfold ret at 1.
  unfold bind at 1.
  rewrite (execute_step_gate market_run fmt_2f fmt_commas str_other).
  cbn [deps_present forallb].
  rewrite lookup_insert_eq. rewrite !bool_decide_true by eauto. cbn [andb].
  unfold Orchestrator.run_agent. cbn [is_name String.eqb Ascii.eqb Bool.eqb].
  unfold report_entry, market_entry, getitem.
  rewrite lookup_insert_eq. rewrite lookup_insert_ne by done.
  rewrite lookup_insert_eq.
  unfold bind, lift, ret. cbn [rbind default]. change (id md) with md.
  by rewrite Hv.
Qed.

End Agents.

Lemma results_keyed_by_role_witness :
  "market_data" ∈ roles
  /\ match OutMarket (quote_ex "NVDA") with
     | OutSec _ => "market_data" = "sec_researcher"
     | OutMarket _ => "market_data" = "market_data"
     | OutReport _ => "market_data" = "analyst"
     | OutAudit _ => "market_data" = "auditor"
     end.
Proof.
  apply (results_keyed_by_role market_ex fmt_ex fmt_ex str_ex
           (plan_json [step_json "market_data" "Fetch the quote" []]) "NVDA"
           new_tracker new_tracker
           (<["market_data" := OutMarket (quote_ex "NVDA")]> ∅)).
  - reflexivity.
  - apply lookup_insert_eq.
Defined.

Lemma create_plan_unvalidated_witness :
  create_plan (fun _ => Ok (Some "[1, 2]")) RagFacts.loads_ex "Analyze NVDA"
  = Ok (JArr [JNum 1; JNum 2])
  /\ execute_plan market_ex fmt_ex fmt_ex str_ex (JArr [JNum 1; JNum 2]) "NVDA"
       new_tracker = Raise TypeError.
Proof.
  destruct (create_plan_unvalidated (fun _ => Ok (Some "[1, 2]")) RagFacts.loads_ex
              market_ex fmt_ex fmt_ex str_ex "Analyze NVDA" "[1, 2]" "NVDA"
              (JArr [JNum 1; JNum 2]) new_tracker) as (Hplan & Hshape & _);
    [reflexivity | reflexivity |].
  split; [exact Hplan | by apply Hshape].
Defined.

Lemma results_grow_by_steps_witness :
  for_each (execute_step market_ex fmt_ex fmt_ex str_ex "NVDA")
    [step_json "market_data" "Fetch the quote" []]
    (<["sec_researcher" := sec_output]> ∅) new_tracker
  = Ok (<["market_data" := OutMarket (quote_ex "NVDA")]>
          (<["sec_researcher" := sec_output]> ∅), new_tracker)
  /\ is_Some ((<["market_data" := OutMarket (quote_ex "NVDA")]>
                 (<["sec_researcher" := sec_output]> ∅) : ResultMap)
              !! "sec_researcher").
Proof.
  split; [reflexivity|].
  apply (proj1 (results_grow_by_steps market_ex fmt_ex fmt_ex str_ex "NVDA"
                  [step_json "market_data" "Fetch the quote" []]
                  (<["sec_researcher" := sec_output]> ∅)
                  (<["market_data" := OutMarket (quote_ex "NVDA")]>
                     (<["sec_researcher" := sec_output]> ∅))
                  new_tracker new_tracker eq_refl)).
  rewrite lookup_insert_eq. eauto.
Defined.

Lemma unknown_dependency_is_dead_witness :
  execute_plan market_ex fmt_ex fmt_ex str_ex
    (plan_json ([step_json "market_data" "Fetch the quote" []]
                  ++ step_json "analyst" "Write it up" ["market_data"; "reviewer"]
                  :: [step_json "sec_researcher" "Read the 10-K" []]))
    "NVDA" new_tracker
  = execute_plan market_ex fmt_ex fmt_ex str_ex
      (plan_json ([step_json "market_data" "Fetch the quote" []]
                    ++ [step_json "sec_researcher" "Read the 10-K" []]))
      "NVDA" new_tracker.
Proof.
  apply (unknown_dependency_is_dead market_ex fmt_ex fmt_ex str_ex
           [step_json "market_data" "Fetch the quote" []]
           [step_json "sec_researcher" "Read the 10-K" []]
           "analyst" "Write it up" "reviewer" "NVDA" ["market_data"; "reviewer"]).
  - right. left.
  - unfold roles. intros H.
    repeat (apply elem_of_cons in H as [H|H]; [discriminate H|]).
    by apply elem_of_nil in H.
Defined.

Lemma fallback_plan_completes_witness :
  exists report v,
    execute_plan market_ex fmt_ex fmt_ex str_ex (fallback_plan "Analyze NVDA")
      "NVDA" new_tracker
    = Ok (<["auditor" := OutAudit v]>
            (<["analyst" := OutReport report]>
               (<["market_data" := OutMarket (quote_ex "NVDA")]>
                  (<["sec_researcher" := sec_output]> ∅))),
          add_citation "Current market metrics"
            (snapshot_cite "2024-01-02T10:00:00" "NVDA") new_tracker)
    /\ Auditor.verify report [] (quote_ex "NVDA") = Ok v
    /\ startswith report ("# Financial Analysis: " +:+ "NVDA") = true.
Proof.
  apply (fallback_plan_completes market_ex fmt_ex fmt_ex str_ex "Analyze NVDA"
           "NVDA" (quote_ex "NVDA")); [reflexivity|].
  split; try (by eexists); try reflexivity.
  right. by eexists.
Defined.

End ExecutionFacts.

(* ===================================================================== *)
(** * Properties of the session memory and of the cost tracker *)
(* ===================================================================== *)

Module SessionFacts.

Import SessionMemory.

(** X27.  The context window is the tail of the history: for [n > 0] its
    last [n] turns, all of them when there are fewer; for [n = 0] the
    whole history, not an empty window; for [n < 0] the history without
    its first [-n] turns.  The turn just added is the last of every
    window asked with [n > 0]. *)
Theorem context_window_tail (n : Z) (self : Session) :
  (exists older,
     conversation_history self = older ++ get_context_window n self)
  /\ length (get_context_window n self)
     = (if (0 <? n)%Z
        then Nat.min (Z.to_nat n) (length (conversation_history self))
        else length (conversation_history self) - Z.to_nat (- n))
  /\ get_context_window 0 self = conversation_history self
  /\ forall role message metadata now,
       (0 < n)%Z ->
       last (get_context_window n (add_turn role message metadata now self))
       = Some (mkTurn role message (default [] metadata) now).
Proof.
  unfold get_context_window.
  destruct (SearchFacts.slice_from_kept n (conversation_history self))
    as [Hlen Hsuffix].
  split_and!; [exact Hsuffix | exact Hlen | reflexivity |].
  intros role message metadata now Hn. cbn [add_turn conversation_history].
  unfold slice_from. destruct (Z.ltb_spec (- n) 0); [|lia].
  rewrite length_app. cbn [length].
  rewrite drop_app_le by lia.
  apply last_snoc.
Qed.

Lemma context_window_tail_witness :
  last (get_context_window 1 (add_turn "user" "Compare margins" None "t1"
                                (add_turn "user" "Analyze NVDA" None "t0"
                                   new_session)))
  = Some (mkTurn "user" "Compare margins" [] "t1").
Proof.
  apply (context_window_tail 1
           (add_turn "user" "Analyze NVDA" None "t0" new_session)).
  lia.
Defined.

End SessionFacts.

Module LedgerFacts.

Import CostTracker StringFacts.

Local Open Scope Q_scope.

Lemma fold_left_Qplus (l : list Q) (a : Q) :
  fold_left Qplus l a == a + fold_left Qplus l 0.
Proof.
  revert a. induction l as [|x l IH]; intros a; simpl; [ring|].
  rewrite (IH (a + x)), (IH (0 + x)). ring.
Qed.

Lemma total_cons k v (d : Costs) : total ((k, v) :: d) == v + total d.
Proof.
  unfold total. simpl. rewrite fold_left_Qplus. ring.
Qed.

Lemma total_snoc k v (d : Costs) : total (d ++ [(k, v)]) == total d + v.
Proof.
  unfold total. rewrite map_app, fold_left_app. reflexivity.
Qed.

Lemma total_bump k x (d : Costs) :
  is_Some (costs_get d k) -> total (costs_bump k x d) == total d + x.
Proof.
  induction d as [|[k' v] d IH]; simpl; [by intros [? ?]|].
  destruct (String.eqb k' k).
  - intros _. rewrite !total_cons. ring.
  - intros Hk. rewrite !total_cons, (IH Hk). ring.
Qed.

Lemma costs_get_snoc (d : Costs) k v k' :
  costs_get (d ++ [(k, v)]) k'
  = match costs_get d k' with
    | Some w => Some w
    | None => if String.eqb k k' then Some v else None
    end.
Proof.
  induction d as [|[k0 w] d IH]; simpl; [done|].
  by destruct (String.eqb k0 k').
Qed.

Lemma costs_get_bump (d : Costs) k x k' :
  costs_get (costs_bump k x d) k'
  = if String.eqb k k'
    then option_map (fun v => v + x) (costs_get d k)
    else costs_get d k'.
Proof.
  induction d as [|[k0 w] d IH]; simpl; [by destruct (String.eqb k k')|].
  destruct (String.eqb_spec k0 k) as [->|Hne]; simpl.
  - by destruct (String.eqb k k').
  - rewrite IH. destruct (String.eqb_spec k k') as [Heq|?]; [|done].
    rewrite <- Heq. by destruct (String.eqb_spec k0 k).
Qed.

(** What [if k not in d: d[k] = 0; d[k] += x] does to a cost dict. *)
Lemma costs_track_spec k x (d : Costs) :
  costs_get (costs_track k x d) k = Some (default 0 (costs_get d k) + x)
  /\ (forall k', k' <> k -> costs_get (costs_track k x d) k' = costs_get d k')
  /\ total (costs_track k x d) == total d + x.
Proof.
  unfold costs_track. destruct (costs_get d k) as [v|] eqn:Hk.
  - split_and!.
    + by rewrite costs_get_bump, String.eqb_refl, Hk.
    + intros k' Hne. rewrite costs_get_bump.
      by destruct (String.eqb_spec k k') as [->|?].
    + apply total_bump. rewrite Hk. eauto.
  - split_and!.
    + by rewrite costs_get_bump, String.eqb_refl, costs_get_snoc, Hk,
        String.eqb_refl.
    + intros k' Hne. rewrite costs_get_bump.
      destruct (String.eqb_spec k k') as [->|?]; [done|].
      rewrite costs_get_snoc. destruct (costs_get d k'); [done|].
      by destruct (String.eqb_spec k k').
    + rewrite total_bump, total_snoc; [ring|].
      rewrite costs_get_snoc, Hk, String.eqb_refl. eauto.
Qed.

(** X28.  A tracked call adds its cost to its own entry, which starts
    from 0 when the name is new, and by that much to the total of the
    summary; the other entries of the dict, and the other dict, are left
    as they were.  This holds for LLM calls, by model, and for API calls,
    by API name. *)
Theorem tracked_call_accumulates (self : Tracker) :
  (forall model input_tokens output_tokens,
     let cost := llm_call_cost model input_tokens output_tokens in
     let after := track_llm_call model input_tokens output_tokens self in
     costs_get (llm_costs after) model
     = Some (default 0 (costs_get (llm_costs self) model) + cost)
     /\ (forall other, other <> model ->
           costs_get (llm_costs after) other = costs_get (llm_costs self) other)
     /\ api_costs after = api_costs self
     /\ total_cost_usd (get_summary after)
        == total_cost_usd (get_summary self) + cost)
  /\ (forall api_name cost,
        let after := track_api_call api_name cost self in
        costs_get (api_costs after) api_name
        = Some (default 0 (costs_get (api_costs self) api_name) + cost)
        /\ (forall other, other <> api_name ->
              costs_get (api_costs after) other = costs_get (api_costs self) other)
        /\ llm_costs after = llm_costs self
        /\ total_cost_usd (get_summary after)
           == total_cost_usd (get_summary self) + cost).
Proof.
  split.
  - intros model input_tokens output_tokens. cbv zeta.
    destruct (costs_track_spec model
                (llm_call_cost model input_tokens output_tokens) (llm_costs self))
      as (Hown & Hother & Htotal).
    split_and!; [exact Hown | exact Hother | reflexivity |].
    unfold get_summary, track_llm_call.
    cbn [total_cost_usd llm_costs api_costs]. rewrite Htotal. ring.
  - intros api_name cost. cbv zeta.
    destruct (costs_track_spec api_name cost (api_costs self)) as (Hown & Hother & Htotal).
    split_and!; [exact Hown | exact Hother | reflexivity |].
    unfold get_summary, track_api_call.
    cbn [total_cost_usd llm_costs api_costs]. rewrite Htotal. ring.
Qed.

Lemma append_inj_r (s s' suffix : string) :
  s +:+ suffix = s' +:+ suffix -> s = s'.
Proof.
  intros H. apply (f_equal chars) in H. rewrite !chars_app in H.
  apply app_inv_tail in H. by rewrite <- (text_chars s), H, text_chars.
Qed.

Lemma append_suffix (s suffix other : string) :
  s +:+ suffix = other ->
  take (length (chars suffix)) (rev (chars other)) = rev (chars suffix).
Proof.
  intros <-. rewrite chars_app, rev_app_distr.
  rewrite <- length_rev. by rewrite take_app_length.
Qed.

Lemma price_unlisted model suffix :
  (suffix = "-input" \/ suffix = "-output")%string ->
  model <> "gpt-4o"%string -> price (model +:+ suffix) = 0.
Proof.
  intros Hs Hmodel. unfold price, PRICING. cbn [costs_get].
  repeat match goal with
         | |- context [String.eqb ?key (model +:+ suffix)] =>
             destruct (String.eqb_spec key (model +:+ suffix)) as [Heq|_]
         end; try reflexivity; exfalso; symmetry in Heq.
  all: destruct Hs as [-> | ->];
    first [ by apply (append_inj_r model "gpt-4o") in Heq
          | apply append_suffix in Heq; discriminate Heq ].
Qed.

(** X29.  Only "gpt-4o" has a price: a call to a model of any other name
    -- "gpt-4o-mini", an embedding model -- costs 0 whatever its token
    counts, so tracking it leaves the total as it was. *)
Theorem unlisted_model_is_free (model : string) (input_tokens output_tokens : Z)
  (self : Tracker) :
  model <> "gpt-4o"%string ->
  llm_call_cost model input_tokens output_tokens == 0
  /\ total_cost_usd
       (get_summary (track_llm_call model input_tokens output_tokens self))
     == total_cost_usd (get_summary self).
Proof.
  intros Hmodel.
  assert (llm_call_cost model input_tokens output_tokens == 0) as Hfree.
  { unfold llm_call_cost.
    rewrite (price_unlisted model "-input"), (price_unlisted model "-output")
      by auto. ring. }
  split; [exact Hfree|].
  destruct (costs_track_spec model
              (llm_call_cost model input_tokens output_tokens) (llm_costs self))
    as (_ & _ & Htotal).
  unfold get_summary, track_llm_call. cbn [total_cost_usd llm_costs api_costs].
  rewrite Htotal, Hfree. ring.
Qed.

Lemma unlisted_model_is_free_witness :
  llm_call_cost "gpt-4o-mini" 1000 500 == 0
  /\ total_cost_usd (get_summary (track_llm_call "gpt-4o-mini" 1000 500 new_tracker))
     == total_cost_usd (get_summary new_tracker).
Proof.
  apply (unlisted_model_is_free "gpt-4o-mini" 1000 500 new_tracker).
  discriminate.
Defined.

Example gpt_4o_call :
  llm_call_cost "gpt-4o" 1000 500 == 0.0125.
Proof. reflexivity. Qed.

End LedgerFacts.
